(** * vote_plugin: the vote-to-mute lifecycle of [plugin.py]

    A shallow embedding of [VoteBanCommand] (the [execute] handler and the
    deferred [_end_vote_after_delay] task), of the Napcat helpers, of the
    helpers that read a message payload, and of the global
    [vote_summaries] dictionary, followed by the properties of the vote
    lifecycle.

    Python coroutines are embedded as terms of a small monad [coro]: a
    coroutine runs synchronously, reading and updating the global
    dictionary, until it reaches an [await]; there it is suspended and
    any other task of the event loop may run.  [run] executes one
    coroutine alone, against a backend that answers its calls; [dispatch]
    and [resume] are the steps of the event loop, where coroutines
    interleave at their [await]s.  [logger] calls have no effect on the
    state and are left out. *)

From Stdlib Require Import ZArith NArith String Ascii DecimalString.
From Stdlib Require DecimalPos.
From stdpp Require Import gmap list strings.

Local Open Scope Z_scope.

(** ** Python strings *)

(** A Python [str] is a sequence of Unicode code points. *)
Abbreviation pystr := (list N).

(** Literals of the source are written as they are in [plugin.py] and
    decoded from the UTF-8 bytes of the Rocq string. *)
Fixpoint utf8_decode (bs : list N) : pystr :=
  match bs with
  | [] => []
  | b0 :: t0 =>
    if (b0 <? 128)%N then b0 :: utf8_decode t0
    else match t0 with
    | [] => []
    | b1 :: t1 =>
      if (b0 <? 224)%N then ((b0 - 192) * 64 + (b1 - 128))%N :: utf8_decode t1
      else match t1 with
      | [] => []
      | b2 :: t2 =>
        if (b0 <? 240)%N
        then ((b0 - 224) * 4096 + (b1 - 128) * 64 + (b2 - 128))%N :: utf8_decode t2
        else match t2 with
        | [] => []
        | b3 :: t3 =>
          ((b0 - 240) * 262144 + (b1 - 128) * 4096 + (b2 - 128) * 64 + (b3 - 128))%N
            :: utf8_decode t3
        end
      end
    end
  end.

Definition py (s : string) : pystr :=
  utf8_decode (map N_of_ascii (list_ascii_of_string s)).

(** The newline character of the f-strings. *)
Definition nl : pystr := [10%N].

(** [str(n)] for an [int]. *)
Definition str_int (z : Z) : pystr :=
  map N_of_ascii (list_ascii_of_string (NilZero.string_of_int (Z.to_int z))).

(** The character classes and the conversion limit of the running
    interpreter: [digit_value c] is the value of [c] when it is a decimal
    digit (the class of [\d], which [int()] converts), [is_space c] tells
    whitespace (the class of [\s] and of [str.isspace], which [str.strip]
    removes), and [int_max_str_digits] is
    [sys.get_int_max_str_digits()], [0] for no limit.  The minus sign is
    no digit. *)
Class PyRuntime := {
  digit_value : N → option N;
  is_space : N → bool;
  int_max_str_digits : nat;
  minus_sign_no_digit : digit_value 45 = None;
}.

(** The ASCII part of those classes, for concrete runs. *)
Definition ascii_runtime : PyRuntime := {|
  digit_value c := if ((48 <=? c) && (c <=? 57))%N then Some (c - 48)%N else None;
  is_space c := bool_decide (c ∈ [9; 10; 11; 12; 13; 28; 29; 30; 31; 32]%N);
  int_max_str_digits := 4300;
  minus_sign_no_digit := eq_refl;
|}.

Section python.
Context `{PyRuntime}.

Definition is_digit (c : N) : bool := bool_decide (is_Some (digit_value c)).

Fixpoint lstrip (s : pystr) : pystr :=
  match s with
  | c :: rest => if is_space c then lstrip rest else s
  | [] => []
  end.

(** [s.strip()] *)
Definition strip (s : pystr) : pystr := reverse (lstrip (reverse (lstrip s))).

(** The digits of an integer literal, where single underscores may
    separate digits. *)
Fixpoint int_digits (acc : N) (after_digit : bool) (s : pystr) : option N :=
  match s with
  | [] => if after_digit then Some acc else None
  | c :: rest =>
    if (c =? 95)%N then
      if after_digit then int_digits acc false rest else None
    else match digit_value c with
    | Some d => int_digits (acc * 10 + d)%N true rest
    | None => None
    end
  end.

Definition within_digit_limit (s : pystr) : bool :=
  match int_max_str_digits with
  | O => true
  | limit => bool_decide (length (filter (λ c, is_digit c = true) s) ≤ limit)%nat
  end.

(** The blanks [int()] skips around a literal.  It reads the ASCII
    characters as they are and skips those of C's [isspace] among them;
    the separators U+001C to U+001F, which [str.strip] removes, are not
    of them, and a string that holds one is no integer.  Beyond ASCII
    the blanks are those of [is_space]. *)
Definition is_int_space (c : N) : bool :=
  is_space c && negb ((28 <=? c) && (c <=? 31))%N.

Fixpoint int_lstrip (s : pystr) : pystr :=
  match s with
  | c :: rest => if is_int_space c then int_lstrip rest else s
  | [] => []
  end.

Definition int_strip (s : pystr) : pystr :=
  reverse (int_lstrip (reverse (int_lstrip s))).

(** [int(s)] for a [str]: [None] stands for [ValueError]. *)
Definition py_int (s : pystr) : option Z :=
  let body sign digits :=
    if within_digit_limit digits
    then (λ n, sign * Z.of_N n) <$> int_digits 0 false digits
    else None in
  match int_strip s with
  | 43%N :: digits => body 1 digits
  | 45%N :: digits => body (-1) digits
  | digits => body 1 digits
  end.

(** ** Helpers of [plugin.py] *)

Fixpoint _first_non_none {A} (vals : list (option A)) : option A :=
  match vals with
  | Some v :: _ => Some v
  | None :: rest => _first_non_none rest
  | [] => None
  end.

Definition _safe_str (x : option pystr) : pystr := default [] x.

Fixpoint _first_text (vals : list (option pystr)) : pystr :=
  match vals with
  | [] => []
  | None :: rest => _first_text rest
  | Some v :: rest =>
    match strip v with
    | [] => _first_text rest
    | s => s
    end
  end.

(** Truth value of an [Optional[str]]. *)
Definition truthy (x : option pystr) : bool :=
  match x with
  | Some (_ :: _) => true
  | _ => false
  end.

(** ** Regular expressions of the source *)

Fixpoint span (p : N → bool) (s : pystr) : pystr * pystr :=
  match s with
  | c :: rest =>
    if p c then let '(run, tail) := span p rest in (c :: run, tail) else ([], s)
  | [] => ([], [])
  end.

(** [re.search(r"@(\d+)", s)]: group 1 of the leftmost match. *)
Fixpoint search_at_digits (s : pystr) : option pystr :=
  match s with
  | [] => None
  | c :: rest =>
    match (if (c =? 64)%N then (span is_digit rest).1 else []) with
    | [] => search_at_digits rest
    | qq => Some qq
    end
  end.

(** [$]: the end of the string, or just before a final newline. *)
Definition at_end (s : pystr) : bool := bool_decide (s = [] ∨ s = nl).

(** What follows the target: [(?:\s+(?P<minutes>\d+))?$]. *)
Definition match_minutes (s : pystr) : option (option pystr) :=
  let '(ws, s1) := span is_space s in
  let '(ds, s2) := span is_digit s1 in
  match ws, ds with
  | _ :: _, _ :: _ => if at_end s2 then Some (Some ds) else
                      if at_end s then Some None else None
  | _, _ => if at_end s then Some None else None
  end.

Definition with_target (tgt : option pystr) (s : pystr)
  : option (option pystr * option pystr) :=
  (λ m, (tgt, m)) <$> match_minutes s.

(** [(?P<target>\S+)] and what follows: the longest run of
    non-blanks; a shorter one leaves a non-blank behind, where
    neither [\s+] nor [$] can match. *)
Definition match_token (s : pystr) : option (option pystr * option pystr) :=
  let '(tok, s2) := span (λ c, negb (is_space c)) s in
  match tok with
  | [] => None
  | _ => with_target (Some tok) s2
  end.

(** [(?:\s+@?(?P<target>\S+))?] and what follows: the group with
    its [@] consumed, then with the [@] left to the target, then
    without the group. *)
Definition match_target (s : pystr) : option (option pystr * option pystr) :=
  let '(ws, s1) := span is_space s in
  match ws with
  | [] => with_target None s
  | _ =>
    match (match s1 with 64%N :: s1' => Some s1' | _ => None end) ≫= match_token with
    | Some g => Some g
    | None =>
      match match_token s1 with
      | Some g => Some g
      | None => with_target None s
      end
    end
  end.
End python.

(** ** The global dictionary [vote_summaries] *)

(** One entry of [vote_summaries]: the dict built by [execute].  [oid]
    is the identity of the dict object: assignments through a reference
    reach the object that carries this identity and no other. *)
Record vote_record := {
  oid : nat;
  group_id : pystr;
  target_user_id : pystr;
  target_name : pystr;
  minutes : Z;
  yes : nat;
  no : nat;
}.

Record store := {
  vote_summaries : gmap pystr vote_record;
  next_oid : nat;
}.

Definition empty_store : store := {| vote_summaries := ∅; next_oid := 0 |}.

(** [any(v.get('group_id') == g for v in vote_summaries.values())] *)
Definition any_group_id (g : pystr) (st : store) : bool :=
  bool_decide (map_Exists (λ _ v, group_id v = g) (vote_summaries st)).

(** [vote_summaries[key] = {"group_id": g, ..., "yes": 0, "no": 0}] *)
Definition store_vote (key g user name : pystr) (mins : Z) (st : store) : store :=
  {| vote_summaries :=
       <[key := {| oid := next_oid st; group_id := g; target_user_id := user;
                   target_name := name; minutes := mins; yes := 0; no := 0 |}]>
         (vote_summaries st);
     next_oid := S (next_oid st) |}.

(** [vote_info["yes"] = y; vote_info["no"] = n], through the reference
    [vote_info] to the object of identity [o]. *)
Definition set_counts (o : nat) (y n : nat) (st : store) : store :=
  {| vote_summaries :=
       (λ v, if decide (oid v = o)
             then {| oid := oid v; group_id := group_id v;
                     target_user_id := target_user_id v;
                     target_name := target_name v; minutes := minutes v;
                     yes := y; no := n |}
             else v) <$> vote_summaries st;
     next_oid := next_oid st |}.

(** [vote_summaries.pop(key, None)] *)
Definition pop_vote (key : pystr) (st : store) : store :=
  {| vote_summaries := delete key (vote_summaries st); next_oid := next_oid st |}.

(** ** Coroutines *)

(** The exceptions of the source: [ValueError], raised by [int()], and
    [ClientError] for whatever an HTTP exchange raises inside its [try]
    block. *)
Inductive exn := ValueError | ClientError.

(** What a coroutine awaits: [asyncio.sleep], the framework's
    [self.send_text], and the three HTTP requests to Napcat with the
    fields of their JSON payload. *)
Inductive call : Type :=
| asyncio_sleep (delay : Z)
| send_text (text : pystr)
| send_group_msg (group : Z) (text : pystr)
| fetch_emoji_like (message_id : Z) (emojiId emojiType : pystr)
| set_group_ban (group user duration : Z).

(** What an HTTP request evaluates to inside its [try] block: an
    exception (of the session, of [resp.json()] or of reading the
    decoded body), or the fields the code reads in the body. *)
Inductive http_reply (D : Type) : Type :=
| http_raised
| http_json (data : D).
Arguments http_raised {D}.
Arguments http_json {D} data.

(** Body of [/fetch_emoji_like]: [data.get('retcode')] and
    [data.get("data", {}).get("emojiLikesList", [])]. *)
Record emoji_likes := {
  retcode : option Z;
  emojiLikesList : list pystr;
}.

Definition reply (c : call) : Type :=
  match c with
  | asyncio_sleep _ | send_text _ => unit
  | send_group_msg _ _ => http_reply (option Z)
  | fetch_emoji_like _ _ _ => http_reply emoji_likes
  | set_group_ban _ _ _ => http_reply (option Z)
  end.

(** A coroutine: it returns, raises, reads or updates the global
    dictionary in place, awaits a call, or starts the deferred task of
    a message with [asyncio.create_task]. *)
Inductive coro (A : Type) : Type :=
| Ret (a : A)
| Raise (e : exn)
| Inspect (k : store → coro A)
| Update (f : store → store) (k : coro A)
| Await (c : call) (k : reply c → coro A)
| CreateTask (message_id : pystr) (k : coro A).
Arguments Ret {A} a.
Arguments Raise {A} e.
Arguments Inspect {A} k.
Arguments Update {A} f k.
Arguments Await {A} c k.
Arguments CreateTask {A} message_id k.

Fixpoint coro_bind {A B} (f : A → coro B) (m : coro A) : coro B :=
  match m with
  | Ret a => f a
  | Raise e => Raise e
  | Inspect k => Inspect (λ st, coro_bind f (k st))
  | Update g k => Update g (coro_bind f k)
  | Await c k => Await c (λ r, coro_bind f (k r))
  | CreateTask mid k => CreateTask mid (coro_bind f k)
  end.

#[global] Instance coro_mbind : MBind coro := @coro_bind.
#[global] Instance coro_mret : MRet coro := @Ret.

(** [try: body / except ...: handler] *)
Fixpoint try_except {A} (body : coro A) (handler : exn → coro A) : coro A :=
  match body with
  | Ret a => Ret a
  | Raise e => handler e
  | Inspect k => Inspect (λ st, try_except (k st) handler)
  | Update g k => Update g (try_except k handler)
  | Await c k => Await c (λ r, try_except (k r) handler)
  | CreateTask mid k => CreateTask mid (try_except k handler)
  end.

Definition await (c : call) : coro (reply c) := Await c Ret.
Definition inspect : coro store := Inspect Ret.
Definition update (f : store → store) : coro unit := Update f (Ret ()).
Definition create_task (message_id : pystr) : coro unit := CreateTask message_id (Ret ()).

(** ** Calls to the Napcat HTTP API *)

Section napcat.
Context `{PyRuntime}.

(** [int(s)], which raises [ValueError] on a string that is no integer. *)
Definition int_ (s : pystr) : coro Z :=
  match py_int s with
  | Some z => Ret z
  | None => Raise ValueError
  end.

(** The payload is built, and [group_id] converted, before the [try]. *)
Definition send_group_text_via_napcat (group_id text : pystr) : coro (option Z) :=
  group ← int_ group_id;
  try_except
    (resp ← await (send_group_msg group text);
     match resp with
     | http_json message_id => Ret message_id
     | http_raised => Raise ClientError
     end)
    (λ _, Ret None).

(** As above: both conversions come before the [try]. *)
Definition set_group_ban_via_napcat (group_id user_id : pystr) (minutes : Z) : coro unit :=
  group ← int_ group_id;
  user ← int_ user_id;
  try_except
    (resp ← await (set_group_ban group user (minutes * 60));
     match resp with
     | http_json _ => Ret ()
     | http_raised => Raise ClientError
     end)
    (λ _, Ret ()).

(** The query of the reactions to a message.  [message_id] is an
    [int], which [int()] returns as it is; [emoji_type] is [None] where
    the caller leaves the default ["1"]. *)
Definition fetch_emoji_votes (message_id : Z) (emoji : pystr) (emoji_type : option pystr)
  : coro nat :=
  let emoji_type := default (py "1") emoji_type in
  try_except
    (resp ← await (fetch_emoji_like message_id emoji emoji_type);
     match resp with
     | http_json data =>
       if bool_decide (retcode data = Some 0)
       then Ret (length (emojiLikesList data))
       else Ret 0%nat
     | http_raised => Raise ClientError
     end)
    (λ _, Ret 0%nat).
End napcat.

(** ** Message payloads *)

(** The helpers that read a message, on the payload itself.  A payload
    is made of [None], strings, integers, lists, dicts with their string
    keys, and any other object with the attributes it carries. *)
#[local] Unset Elimination Schemes.
Inductive pyval :=
| PNone
| PStr (s : pystr)
| PInt (z : Z)
| PList (items : list pyval)
| PDict (items : gmap pystr pyval)
| PObject (attrs : gmap pystr pyval).
#[local] Set Elimination Schemes.

(** What the interpreter adds: the attributes of the built-in values
    (the methods of [str], [dict] and so on), and the [str()] of the
    values that are neither strings nor integers. *)
Class PyObjects := {
  builtin_attribute : pyval → pystr → option pyval;
  repr : pyval → pystr;
}.

(** Values without built-in attributes, for concrete runs. *)
Definition plain_objects : PyObjects := {|
  builtin_attribute _ _ := None;
  repr _ := py "<object>";
|}.

Module Payload.
Section payload.
Context `{PyRuntime} `{PyObjects}.

(** [getattr(v, name)] where [hasattr(v, name)]. *)
Definition getattr_ (v : pyval) (name : pystr) : option pyval :=
  match v with
  | PObject attrs => attrs !! name
  | _ => builtin_attribute v name
  end.

(** [str(v)] *)
Definition str_ (v : pyval) : pystr :=
  match v with
  | PNone => py "None"
  | PStr s => s
  | PInt z => str_int z
  | _ => repr v
  end.

(** [path.split(".")] *)
Fixpoint split_dot (path : pystr) : list pystr :=
  match path with
  | [] => [[]]
  | c :: rest =>
    if (c =? 46)%N then [] :: split_dot rest
    else match split_dot rest with
         | seg :: segs => (c :: seg) :: segs
         | [] => [[c]]
         end
  end.

(** The loop of [_dig] over the segments of the path: an attribute is
    looked for before a key. *)
Fixpoint dig_segments (cur : pyval) (segs : list pystr) (default : pyval) : pyval :=
  match segs with
  | [] => cur
  | seg :: rest =>
    match cur with
    | PNone => default
    | _ =>
      match getattr_ cur seg with
      | Some next => dig_segments next rest default
      | None =>
        match cur with
        | PDict items =>
          match items !! seg with
          | Some next => dig_segments next rest default
          | None => default
          end
        | _ => default
        end
      end
    end
  end.

Definition _dig (obj : pyval) (path : pystr) (default : pyval) : pyval :=
  dig_segments obj (split_dot path) default.

(** A value as an argument of [_first_non_none], and its [str()] as an
    argument of [_first_text]: both skip [None]. *)
Definition not_none (v : pyval) : option pyval :=
  match v with
  | PNone => None
  | _ => Some v
  end.

Definition text (v : pyval) : option pystr := str_ <$> not_none v.

Definition _get_display_name_from_any (user_like extra_like : pyval) : pystr :=
  let name :=
    _first_text
      (text <$> [_dig user_like (py "user_cardname") PNone;
                 _dig user_like (py "card") PNone;
                 _dig user_like (py "user_nickname") PNone;
                 _dig user_like (py "nickname") PNone;
                 _dig user_like (py "nick") PNone]) in
  match name, extra_like with
  | _ :: _, _ | [], PNone => name
  | [], _ =>
    _first_text
      (text <$> [_dig extra_like (py "user_cardname") PNone;
                 _dig extra_like (py "user_nickname") PNone])
  end.

(** The values tried for the group identifier and for the sender
    identifier, in order. *)
Definition group_id_candidates (msg : pyval) : list pyval :=
  [_dig msg (py "message_info.group_info.group_id") PNone;
   _dig msg (py "group_info.group_id") PNone;
   _dig msg (py "group_id") PNone;
   _dig msg (py "ctx.group_id") PNone;
   _dig msg (py "context.group_id") PNone;
   _dig msg (py "message_base_info.group_id") PNone;
   _dig msg (py "message_base_info.group_info.group_id") PNone;
   _dig msg (py "additional_data.group_id") PNone;
   _dig msg (py "receiver_id") PNone].

Definition sender_qq_candidates (msg : pyval) : list pyval :=
  [_dig msg (py "message_info.user_info.user_id") PNone;
   _dig msg (py "user_info.user_id") PNone;
   _dig msg (py "user_id") PNone;
   _dig msg (py "sender.user_id") PNone;
   _dig msg (py "sender.id") PNone;
   _dig msg (py "ctx.user_id") PNone;
   _dig msg (py "context.user_id") PNone;
   _dig msg (py "message_base_info.user_id") PNone;
   _dig msg (py "message_base_info.user_info.user_id") PNone;
   _dig msg (py "additional_data.user_id") PNone].

(** The whole result: [(group_id, sender_qq, group_name, sender_name)]. *)
Definition _resolve_ctx_from_message_any (msg : pyval)
  : option pystr * option pystr * pystr * pystr :=
  let group_id := _first_non_none (not_none <$> group_id_candidates msg) in
  let sender_qq := _first_non_none (not_none <$> sender_qq_candidates msg) in
  let group_name :=
    _first_text
      (text <$> [_dig msg (py "message_info.group_info.group_name") PNone;
                 _dig msg (py "group_info.group_name") PNone;
                 _dig msg (py "group_name") PNone;
                 _dig msg (py "message_base_info.group_name") PNone;
                 _dig msg (py "message_base_info.group_info.group_name") PNone;
                 PStr []]) in
  let message_base_info := _dig msg (py "message_base_info") PNone in
  let user_info_like :=
    default (PDict ∅)
      (_first_non_none
         (not_none <$> [_dig msg (py "message_info.user_info") PNone;
                        _dig msg (py "user_info") PNone;
                        _dig msg (py "sender") PNone;
                        _dig msg (py "message_base_info.user_info") PNone;
                        PDict ∅])) in
  let sender_name := _get_display_name_from_any user_info_like message_base_info in
  ((λ g, _safe_str (Some (str_ g))) <$> group_id,
   (λ q, _safe_str (Some (str_ q))) <$> sender_qq,
   _safe_str (Some group_name), _safe_str (Some sender_name)).
End payload.
End Payload.

(** ** The command *)

(** A message segment: a dict of type ['at'], with the [str] of its
    [data.qq], or anything else.  The [data] of an ['at'] segment is a
    dict, or is missing and the default [{}] stands for it; a segment
    whose [data] is another value, on which [.get] raises
    [AttributeError], is not among the segments of this type. *)
Inductive segment :=
| at_segment (qq : pystr)
| other_segment.

(** The message content: a plain string or a list of segments.  What
    the loop of [execute] can iterate over is a list of segments here;
    a content that is neither a string nor iterable, on which the loop
    raises [TypeError], is not among the contents of this type. *)
Inductive content :=
| text_content (s : pystr)
| segment_list (segs : list segment).

(** What the command reads in [self.message]: the values [_dig] finds
    at the paths tried for the content and for the command text, and,
    in the order they are tried, at the paths of the group identifier
    and of the sender identifier, each as its [str]. *)
Record message := {
  dig_message : option content;
  dig_message_info_message : option content;
  dig_raw_message : option pystr;
  dig_data_message : option content;
  dig_message_info_plain_text : option pystr;
  dig_group_id : list (option pystr);
  dig_user_id : list (option pystr);
}.

(** The first two components of the result, the only ones [execute]
    keeps. *)
Definition _resolve_ctx_from_message_any (msg : message) : option pystr * option pystr :=
  let group_id := _first_non_none (dig_group_id msg) in
  let sender_qq := _first_non_none (dig_user_id msg) in
  ((λ g, _safe_str (Some g)) <$> group_id, (λ q, _safe_str (Some q)) <$> sender_qq).

Definition resolved_group_id (msg : message) : option pystr :=
  (_resolve_ctx_from_message_any msg).1.

Definition resolved_sender_qq (msg : message) : option pystr :=
  (_resolve_ctx_from_message_any msg).2.

(** [self.matched_groups]: the named groups of [command_pattern]. *)
Record matched_groups := {
  target : option pystr;
  minutes_group : option pystr;
}.

(** The section [vote_ban] of the plugin configuration, with the two
    integers of its schema.  A configuration without the section or
    without one of its keys, on which the subscript raises [KeyError],
    is not among the configurations of this type. *)
Record config := {
  default_minutes : Z;
  vote_duration : Z;
}.

Module VoteBanCommand.
Section command.
Context `{PyRuntime}.

(** [^/投票禁言(?:\s+@?(?P<target>\S+))?(?:\s+(?P<minutes>\d+))?$]:
    the groups of a match of the whole command text. *)
Definition command_pattern (text : pystr) : option matched_groups :=
  let prefix := py "/投票禁言" in
  if bool_decide (take (length prefix) text = prefix)
  then (λ g, {| target := g.1; minutes_group := g.2 |})
         <$> match_target (drop (length prefix) text)
  else None.

Definition DEFAULT_CONFIG : config :=
  {| default_minutes := 1; vote_duration := 60 |}.

(** The loop over [message_parts] that looks for the mentioned user. *)
Fixpoint find_target (target_str : pystr) (message_parts : list segment) : option pystr :=
  match message_parts with
  | [] => None
  | at_segment qq :: rest =>
    if bool_decide (qq = target_str)
       || (bool_decide (take 1 target_str = py "@")
           && bool_decide (qq = drop 1 target_str))
    then Some qq
    else find_target target_str rest
  | other_segment :: rest => find_target target_str rest
  end.

Definition execute (plugin : option config) (msg : message) (groups : matched_groups)
  : coro (bool * pystr * bool) :=
  let config_data := default DEFAULT_CONFIG plugin in
  let message_parts :=
    default (segment_list [])
      (_first_non_none [dig_message msg; dig_message_info_message msg;
                        text_content <$> dig_raw_message msg;
                        dig_data_message msg; Some (segment_list [])]) in
  let full_command :=
    _first_text [dig_message_info_plain_text msg; dig_raw_message msg] in
  if bool_decide (strip full_command = py "/投票禁言") then
    await (send_text (py "请指定要禁言的用户，例如：/投票禁言 @12345 5"));;
    Ret (false, py "no_target", true)
  else
  let message_parts :=
    match message_parts with
    | text_content s =>
      match search_at_digits s with
      | Some qq_number => [at_segment qq_number]
      | None => []
      end
    | segment_list segs => segs
    end in
  if negb (truthy (resolved_group_id msg)) || negb (truthy (resolved_sender_qq msg)) then
    await (send_text (py "此命令仅能在群聊中使用。"));;
    Ret (false, py "not_in_group", true)
  else
  let group_id := default [] (resolved_group_id msg) in
  st ← inspect;
  if any_group_id group_id st then
    await (send_text (py "当前群聊已有正在进行的投票，请等待结束。"));;
    Ret (false, py "vote_in_progress", true)
  else
  if negb (truthy (target groups)) then
    await (send_text (py "未能识别到被艾特的用户ID，请确保使用 @ 方式艾特。"));;
    Ret (false, py "no_target", true)
  else
  let target_str := default [] (target groups) in
  minutes ←
    try_except
      (if truthy (minutes_group groups)
       then int_ (default [] (minutes_group groups))
       else Ret (default_minutes config_data))
      (λ e, match e with
            | ValueError => Ret (default_minutes config_data)
            | _ => Raise e
            end);
  let target_user_id := find_target target_str message_parts in
  if negb (truthy target_user_id) then
    await (send_text (py "未能识别到被艾特的用户ID，请确保使用 @ 方式艾特。"));;
    Ret (false, py "target_id_not_found", true)
  else
  let target_user_id := default [] target_user_id in
  let text :=
    py "📢 群投票禁言发起" ++ nl ++
    py "目标用户: @" ++ target_str ++ nl ++
    py "禁言时长: " ++ str_int minutes ++ py " 分钟" ++ nl ++
    py "投票方式: [按钮] 同意 / [❓] 反对" ++ nl ++
    py "投票时间: " ++ str_int (vote_duration config_data) ++ py " 秒" in
  message_id ← send_group_text_via_napcat group_id text;
  match message_id with
  | Some id =>
    if bool_decide (id ≠ 0) then
      update (store_vote (str_int id) group_id target_user_id target_str minutes);;
      create_task (str_int id);;
      Ret (true, py "投票已发起", false)
    else Ret (false, py "发送投票消息失败", true)
  | None => Ret (false, py "发送投票消息失败", true)
  end.

Definition EMOJI_YES_ID : pystr := py "424".
Definition EMOJI_NO_ID : pystr := py "10068".
Definition EMOJI_NO_TYPE : pystr := py "2".

(** One of the two inline queries of [_end_vote_after_delay]: the count
    starts at 0 and is assigned only when the reply has [retcode] 0. *)
Definition count_votes (message_id emojiId emojiType : pystr) : coro nat :=
  try_except
    (id ← int_ message_id;
     resp ← await (fetch_emoji_like id emojiId emojiType);
     match resp with
     | http_json data =>
       if bool_decide (retcode data = Some 0)
       then Ret (length (emojiLikesList data))
       else Ret 0%nat
     | http_raised => Raise ClientError
     end)
    (λ _, Ret 0%nat).

Definition _end_vote_after_delay (plugin : option config) (message_id : pystr)
  : coro unit :=
  let config_data := default DEFAULT_CONFIG plugin in
  await (asyncio_sleep (vote_duration config_data));;
  st ← inspect;
  match vote_summaries st !! message_id with
  | None => Ret ()
  | Some vote_info =>
    yes_count ← count_votes message_id EMOJI_YES_ID (py "1");
    no_count ← count_votes message_id EMOJI_NO_ID EMOJI_NO_TYPE;
    update (set_counts (oid vote_info) yes_count no_count);;
    let result_text :=
      py "📢 投票结果 - 用户 " ++ target_name vote_info ++ nl ++
      py "[✅] 同意票: " ++ str_int (Z.of_nat yes_count) ++ nl ++
      py "[❓] 反对票: " ++ str_int (Z.of_nat no_count) ++ nl in
    result_text ←
      (if bool_decide (no_count < yes_count)%nat then
         set_group_ban_via_napcat (group_id vote_info) (target_user_id vote_info)
                                  (minutes vote_info);;
         Ret (result_text ++ py "投票通过！该用户将被禁言 "
                ++ str_int (minutes vote_info) ++ py " 分钟。")
       else Ret (result_text ++ py "投票未通过，该用户保留自由。"));
    send_group_text_via_napcat (group_id vote_info) result_text;;
    update (pop_vote message_id)
  end.
End command.
End VoteBanCommand.

(** ** Running a coroutine *)

(** What the world outside answers to each awaited call. *)
Definition backend := ∀ c : call, reply c.

Inductive event :=
| Called (c : call)
| TaskCreated (message_id : pystr).

Inductive outcome (A : Type) :=
| Returned (a : A)
| Raised (e : exn).
Arguments Returned {A} a.
Arguments Raised {A} e.

Record run_result (A : Type) := {
  final : store;
  trace : list event;
  result : outcome A;
}.
Arguments final {A} r.
Arguments trace {A} r.
Arguments result {A} r.

Definition logged {A} (e : event) (r : run_result A) : run_result A :=
  {| final := final r; trace := e :: trace r; result := result r |}.

(** A coroutine run to its end, alone: no other task touches the store
    while it is suspended. *)
Fixpoint run {A} (env : backend) (st : store) (m : coro A) : run_result A :=
  match m with
  | Ret a => {| final := st; trace := []; result := Returned a |}
  | Raise e => {| final := st; trace := []; result := Raised e |}
  | Inspect k => run env st (k st)
  | Update f k => run env (f st) k
  | Await c k => logged (Called c) (run env st (k (env c)))
  | CreateTask message_id k => logged (TaskCreated message_id) (run env st k)
  end.

(** The texts posted to the group, in order. *)
Definition announcements (tr : list event) : list (Z * pystr) :=
  omap (λ e, match e with
             | Called (send_group_msg g t) => Some (g, t)
             | _ => None
             end) tr.

(** The mute requests sent, in order. *)
Definition bans (tr : list event) : list (Z * Z * Z) :=
  omap (λ e, match e with
             | Called (set_group_ban g u d) => Some (g, u, d)
             | _ => None
             end) tr.

(** The deferred tasks started, in order. *)
Definition tasks_created (tr : list event) : list pystr :=
  omap (λ e, match e with
             | TaskCreated message_id => Some message_id
             | _ => None
             end) tr.

(** ** The event loop *)

(** A coroutine runs until its next [await]: the store accesses before
    it are one atomic step of the loop. *)
Fixpoint advance {A} (st : store) (m : coro A) : store * list pystr * coro A :=
  match m with
  | Inspect k => advance st (k st)
  | Update f k => advance (f st) k
  | CreateTask message_id k =>
    let '(st', created, m') := advance st k in (st', message_id :: created, m')
  | _ => (st, [], m)
  end.

Inductive task :=
| command (m : coro (bool * pystr * bool))
| timer (m : coro unit).

Record loop := {
  summaries : store;
  tasks : list task;
}.

Section event_loop.
Context `{PyRuntime} (plugin : option config).

Definition timers (created : list pystr) : list task :=
  (λ message_id, timer (VoteBanCommand._end_vote_after_delay plugin message_id))
    <$> created.

(** The framework starts [execute] for an incoming command. *)
Definition dispatch (msg : message) (groups : matched_groups) (s : loop) : loop :=
  let '(st, created, m) :=
    advance (summaries s) (VoteBanCommand.execute plugin msg groups) in
  {| summaries := st; tasks := tasks s ++ [command m] ++ timers created |}.

(** The call awaited by task [i] completes and the task goes on to its
    next [await]. *)
Definition resume (i : nat) (env : backend) (s : loop) : loop :=
  match tasks s !! i with
  | Some (command (Await c k)) =>
    let '(st, created, m) := advance (summaries s) (k (env c)) in
    {| summaries := st; tasks := <[i := command m]> (tasks s) ++ timers created |}
  | Some (timer (Await c k)) =>
    let '(st, created, m) := advance (summaries s) (k (env c)) in
    {| summaries := st; tasks := <[i := timer m]> (tasks s) ++ timers created |}
  | _ => s
  end.

Inductive reachable : loop → Prop :=
| reachable_start :
    reachable {| summaries := empty_store; tasks := [] |}
| reachable_dispatch s msg groups :
    reachable s → reachable (dispatch msg groups s)
| reachable_resume s i env :
    reachable s → reachable (resume i env s).
End event_loop.

(** ** Properties of the store *)

(** Room-scoped mutual exclusion: two entries of the same group are one. *)
Definition one_vote_per_group (st : store) : Prop :=
  ∀ k1 k2 v1 v2,
    vote_summaries st !! k1 = Some v1 →
    vote_summaries st !! k2 = Some v2 →
    group_id v1 = group_id v2 → k1 = k2.

(** ** Vocabulary of the properties *)

Section vocabulary.
Context `{PyRuntime}.

(** The count [count_votes] takes from the reply to one query: the
    length of [emojiLikesList] when the request could be sent and its
    reply has [retcode] 0, and 0 otherwise. *)
Definition observed_count (env : backend) (message_id emojiId emojiType : pystr) : nat :=
  match py_int message_id with
  | Some id =>
    match env (fetch_emoji_like id emojiId emojiType) with
    | http_json data =>
      if bool_decide (retcode data = Some 0) then length (emojiLikesList data) else 0%nat
    | http_raised => 0%nat
    end
  | None => 0%nat
  end.

Definition approve_count (env : backend) (message_id : pystr) : nat :=
  observed_count env message_id VoteBanCommand.EMOJI_YES_ID (py "1").

Definition reject_count (env : backend) (message_id : pystr) : nat :=
  observed_count env message_id VoteBanCommand.EMOJI_NO_ID VoteBanCommand.EMOJI_NO_TYPE.

(** A query fails: the request cannot be built, the transport raises,
    or the backend answers with a status other than 0. *)
Definition query_failed (env : backend) (message_id emojiId emojiType : pystr) : Prop :=
  ∀ id, py_int message_id = Some id →
    match env (fetch_emoji_like id emojiId emojiType) with
    | http_json data => retcode data ≠ Some 0
    | http_raised => True
    end.

(** A query succeeds and lists [k] reactions. *)
Definition query_counted (env : backend) (message_id emojiId emojiType : pystr)
    (k : nat) : Prop :=
  ∃ id data, py_int message_id = Some id ∧
    env (fetch_emoji_like id emojiId emojiType) = http_json data ∧
    retcode data = Some 0 ∧ length (emojiLikesList data) = k.

(** The requests of one query, as they show in a trace. *)
Definition query_trace (message_id emojiId emojiType : pystr) : list event :=
  match py_int message_id with
  | Some id => [Called (fetch_emoji_like id emojiId emojiType)]
  | None => []
  end.

(** The message content [execute] settles on before it looks at its
    type. *)
Definition message_content (msg : message) : content :=
  default (segment_list [])
    (_first_non_none [dig_message msg; dig_message_info_message msg;
                      text_content <$> dig_raw_message msg;
                      dig_data_message msg; Some (segment_list [])]).

(** The segments searched for the target. *)
Definition message_segments (msg : message) : list segment :=
  match message_content msg with
  | text_content s =>
    match search_at_digits s with
    | Some qq_number => [at_segment qq_number]
    | None => []
    end
  | segment_list segs => segs
  end.

(** The duration [execute] settles on. *)
Definition chosen_minutes (plugin : option config) (groups : matched_groups) : Z :=
  let config_data := default VoteBanCommand.DEFAULT_CONFIG plugin in
  match minutes_group groups with
  | Some (c :: s) => default (default_minutes config_data) (py_int (c :: s))
  | _ => default_minutes config_data
  end.

(** The proposal announcement. *)
Definition proposal_text (plugin : option config) (target_str : pystr) (mins : Z) : pystr :=
  py "📢 群投票禁言发起" ++ nl ++
  py "目标用户: @" ++ target_str ++ nl ++
  py "禁言时长: " ++ str_int mins ++ py " 分钟" ++ nl ++
  py "投票方式: [按钮] 同意 / [❓] 反对" ++ nl ++
  py "投票时间: "
    ++ str_int (vote_duration (default VoteBanCommand.DEFAULT_CONFIG plugin))
    ++ py " 秒".

(** The three lines every outcome announcement starts with. *)
Definition outcome_header (name : pystr) (approve reject : nat) : pystr :=
  py "📢 投票结果 - 用户 " ++ name ++ nl ++
  py "[✅] 同意票: " ++ str_int (Z.of_nat approve) ++ nl ++
  py "[❓] 反对票: " ++ str_int (Z.of_nat reject) ++ nl.

Definition passed_verdict (mins : Z) : pystr :=
  py "投票通过！该用户将被禁言 " ++ str_int mins ++ py " 分钟。".

Definition failed_verdict : pystr := py "投票未通过，该用户保留自由。".

(** An announcement ends with the verdict. *)
Definition reports_passed (text : pystr) : Prop :=
  ∃ head mins, text = head ++ passed_verdict mins.

Definition reports_failed (text : pystr) : Prop :=
  ∃ head, text = head ++ failed_verdict.

(** A target reference that names a user by number: digits, with or
    without a leading [@]. *)
Definition all_digits (s : pystr) : Prop := s ≠ [] ∧ Forall (λ c, is_digit c = true) s.

Definition numeric_reference (target_str : pystr) : Prop :=
  all_digits target_str ∨ ∃ ds, target_str = 64%N :: ds ∧ all_digits ds.

(** A reply to the proposal post that carries no usable identifier:
    the request raised, the body has none, or it has the falsy 0. *)
Definition no_identifier (resp : http_reply (option Z)) : Prop :=
  resp = http_raised ∨ resp = http_json None ∨ resp = http_json (Some 0).

(** The answers of [execute] this development names. *)
Definition accepted : bool * pystr * bool := (true, py "投票已发起", false).
Definition announcement_failed : bool * pystr * bool := (false, py "发送投票消息失败", true).
Definition vote_in_progress : bool * pystr * bool := (false, py "vote_in_progress", true).
Definition target_id_not_found : bool * pystr * bool := (false, py "target_id_not_found", true).

(** What follows a run. *)
Definition after {A} (tr : list event) (r : run_result A) : run_result A :=
  {| final := final r; trace := tr ++ trace r; result := result r |}.

Definition and_then {A B} (r : run_result A) (k : A → store → run_result B)
  : run_result B :=
  match result r with
  | Returned a => after (trace r) (k a (final r))
  | Raised e => {| final := final r; trace := trace r; result := Raised e |}
  end.

(** The requests every resolution starts with. *)
Definition tally_trace (plugin : option config) (message_id : pystr) : list event :=
  Called (asyncio_sleep (vote_duration (default VoteBanCommand.DEFAULT_CONFIG plugin)))
    :: query_trace message_id VoteBanCommand.EMOJI_YES_ID (py "1")
    ++ query_trace message_id VoteBanCommand.EMOJI_NO_ID VoteBanCommand.EMOJI_NO_TYPE.

(** The store once the counts are written to the record. *)
Definition tallied (env : backend) (message_id : pystr) (v : vote_record) (st : store)
  : store :=
  set_counts (oid v) (approve_count env message_id) (reject_count env message_id) st.
End vocabulary.

Arguments after {A} tr !r /.
Arguments and_then {A B} !r k /.

(** ** Vocabulary of the lifecycle properties *)

(** The target of the command names the user of a mention, with or
    without the [@]. *)
Definition names (target_str qq : pystr) : Prop :=
  qq = target_str ∨ target_str = 64%N :: qq.

(** The command as the help text documents it: the target, with or
    without [@], and the minutes when given. *)
Definition command_text (at_sign : bool) (t : pystr) (m : option pystr) : pystr :=
  py "/投票禁言" ++ [32%N] ++ (if at_sign then [64%N] else []) ++ t
    ++ from_option (λ ds, 32%N :: ds) [] m.

(** Every record was created before [next_oid] was reached, and no two
    keys hold the same object. *)
Definition allocated_oids (st : store) : Prop :=
  ∀ key v, vote_summaries st !! key = Some v → (oid v < next_oid st)%nat.

Definition distinct_oids (st : store) : Prop :=
  ∀ k1 k2 v1 v2,
    vote_summaries st !! k1 = Some v1 →
    vote_summaries st !! k2 = Some v2 →
    oid v1 = oid v2 → k1 = k2.

(** Every update a coroutine makes, at whatever point of whatever
    interleaving, keeps [P]. *)
Fixpoint preserves (P : store → Prop) {A} (m : coro A) : Prop :=
  match m with
  | Ret _ | Raise _ => True
  | Inspect k => ∀ st, preserves P (k st)
  | Update f k => (∀ st, P st → P (f st)) ∧ preserves P k
  | Await c k => ∀ r, preserves P (k r)
  | CreateTask _ k => preserves P k
  end.

Definition task_preserves (P : store → Prop) (t : task) : Prop :=
  match t with
  | command m => preserves P m
  | timer m => preserves P m
  end.

Section further_vocabulary.
Context `{PyRuntime}.

(** A string holds a numbered mention: an [@] followed by a digit. *)
Definition has_mention (s : pystr) : Prop :=
  ∃ before c after, s = before ++ 64%N :: c :: after ∧ is_digit c = true.

(** A string without blanks at its ends. *)
Definition trimmed (s : pystr) : Prop :=
  match s with [] => True | c :: _ => is_space c = false end ∧
  match reverse s with [] => True | c :: _ => is_space c = false end.

(** What [execute] has checked of a record by the time it stores it:
    the key is the [str] of the identifier the post returned, the group
    identifier converts with [int()], and the target is the user of a
    mention the command names. *)
Definition checked (key : pystr) (v : vote_record) : Prop :=
  (∃ id, id ≠ 0 ∧ key = str_int id) ∧
  group_id v ≠ [] ∧ is_Some (py_int (group_id v)) ∧
  target_user_id v ≠ [] ∧ target_name v ≠ [] ∧
  names (target_name v) (target_user_id v).

Definition well_formed (st : store) : Prop :=
  allocated_oids st ∧ distinct_oids st ∧
  ∀ key v, vote_summaries st !! key = Some v → checked key v.

(** The stores reached when handlers and deferred tasks run one after
    another, each to its end before the next starts. *)
Inductive serial (plugin : option config) : store → Prop :=
| serial_start : serial plugin empty_store
| serial_execute st env msg groups :
    serial plugin st →
    serial plugin (final (run env st (VoteBanCommand.execute plugin msg groups)))
| serial_end_vote st env message_id :
    serial plugin st →
    serial plugin
      (final (run env st (VoteBanCommand._end_vote_after_delay plugin message_id))).

(** The characters of a decimal numeral. *)
Definition numeral (d : Decimal.uint) : pystr :=
  map N_of_ascii (list_ascii_of_string (NilEmpty.string_of_uint d)).

(** The ASCII digits are digits of the runtime, with their values, and
    neither they nor the minus sign are blanks. *)
Definition ascii_digits : Prop :=
  (∀ d, (d < 10)%N → digit_value (48 + d) = Some d) ∧
  (∀ d, (d < 10)%N → is_space (48 + d) = false) ∧
  is_space 45 = false.
End further_vocabulary.

(** ** Sample data for concrete runs *)

Section samples.
Local Existing Instance ascii_runtime.

Definition likes (n : nat) : list pystr := replicate n (py "10001").

(** A backend that accepts every request, gives the posted message
    the identifier [id] and lists [approvals] and [rejections]
    reactions. *)
Definition sample_backend (id : Z) (approvals rejections : nat) : backend :=
  λ c,
    match c with
    | asyncio_sleep _ | send_text _ => ()
    | send_group_msg _ _ => http_json (Some id)
    | fetch_emoji_like _ emojiId _ =>
      http_json
        {| retcode := Some 0;
           emojiLikesList :=
             likes (if bool_decide (emojiId = VoteBanCommand.EMOJI_YES_ID)
                    then approvals else rejections) |}
    | set_group_ban _ _ _ => http_json (Some 0)
    end.

(** The same backend with one of the two queries failing. *)
Definition failing_query_backend (id : Z) (failing : pystr) (others : nat) : backend :=
  λ c,
    match c with
    | fetch_emoji_like _ emojiId _ =>
      if bool_decide (emojiId = failing) then http_raised
      else http_json {| retcode := Some 0; emojiLikesList := likes others |}
    | c => sample_backend id 0 0 c
    end.

(** A backend whose post returns no identifier. *)
Definition silent_backend : backend :=
  λ c,
    match c with
    | send_group_msg _ _ => http_json None
    | c => sample_backend 0 0 0 c
    end.

(** A command received as a plain string. *)
Definition text_command (text group sender : pystr) : message :=
  {| dig_message := None; dig_message_info_message := None;
     dig_raw_message := Some text; dig_data_message := None;
     dig_message_info_plain_text := None;
     dig_group_id := [Some group]; dig_user_id := [None; Some sender] |}.

(** A command received as a list of segments. *)
Definition segments_command (text : pystr) (segs : list segment)
    (group sender : pystr) : message :=
  {| dig_message := Some (segment_list segs); dig_message_info_message := None;
     dig_raw_message := None; dig_data_message := None;
     dig_message_info_plain_text := Some text;
     dig_group_id := [None; Some group]; dig_user_id := [Some sender] |}.

Definition groups_of (text : pystr) : matched_groups :=
  default {| target := None; minutes_group := None |}
    (VoteBanCommand.command_pattern text).

(** A vote in room 1000 on user 123, for 5 minutes, posted as
    message 77. *)
Definition sample_vote : vote_record :=
  {| oid := 0; group_id := py "1000"; target_user_id := py "123";
     target_name := py "123"; minutes := 5; yes := 0; no := 0 |}.

Definition sample_store : store :=
  {| vote_summaries := {[ py "77" := sample_vote ]}; next_oid := 1 |}.

Local Existing Instance plain_objects.

(** A second vote, in room 2000, posted as message 78. *)
Definition other_vote : vote_record :=
  {| oid := 1; group_id := py "2000"; target_user_id := py "456";
     target_name := py "456"; minutes := 3; yes := 0; no := 0 |}.

Definition two_rooms_store : store :=
  {| vote_summaries := <[py "78" := other_vote]> {[ py "77" := sample_vote ]};
     next_oid := 2 |}.

(** The event loop after one command for room 1000 has been
    dispatched and its post answered with message 101. *)
Definition one_vote_loop : loop :=
  let text := py "/投票禁言 @123" in
  resume None 0 (sample_backend 101 0 0)
    (dispatch None (text_command text (py "1000") (py "42")) (groups_of text)
       {| summaries := empty_store; tasks := [] |}).

(** A payload of nested dicts, as an adapter delivers it: the group and
    the sender under [message_info], with a blank card name and a
    nickname. *)
Definition sample_payload : pyval :=
  PDict {[ py "message_info" :=
             PDict (<[py "group_info" := PDict {[ py "group_id" := PInt 1000 ]}]>
                      {[ py "user_info" :=
                           PDict (<[py "user_id" := PInt 42]>
                                  (<[py "user_cardname" := PStr (py "  ")]>
                                     {[ py "user_nickname" := PStr (py " Mai ") ]})) ]}) ]}.

(** The message record of a payload, as far as the identifiers go. *)
Definition context_of (payload : pyval) : message :=
  {| dig_message := None; dig_message_info_message := None;
     dig_raw_message := None; dig_data_message := None;
     dig_message_info_plain_text := None;
     dig_group_id := Payload.text <$> Payload.group_id_candidates payload;
     dig_user_id := Payload.text <$> Payload.sender_qq_candidates payload |}.
End samples.

Arguments py : simpl never.
Arguments str_int : simpl never.
Arguments resolved_group_id : simpl never.
Arguments resolved_sender_qq : simpl never.

Import VoteBanCommand.

#[local] Opaque py str_int.

(** * Strings *)

Section strings.
Context `{PyRuntime}.
Implicit Types (s t : pystr) (p : N → bool).

Lemma span_fst_Forall p s : Forall (λ c, p c = true) (span p s).1.
Proof.
  induction s as [|c s IH]; cbn; [done|].
  destruct (p c) eqn:Hc; [|done].
  destruct (span p s) as [run tail]; cbn in *. by constructor.
Qed.

Lemma search_at_digits_Some s qq :
  search_at_digits s = Some qq → all_digits qq.
Proof.
  induction s as [|c s IH]; cbn; [done|].
  destruct (c =? 64)%N.
  - destruct (span is_digit s).1 as [|d ds] eqn:Hrun; [done|].
    intros [= <-]. split; [done|]. rewrite <- Hrun. apply span_fst_Forall.
  - done.
Qed.

Lemma lstrip_Forall (P : N → Prop) s : Forall P s → Forall P (lstrip s).
Proof.
  induction 1 as [|c s Hc Hs IH]; cbn; [done|].
  destruct (is_space c); [done|]. by constructor.
Qed.

Lemma strip_Forall (P : N → Prop) s : Forall P s → Forall P (strip s).
Proof.
  intros Hs. unfold strip.
  by apply Forall_reverse, lstrip_Forall, Forall_reverse, lstrip_Forall.
Qed.

Lemma int_lstrip_Forall (P : N → Prop) s : Forall P s → Forall P (int_lstrip s).
Proof.
  induction 1 as [|c s Hc Hs IH]; cbn; [done|].
  destruct (is_int_space c); [done|]. by constructor.
Qed.

Lemma int_strip_Forall (P : N → Prop) s : Forall P s → Forall P (int_strip s).
Proof.
  intros Hs. unfold int_strip.
  by apply Forall_reverse, int_lstrip_Forall, Forall_reverse, int_lstrip_Forall.
Qed.

(** [int()] of digits is never negative. *)
Lemma py_int_digits_nonneg s z :
  Forall (λ c, is_digit c = true) s → py_int s = Some z → 0 ≤ z.
Proof.
  intros Hs%(int_strip_Forall _ s). unfold py_int.
  assert (∀ sign digits, 0 ≤ sign →
    (if within_digit_limit digits
     then (λ n, sign * Z.of_N n) <$> int_digits 0 false digits
     else None) = Some z → 0 ≤ z) as Hbody.
  { intros sign digits Hsign. destruct (within_digit_limit digits); [|done].
    destruct (int_digits 0 false digits) as [n|]; [|done]. intros [= <-]. lia. }
  destruct (int_strip s) as [|c digits]; [by apply Hbody|].
  apply Forall_cons in Hs as [Hc _].
  destruct (decide (c = 45%N)) as [->|Hminus].
  { unfold is_digit in Hc. apply bool_decide_eq_true in Hc as [d Hd].
    by rewrite minus_sign_no_digit in Hd. }
  destruct c as [|p]; [by apply Hbody|].
  repeat (destruct p as [p|p|]; try (by apply Hbody)).
Qed.

Lemma match_minutes_digits s ds :
  match_minutes s = Some (Some ds) → all_digits ds.
Proof.
  unfold match_minutes.
  destruct (span is_space s) as [ws s1].
  pose proof (span_fst_Forall is_digit s1) as Hds.
  destruct (span is_digit s1) as [ds' s2]; cbn in Hds.
  destruct ws as [|w ws].
  { by destruct (at_end s). }
  destruct ds' as [|d ds'].
  { by destruct (at_end s). }
  destruct (at_end s2).
  - by intros [= <-].
  - by destruct (at_end s).
Qed.

Lemma with_target_digits tgt s tgt' ds :
  with_target tgt s = Some (tgt', Some ds) → all_digits ds.
Proof.
  unfold with_target. destruct (match_minutes s) as [m|] eqn:Hm; [|done].
  intros [= _ ->]. by eapply match_minutes_digits.
Qed.

Lemma match_token_digits s tgt ds :
  match_token s = Some (tgt, Some ds) → all_digits ds.
Proof.
  unfold match_token. destruct (span (λ c, negb (is_space c)) s) as [tok s2].
  destruct tok; [done|]. apply with_target_digits.
Qed.

Lemma match_target_digits s tgt ds :
  match_target s = Some (tgt, Some ds) → all_digits ds.
Proof.
  unfold match_target. destruct (span is_space s) as [ws s1].
  destruct ws as [|w ws]; [apply with_target_digits|].
  destruct (match s1 with 64%N :: s1' => Some s1' | _ => None end) as [s1'|]; cbn.
  - destruct (match_token s1') as [g|] eqn:Hg1.
    { intros [= ->]. by eapply match_token_digits. }
    destruct (match_token s1) as [g|] eqn:Hg2.
    { intros [= ->]. by eapply match_token_digits. }
    apply with_target_digits.
  - destruct (match_token s1) as [g|] eqn:Hg2.
    { intros [= ->]. by eapply match_token_digits. }
    apply with_target_digits.
Qed.

(** The minutes a command carries are digits. *)
Lemma command_pattern_minutes text groups ds :
  command_pattern text = Some groups → minutes_group groups = Some ds →
  all_digits ds.
Proof.
  unfold command_pattern. case_bool_decide; [|done].
  destruct (match_target _) as [[tgt m]|] eqn:Hm; [|done].
  intros [= <-]; cbn. intros ->. by eapply match_target_digits.
Qed.
End strings.

(** * Running the helpers *)

Section runs.
Context `{PyRuntime}.
Implicit Types (env : backend) (st : store).

Lemma run_bind {A B} env st (m : coro A) (f : A → coro B) :
  run env st (coro_bind f m) = and_then (run env st m) (λ a st', run env st' (f a)).
Proof.
  revert st. induction m as [a|e|k IH|g k IH|c k IH|mid k IH]; intros st; cbn.
  - unfold and_then, after; cbn. by destruct (run env st (f a)).
  - done.
  - apply IH.
  - apply IH.
  - rewrite IH. unfold and_then, after, logged; cbn.
    by destruct (result (run env st (k (env c)))).
  - rewrite IH. unfold and_then, after, logged; cbn.
    by destruct (result (run env st k)).
Qed.

Lemma run_send_group_text env st g t z :
  py_int g = Some z →
  run env st (send_group_text_via_napcat g t) =
  {| final := st; trace := [Called (send_group_msg z t)];
     result := Returned (match env (send_group_msg z t) with
                         | http_json message_id => message_id
                         | http_raised => None
                         end) |}.
Proof.
  intros Hg. unfold send_group_text_via_napcat, int_. rewrite Hg. cbn.
  by destruct (env (send_group_msg z t)).
Qed.

Lemma run_send_group_text_raises env st g t :
  py_int g = None →
  run env st (send_group_text_via_napcat g t) =
  {| final := st; trace := []; result := Raised ValueError |}.
Proof. intros Hg. unfold send_group_text_via_napcat, int_. by rewrite Hg. Qed.

Lemma run_set_group_ban env st g u mins zg zu :
  py_int g = Some zg → py_int u = Some zu →
  run env st (set_group_ban_via_napcat g u mins) =
  {| final := st; trace := [Called (set_group_ban zg zu (mins * 60))];
     result := Returned () |}.
Proof.
  intros Hg Hu. unfold set_group_ban_via_napcat, int_. rewrite Hg. cbn.
  rewrite Hu. cbn. by destruct (env (set_group_ban zg zu (mins * 60))).
Qed.

Lemma run_set_group_ban_raises env st g u mins :
  py_int g = None ∨ py_int u = None →
  run env st (set_group_ban_via_napcat g u mins) =
  {| final := st; trace := []; result := Raised ValueError |}.
Proof.
  intros Hgu. unfold set_group_ban_via_napcat, int_.
  destruct (py_int g) as [zg|]; cbn; [|done].
  destruct Hgu as [|Hu]; [done|]. by rewrite Hu.
Qed.

Lemma run_count_votes env st message_id emojiId emojiType :
  run env st (count_votes message_id emojiId emojiType) =
  {| final := st; trace := query_trace message_id emojiId emojiType;
     result := Returned (observed_count env message_id emojiId emojiType) |}.
Proof.
  unfold count_votes, int_, query_trace, observed_count.
  destruct (py_int message_id) as [id|]; cbn; [|done].
  destruct (env (fetch_emoji_like id emojiId emojiType)) as [|data]; cbn; [done|].
  by case_bool_decide.
Qed.
End runs.

(** * Runs of the deferred task *)

Section resolution.
Context `{PyRuntime}.
Implicit Types (env : backend) (st : store) (v : vote_record).

Ltac step :=
  cbn -[count_votes send_group_text_via_napcat set_group_ban_via_napcat];
  unfold mbind, coro_mbind.

Ltac start_resolution Hv env message_id :=
  unfold _end_vote_after_delay; step; rewrite Hv; step;
  rewrite run_bind, run_count_votes; step;
  rewrite run_bind, run_count_votes; step;
  change (observed_count env message_id EMOJI_YES_ID (py "1"))
    with (approve_count env message_id);
  change (observed_count env message_id EMOJI_NO_ID EMOJI_NO_TYPE)
    with (reject_count env message_id).

Lemma end_vote_absent env plugin st message_id :
  vote_summaries st !! message_id = None →
  run env st (_end_vote_after_delay plugin message_id) =
  {| final := st;
     trace := [Called (asyncio_sleep (vote_duration (default DEFAULT_CONFIG plugin)))];
     result := Returned () |}.
Proof. intros Hv. unfold _end_vote_after_delay. cbn. by rewrite Hv. Qed.

Lemma end_vote_rejected env plugin st message_id v g :
  vote_summaries st !! message_id = Some v →
  (approve_count env message_id ≤ reject_count env message_id)%nat →
  py_int (group_id v) = Some g →
  run env st (_end_vote_after_delay plugin message_id) =
  {| final := pop_vote message_id (tallied env message_id v st);
     trace := tally_trace plugin message_id ++
       [Called (send_group_msg g
          (outcome_header (target_name v) (approve_count env message_id)
             (reject_count env message_id) ++ failed_verdict))];
     result := Returned () |}.
Proof.
  intros Hv Hle Hg. start_resolution Hv env message_id.
  rewrite bool_decide_false by lia. step.
  rewrite run_bind, (run_send_group_text _ _ _ _ g) by done.
  unfold and_then, after, logged, tally_trace, tallied, outcome_header; cbn.
  by rewrite <- !app_assoc.
Qed.

Lemma end_vote_passed env plugin st message_id v g u :
  vote_summaries st !! message_id = Some v →
  (reject_count env message_id < approve_count env message_id)%nat →
  py_int (group_id v) = Some g →
  py_int (target_user_id v) = Some u →
  run env st (_end_vote_after_delay plugin message_id) =
  {| final := pop_vote message_id (tallied env message_id v st);
     trace := tally_trace plugin message_id ++
       [Called (set_group_ban g u (minutes v * 60));
        Called (send_group_msg g
          (outcome_header (target_name v) (approve_count env message_id)
             (reject_count env message_id) ++ passed_verdict (minutes v)))];
     result := Returned () |}.
Proof.
  intros Hv Hlt Hg Hu. start_resolution Hv env message_id.
  rewrite bool_decide_true by lia. step.
  rewrite run_bind, run_bind, (run_set_group_ban _ _ _ _ _ g u) by done.
  step.
  rewrite run_bind, (run_send_group_text _ _ _ _ g) by done.
  unfold and_then, after, logged, tally_trace, tallied, outcome_header, passed_verdict; cbn.
  by rewrite <- !app_assoc.
Qed.

(** The mute request cannot be built: the task ends there, with the
    counts written and the record in place. *)
Lemma end_vote_mute_raises env plugin st message_id v :
  vote_summaries st !! message_id = Some v →
  (reject_count env message_id < approve_count env message_id)%nat →
  py_int (group_id v) = None ∨ py_int (target_user_id v) = None →
  run env st (_end_vote_after_delay plugin message_id) =
  {| final := tallied env message_id v st;
     trace := tally_trace plugin message_id;
     result := Raised ValueError |}.
Proof.
  intros Hv Hlt Hgu. start_resolution Hv env message_id.
  rewrite bool_decide_true by lia. step.
  rewrite run_bind, run_bind, run_set_group_ban_raises by done.
  unfold and_then, after, logged, tally_trace, tallied; cbn.
  by rewrite !app_nil_r.
Qed.

Lemma end_vote_post_raises env plugin st message_id v :
  vote_summaries st !! message_id = Some v →
  (approve_count env message_id ≤ reject_count env message_id)%nat →
  py_int (group_id v) = None →
  run env st (_end_vote_after_delay plugin message_id) =
  {| final := tallied env message_id v st;
     trace := tally_trace plugin message_id;
     result := Raised ValueError |}.
Proof.
  intros Hv Hle Hg. start_resolution Hv env message_id.
  rewrite bool_decide_false by lia. step.
  rewrite run_bind, run_send_group_text_raises by done.
  unfold and_then, after, logged, tally_trace, tallied; cbn.
  by rewrite !app_nil_r.
Qed.

Lemma announcements_query message_id emojiId emojiType :
  announcements (query_trace message_id emojiId emojiType) = [].
Proof. unfold query_trace. by destruct (py_int message_id). Qed.

Lemma bans_query message_id emojiId emojiType :
  bans (query_trace message_id emojiId emojiType) = [].
Proof. unfold query_trace. by destruct (py_int message_id). Qed.

Lemma announcements_tally plugin message_id :
  announcements (tally_trace plugin message_id) = [].
Proof.
  unfold tally_trace, announcements. cbn. rewrite omap_app.
  fold (announcements (query_trace message_id EMOJI_YES_ID (py "1"))).
  fold (announcements (query_trace message_id EMOJI_NO_ID EMOJI_NO_TYPE)).
  by rewrite !announcements_query.
Qed.

Lemma bans_tally plugin message_id :
  bans (tally_trace plugin message_id) = [].
Proof.
  unfold tally_trace, bans. cbn. rewrite omap_app.
  fold (bans (query_trace message_id EMOJI_YES_ID (py "1"))).
  fold (bans (query_trace message_id EMOJI_NO_ID EMOJI_NO_TYPE)).
  by rewrite !bans_query.
Qed.

Lemma lookup_popped message_id st :
  vote_summaries (pop_vote message_id st) !! message_id = None.
Proof. apply lookup_delete_eq. Qed.

End resolution.

(** * Runs of [execute] *)

Section proposals.
Context `{PyRuntime}.
Implicit Types (env : backend) (st : store).

Lemma truthy_inv (x : option pystr) :
  truthy x = true → ∃ s, x = Some s ∧ s ≠ [].
Proof. destruct x as [[|c s]|]; cbn; try done. intros _. by eexists. Qed.

Lemma run_chosen_minutes env st plugin groups :
  run env st
    (try_except
       (if truthy (minutes_group groups)
        then int_ (default [] (minutes_group groups))
        else Ret (default_minutes (default DEFAULT_CONFIG plugin)))
       (λ e, match e with
             | ValueError => Ret (default_minutes (default DEFAULT_CONFIG plugin))
             | _ => Raise e
             end)) =
  {| final := st; trace := []; result := Returned (chosen_minutes plugin groups) |}.
Proof.
  unfold chosen_minutes, int_.
  destruct (minutes_group groups) as [[|c s]|]; cbn; try done.
  by destruct (py_int (c :: s)).
Qed.

(** A trace without a post. *)
Lemma not_posted g text (tr : list event) :
  Called (send_group_msg g text) ∈ tr →
  match tr with
  | [] | [Called (send_text _)] | [TaskCreated _] => False
  | _ => True
  end.
Proof.
  destruct tr as [|[[]|] [|]]; try done.
  - by intros ?%elem_of_nil.
  - by intros [=]%list_elem_of_singleton.
  - by intros [=]%list_elem_of_singleton.
Qed.

Ltac step :=
  cbn -[send_group_text_via_napcat message_content find_target];
  unfold mbind, coro_mbind.

Ltac rejected :=
  left; split; [|split; [|split]]; cbn;
  [by intros ? ? [=]|reflexivity|reflexivity|].

(** Every run of [execute]: either it is turned down, and then it
    leaves the store as it was and starts no task, or it is accepted,
    and then it has posted one announcement, stored one record under
    the identifier it got back and started one task. *)
Lemma execute_run env plugin st msg groups :
  let r := run env st (execute plugin msg groups) in
  ((∀ b c, result r ≠ Returned (true, b, c)) ∧
   final r = st ∧ tasks_created (trace r) = [] ∧
   (∀ g text, Called (send_group_msg g text) ∈ trace r →
      no_identifier (env (send_group_msg g text)) ∧
      result r = Returned announcement_failed))
  ∨
  (∃ id g gz t uid,
     resolved_group_id msg = Some g ∧ g ≠ [] ∧ py_int g = Some gz ∧
     any_group_id g st = false ∧
     target groups = Some t ∧ t ≠ [] ∧
     find_target t (message_segments msg) = Some uid ∧ uid ≠ [] ∧
     env (send_group_msg gz (proposal_text plugin t (chosen_minutes plugin groups)))
       = http_json (Some id) ∧ id ≠ 0 ∧
     result r = Returned accepted ∧
     final r = store_vote (str_int id) g uid t (chosen_minutes plugin groups) st ∧
     trace r = [Called (send_group_msg gz
                          (proposal_text plugin t (chosen_minutes plugin groups)));
                TaskCreated (str_int id)]).
Proof.
  unfold execute. fold (message_content msg). fold (message_segments msg).
  case_bool_decide as Hbare; step.
  { rejected. by intros ? text ?%not_posted. }
  destruct (truthy (resolved_group_id msg)) eqn:Hgroup; step;
    [|rejected; by intros ? text ?%not_posted].
  destruct (truthy (resolved_sender_qq msg)) eqn:Hsender; step;
    [|rejected; by intros ? text ?%not_posted].
  apply truthy_inv in Hgroup as (g & Hg & Hgne). rewrite Hg. step.
  destruct (any_group_id g st) eqn:Hbusy; step;
    [rejected; by intros ? text ?%not_posted|].
  destruct (truthy (target groups)) eqn:Htarget; step;
    [|rejected; by intros ? text ?%not_posted].
  apply truthy_inv in Htarget as (t & Ht & Htne). rewrite Ht. step.
  rewrite run_bind, run_chosen_minutes. step.
  destruct (truthy (find_target t (message_segments msg))) eqn:Huser; step;
    [|rejected; by intros ? text ?%not_posted].
  apply truthy_inv in Huser as (uid & Huid & Huidne). rewrite Huid. step.
  fold (proposal_text plugin t (chosen_minutes plugin groups)).
  rewrite run_bind.
  destruct (py_int g) as [gz|] eqn:Hgz.
  2:{ rewrite run_send_group_text_raises by done. step.
      rejected. by intros ? text ?%not_posted. }
  rewrite (run_send_group_text _ _ _ _ gz) by done. step.
  destruct (env (send_group_msg gz _)) as [|[id|]] eqn:Hresp; step.
  - rejected. intros g' text' [Heq|Hin]%elem_of_cons; [|by apply not_posted in Hin].
    injection Heq as -> ->. rewrite Hresp. split; [by left|done].
  - case_bool_decide as Hid; step.
    + right. exists id, g, gz, t, uid. by repeat split.
    + rejected. intros g' text' [Heq|Hin]%elem_of_cons; [|by apply not_posted in Hin].
      injection Heq as -> ->. rewrite Hresp.
      split; [|done]. right; right. f_equal. f_equal.
      destruct (decide (id = 0)); [done|]. by destruct Hid.
  - rejected. intros g' text' [Heq|Hin]%elem_of_cons; [|by apply not_posted in Hin].
    injection Heq as -> ->. rewrite Hresp. split; [by right; left|done].
Qed.
End proposals.

(** * The store *)

Section stores.
Implicit Types (st : store) (g key : pystr) (v : vote_record).

Lemma any_group_id_true g st :
  any_group_id g st = true ↔
  ∃ key v, vote_summaries st !! key = Some v ∧ group_id v = g.
Proof. unfold any_group_id. by rewrite bool_decide_eq_true. Qed.

Lemma any_group_id_false g st :
  any_group_id g st = false ↔
  ∀ key v, vote_summaries st !! key = Some v → group_id v ≠ g.
Proof.
  unfold any_group_id. rewrite bool_decide_eq_false. unfold map_Exists. split.
  - intros Hnone key v Hv Hg. apply Hnone. by exists key, v.
  - intros Hall (key & v & Hv & Hg). by eapply Hall.
Qed.

Lemma lookup_store_vote key key' g u t mins st v :
  vote_summaries (store_vote key g u t mins st) !! key' = Some v →
  (key' = key ∧ group_id v = g ∧ target_user_id v = u ∧ target_name v = t ∧
   minutes v = mins ∧ yes v = 0%nat ∧ no v = 0%nat)
  ∨ (key' ≠ key ∧ vote_summaries st !! key' = Some v).
Proof.
  unfold store_vote; cbn. rewrite lookup_insert. case_decide as Hkey.
  - intros [= <-]. left. by subst.
  - intros Hv. right. by split.
Qed.

Lemma store_vote_one_vote_per_group key g u t mins st :
  one_vote_per_group st → any_group_id g st = false →
  one_vote_per_group (store_vote key g u t mins st).
Proof.
  intros Hone Hfree k1 k2 v1 v2 H1 H2 Hsame.
  pose proof (proj1 (any_group_id_false g st) Hfree) as Hfree'.
  apply lookup_store_vote in H1 as [(-> & Hg1 & _)|[Hk1 H1]];
    apply lookup_store_vote in H2 as [(-> & Hg2 & _)|[Hk2 H2]].
  - done.
  - destruct (Hfree' _ _ H2). congruence.
  - destruct (Hfree' _ _ H1). congruence.
  - by eapply Hone.
Qed.

Lemma lookup_set_counts o y n st key v :
  vote_summaries (set_counts o y n st) !! key = Some v →
  ∃ w, vote_summaries st !! key = Some w ∧ group_id v = group_id w ∧
       target_user_id v = target_user_id w ∧ target_name v = target_name w ∧
       minutes v = minutes w.
Proof.
  unfold set_counts; cbn. rewrite lookup_fmap.
  destruct (vote_summaries st !! key) as [w|]; [|done]. cbn.
  intros [= <-]. exists w. by case_decide.
Qed.

Lemma set_counts_one_vote_per_group o y n st :
  one_vote_per_group st → one_vote_per_group (set_counts o y n st).
Proof.
  intros Hone k1 k2 v1 v2 (w1 & H1 & Hg1 & _)%lookup_set_counts
    (w2 & H2 & Hg2 & _)%lookup_set_counts Hsame.
  eapply Hone; [done..|]. congruence.
Qed.

Lemma pop_vote_one_vote_per_group key st :
  one_vote_per_group st → one_vote_per_group (pop_vote key st).
Proof.
  intros Hone k1 k2 v1 v2. unfold pop_vote; cbn.
  intros [_ H1]%lookup_delete_Some [_ H2]%lookup_delete_Some. by eapply Hone.
Qed.
End stores.

(** * The verdict of an announcement *)

Section verdicts.
Context `{PyRuntime}.

Lemma last_two_inj {A} (l k : list A) (a b c d : A) :
  l ++ [a; b] = k ++ [c; d] → a = c.
Proof. intros Heq. apply app_inj_2 in Heq as [_ [= -> _]]; done. Qed.

Lemma failed_verdict_end : ∃ l, failed_verdict = l ++ [30001; 12290]%N.
Proof. eexists (take 12 failed_verdict). by vm_compute. Qed.

Lemma passed_verdict_end mins : ∃ l, passed_verdict mins = l ++ [38047; 12290]%N.
Proof.
  exists (py "投票通过！该用户将被禁言 " ++ str_int mins ++ py " 分").
  unfold passed_verdict. rewrite <- !app_assoc.
  apply (f_equal (app _)), (f_equal (app _)). by vm_compute.
Qed.

Lemma reports_passed_intro head mins : reports_passed (head ++ passed_verdict mins).
Proof. by exists head, mins. Qed.

Lemma reports_failed_intro head : reports_failed (head ++ failed_verdict).
Proof. by exists head. Qed.

(** No announcement carries both verdicts. *)
Lemma verdicts_exclusive text : reports_passed text → reports_failed text → False.
Proof.
  intros (h1 & mins & ->) (h2 & Heq).
  destruct (passed_verdict_end mins) as [l1 Hl1], failed_verdict_end as [l2 Hl2].
  rewrite Hl1, Hl2, !app_assoc in Heq. by apply last_two_inj in Heq.
Qed.
End verdicts.

#[local] Existing Instance ascii_runtime.
#[local] Existing Instance plain_objects.

(** * The models of [int] and of the patterns on samples *)

Example py_int_samples :
  py_int (py "300") = Some 300 ∧ py_int (py "007") = Some 7 ∧
  py_int (py " -1_000 ") = Some (-1000) ∧ py_int (py "+5") = Some 5 ∧
  py_int (py "") = None ∧ py_int (py "all") = None ∧
  py_int (py "1__0") = None ∧ py_int (py "_1") = None ∧ py_int (py "- 5") = None.
Proof. by vm_compute. Qed.

(** The separators U+001C to U+001F are blanks for [str.strip] and not
    for [int()]; the other ASCII blanks are skipped by both. *)
Example py_int_separators :
  strip (28%N :: py "1000") = py "1000" ∧
  py_int (28%N :: py "1000") = None ∧
  py_int (py "1000" ++ [31%N]) = None ∧
  py_int (12%N :: py "1000" ++ nl) = Some 1000.
Proof. by vm_compute. Qed.

Example command_pattern_samples :
  let matched t m := Some {| target := py <$> t; minutes_group := py <$> m |} in
  command_pattern (py "/投票禁言") = matched None None ∧
  command_pattern (py "/投票禁言 @123 5") = matched (Some "123") (Some "5") ∧
  command_pattern (py "/投票禁言 @123") = matched (Some "123") None ∧
  command_pattern (py "/投票禁言 123") = matched (Some "123") None ∧
  command_pattern (py "/投票禁言 @123 0") = matched (Some "123") (Some "0") ∧
  command_pattern (py "/投票禁言  @1  22" ++ nl) = matched (Some "1") (Some "22") ∧
  command_pattern (py "/投票禁言 @all") = matched (Some "all") None ∧
  command_pattern (py "/投票禁言 @@all") = matched (Some "@all") None ∧
  command_pattern (py "/投票禁言 @") = matched (Some "@") None ∧
  command_pattern (py "/投票禁言 12ab") = matched (Some "12ab") None ∧
  command_pattern (py "/投票禁言@123") = None ∧
  command_pattern (py "/投票禁言 @123 abc") = None ∧
  command_pattern (py "/投票禁言 @123 5 6") = None ∧
  command_pattern (py "/投票禁言 ") = None.
Proof. by vm_compute. Qed.

Example search_at_digits_samples :
  search_at_digits (py "/投票禁言 @123 5") = Some (py "123") ∧
  search_at_digits (py "/x @a @12b @3") = Some (py "12") ∧
  search_at_digits (py "/投票禁言 123") = None ∧
  search_at_digits (py "/投票禁言 @all") = None.
Proof. by vm_compute. Qed.

(** * Resolution *)

(** Every run of the deferred task that finds its record: it returns
    after one announcement and the removal of the record, with a mute
    request before them when the vote passes, or it raises before any
    announcement, where a request cannot be built. *)
Lemma end_vote_run `{PyRuntime} env plugin st message_id v :
  vote_summaries st !! message_id = Some v →
  let r := run env st (_end_vote_after_delay plugin message_id) in
  let approve := approve_count env message_id in
  let reject := reject_count env message_id in
  ((approve ≤ reject)%nat ∧ ∃ g, py_int (group_id v) = Some g ∧
     r = {| final := pop_vote message_id (tallied env message_id v st);
            trace := tally_trace plugin message_id ++
              [Called (send_group_msg g
                 (outcome_header (target_name v) approve reject ++ failed_verdict))];
            result := Returned () |})
  ∨ ((reject < approve)%nat ∧ ∃ g u,
     py_int (group_id v) = Some g ∧ py_int (target_user_id v) = Some u ∧
     r = {| final := pop_vote message_id (tallied env message_id v st);
            trace := tally_trace plugin message_id ++
              [Called (set_group_ban g u (minutes v * 60));
               Called (send_group_msg g
                 (outcome_header (target_name v) approve reject
                    ++ passed_verdict (minutes v)))];
            result := Returned () |})
  ∨ (((approve ≤ reject)%nat ∧ py_int (group_id v) = None
      ∨ (reject < approve)%nat ∧
        (py_int (group_id v) = None ∨ py_int (target_user_id v) = None)) ∧
     r = {| final := tallied env message_id v st;
            trace := tally_trace plugin message_id;
            result := Raised ValueError |}).
Proof.
  intros Hv r approve reject. subst r approve reject.
  destruct (decide (reject_count env message_id < approve_count env message_id)%nat)
    as [Hlt|Hle%Nat.nlt_ge].
  - destruct (py_int (group_id v)) as [g|] eqn:Hg;
      [destruct (py_int (target_user_id v)) as [u|] eqn:Hu|].
    + right; left. split; [done|]. exists g, u. repeat split.
      by apply end_vote_passed.
    + right; right. split; [right; split; [done|by right]|].
      apply end_vote_mute_raises; [done..|by right].
    + right; right. split; [right; split; [done|by left]|].
      apply end_vote_mute_raises; [done..|by left].
  - destruct (py_int (group_id v)) as [g|] eqn:Hg.
    + left. split; [done|]. exists g. split; [done|]. by apply end_vote_rejected.
    + right; right. split; [by left|]. by apply end_vote_post_raises.
Qed.

Lemma announcements_app tr1 tr2 :
  announcements (tr1 ++ tr2) = announcements tr1 ++ announcements tr2.
Proof. apply omap_app. Qed.

Lemma bans_app tr1 tr2 : bans (tr1 ++ tr2) = bans tr1 ++ bans tr2.
Proof. apply omap_app. Qed.

(** The decision rule, for a record whose group and target identifiers
    convert to integers: for every pair of counts, the mute request is
    sent and the announcement ends with the passed verdict if and only
    if approve > reject; otherwise, a tie and 0 to 0 included, no mute
    request is sent and the announcement ends with the failed
    verdict. *)
Theorem vote_passes_iff_more_approvals `{PyRuntime} env plugin st message_id v g u :
  vote_summaries st !! message_id = Some v →
  py_int (group_id v) = Some g →
  py_int (target_user_id v) = Some u →
  let r := run env st (_end_vote_after_delay plugin message_id) in
  let approve := approve_count env message_id in
  let reject := reject_count env message_id in
  ∃ text,
    announcements (trace r) = [(g, text)] ∧
    ((reject < approve)%nat ↔ bans (trace r) = [(g, u, minutes v * 60)]) ∧
    ((reject < approve)%nat ↔ reports_passed text) ∧
    ((approve ≤ reject)%nat ↔ bans (trace r) = []) ∧
    ((approve ≤ reject)%nat ↔ reports_failed text).
Proof.
  intros Hv Hg Hu r approve reject.
  destruct (end_vote_run env plugin st message_id v Hv)
    as [(Hle & g' & Hg' & Hr)|[(Hlt & g' & u' & Hg' & Hu' & Hr)|[Hbad _]]].
  - assert (g' = g) as -> by congruence.
    fold r approve reject in Hle, Hr. rewrite Hr; cbn [trace final result].
    rewrite announcements_app, bans_app, announcements_tally, bans_tally; cbn.
    eexists; split; [done|].
    pose proof (reports_failed_intro (outcome_header (target_name v) approve reject)).
    repeat split; try done; try lia.
    intros Hpassed. exfalso. by eapply verdicts_exclusive.
  - assert (g' = g) as -> by congruence. assert (u' = u) as -> by congruence.
    fold r approve reject in Hlt, Hr. rewrite Hr; cbn [trace final result].
    rewrite announcements_app, bans_app, announcements_tally, bans_tally; cbn.
    eexists; split; [done|].
    pose proof (reports_passed_intro (outcome_header (target_name v) approve reject)
                  (minutes v)).
    repeat split; try done; try lia.
    intros Hfailed. exfalso. by eapply verdicts_exclusive.
  - destruct Hbad as [[_ ?]|[_ [?|?]]]; congruence.
Qed.


Lemma vote_passes_iff_more_approvals_witness :
  let env := sample_backend 77 5 3 in
  let r := run env sample_store (_end_vote_after_delay None (py "77")) in
  (vote_summaries sample_store !! py "77" = Some sample_vote ∧
   py_int (group_id sample_vote) = Some 1000 ∧
   py_int (target_user_id sample_vote) = Some 123) ∧
  ∃ text,
    announcements (trace r) = [(1000, text)] ∧
    ((reject_count env (py "77") < approve_count env (py "77"))%nat
       ↔ bans (trace r) = [(1000, 123, minutes sample_vote * 60)]) ∧
    ((reject_count env (py "77") < approve_count env (py "77"))%nat
       ↔ reports_passed text) ∧
    ((approve_count env (py "77") ≤ reject_count env (py "77"))%nat
       ↔ bans (trace r) = []) ∧
    ((approve_count env (py "77") ≤ reject_count env (py "77"))%nat
       ↔ reports_failed text).
Proof.
  assert (vote_summaries sample_store !! py "77" = Some sample_vote) as Hv
    by (by vm_compute).
  assert (py_int (group_id sample_vote) = Some 1000) as Hg by (by vm_compute).
  assert (py_int (target_user_id sample_vote) = Some 123) as Hu by (by vm_compute).
  split; [repeat split; assumption|].
  exact (vote_passes_iff_more_approvals (sample_backend 77 5 3) None sample_store
           (py "77") sample_vote 1000 123 Hv Hg Hu).
Defined.

(** The outcomes the specification lists: 5 to 3 passes; 3 to 5, 4 to 4
    and 0 to 0 do not. *)
Example outcome_rule_samples :
  let outcome (a b : nat) :=
    let r := run (sample_backend 77 a b) sample_store
                 (_end_vote_after_delay None (py "77")) in
    (bans (trace r), snd <$> announcements (trace r)) in
  outcome 5%nat 3%nat = ([(1000, 123, 300)],
                 [outcome_header (py "123") 5 3 ++ passed_verdict 5]) ∧
  outcome 3%nat 5%nat = ([], [outcome_header (py "123") 3 5 ++ failed_verdict]) ∧
  outcome 4%nat 4%nat = ([], [outcome_header (py "123") 4 4 ++ failed_verdict]) ∧
  outcome 0%nat 0%nat = ([], [outcome_header (py "123") 0 0 ++ failed_verdict]).
Proof. by vm_compute. Qed.

(** C1.  More approvals than rejections, and neither a mute nor a
    verdict.  The vote on the target [all], accepted from a message of
    segments, is tallied 3 to 1: the deferred task raises where it
    builds the mute request, no request is sent and no announcement
    reports the vote as passed.  Tallied 1 to 3, the same vote is
    reported as failed. *)
Theorem more_approvals_without_mute_or_verdict :
  let command := py "/投票禁言 @all" in
  let msg := segments_command command [at_segment (py "all")] (py "1000") (py "42") in
  let outcome (approvals rejections : nat) :=
    let env := sample_backend 91 approvals rejections in
    let proposed := run env empty_store (execute None msg (groups_of command)) in
    let resolved := run env (final proposed) (_end_vote_after_delay None (py "91")) in
    (result proposed, approve_count env (py "91"), reject_count env (py "91"),
     result resolved, bans (trace resolved), snd <$> announcements (trace resolved)) in
  outcome 3%nat 1%nat
    = (Returned accepted, 3%nat, 1%nat, Raised ValueError, [], []) ∧
  outcome 1%nat 3%nat
    = (Returned accepted, 1%nat, 3%nat, Returned (), [],
       [outcome_header (py "all") 1 3 ++ failed_verdict]).
Proof. by vm_compute. Qed.

(** C9. A vote that passes with [minutes] = m sends one mute request,
    whose duration is m * 60 seconds; no run sends a mute request with
    another duration. *)
Theorem mute_duration_is_minutes_times_60 `{PyRuntime} env plugin st message_id v :
  vote_summaries st !! message_id = Some v →
  let r := run env st (_end_vote_after_delay plugin message_id) in
  (∀ g u d, (g, u, d) ∈ bans (trace r) →
     d = minutes v * 60 ∧
     (reject_count env message_id < approve_count env message_id)%nat) ∧
  (∀ g u,
     (reject_count env message_id < approve_count env message_id)%nat →
     py_int (group_id v) = Some g → py_int (target_user_id v) = Some u →
     bans (trace r) = [(g, u, minutes v * 60)]).
Proof.
  intros Hv r.
  destruct (end_vote_run env plugin st message_id v Hv)
    as [(Hle & g' & Hg' & Hr)|[(Hlt & g' & u' & Hg' & Hu' & Hr)|[Hbad Hr]]];
    fold r in Hr; rewrite Hr; cbn [trace final result];
    rewrite ?bans_app, bans_tally; cbn.
  - split; [by intros g u d ?%elem_of_nil|]. intros g u Hlt. lia.
  - split.
    + by intros g u d [= _ _ <-]%list_elem_of_singleton.
    + intros g u _ Hg Hu. congruence.
  - split; [by intros g u d ?%elem_of_nil|].
    intros g u Hlt Hg Hu. destruct Hbad as [[? ?]|[_ [?|?]]]; [lia|congruence..].
Qed.

Lemma mute_duration_is_minutes_times_60_witness :
  let env := sample_backend 77 2 1 in
  let r := run env sample_store (_end_vote_after_delay None (py "77")) in
  vote_summaries sample_store !! py "77" = Some sample_vote ∧
  (∀ g u d, (g, u, d) ∈ bans (trace r) →
     d = minutes sample_vote * 60 ∧
     (reject_count env (py "77") < approve_count env (py "77"))%nat) ∧
  (∀ g u,
     (reject_count env (py "77") < approve_count env (py "77"))%nat →
     py_int (group_id sample_vote) = Some g →
     py_int (target_user_id sample_vote) = Some u →
     bans (trace r) = [(g, u, minutes sample_vote * 60)]).
Proof.
  assert (vote_summaries sample_store !! py "77" = Some sample_vote) as Hv
    by (by vm_compute).
  split; [repeat split; assumption|].
  exact (mute_duration_is_minutes_times_60 (sample_backend 77 2 1) None sample_store
           (py "77") sample_vote Hv).
Defined.

(** The deferred task run twice.  Run for a message whose record is
    absent, it returns without raising, posts nothing and leaves the
    store as it is.  So when it is run twice for the same message, and
    the first run finds the record and returns, the two runs post one
    announcement between them and the record is absent after each. *)
Theorem resolving_twice_announces_once `{PyRuntime} env1 env2 plugin st message_id v :
  let r1 := run env1 st (_end_vote_after_delay plugin message_id) in
  let r2 := run env2 (final r1) (_end_vote_after_delay plugin message_id) in
  vote_summaries st !! message_id = Some v →
  result r1 = Returned () →
  (∀ env st', vote_summaries st' !! message_id = None →
     let r := run env st' (_end_vote_after_delay plugin message_id) in
     result r = Returned () ∧ announcements (trace r) = [] ∧
     bans (trace r) = [] ∧ final r = st') ∧
  (∃ g text, announcements (trace r1 ++ trace r2) = [(g, text)]) ∧
  vote_summaries (final r1) !! message_id = None ∧
  result r2 = Returned () ∧
  vote_summaries (final r2) !! message_id = None.
Proof.
  intros r1 r2 Hv Hret.
  assert (∀ env st', vote_summaries st' !! message_id = None →
     let r := run env st' (_end_vote_after_delay plugin message_id) in
     result r = Returned () ∧ announcements (trace r) = [] ∧
     bans (trace r) = [] ∧ final r = st') as Habsent.
  { intros env st' Hnone r. subst r. by rewrite end_vote_absent. }
  split; [done|].
  assert (vote_summaries (final r1) !! message_id = None ∧
          ∃ g text, announcements (trace r1) = [(g, text)]) as [Hgone Hone].
  { destruct (end_vote_run env1 plugin st message_id v Hv)
      as [(Hle & g & Hg & Hr)|[(Hlt & g & u & Hg & Hu & Hr)|[Hbad Hr]]];
      fold r1 in Hr; rewrite Hr in Hret |- *; cbn [trace final result] in *.
    - split; [apply lookup_popped|].
      rewrite announcements_app, announcements_tally. by eexists _, _.
    - split; [apply lookup_popped|].
      rewrite announcements_app, announcements_tally. by eexists _, _.
    - done. }
  destruct (Habsent env2 (final r1) Hgone) as (Hret2 & Hann2 & _ & Hfinal2).
  fold r2 in Hret2, Hann2, Hfinal2.
  destruct Hone as (g & text & Hone).
  repeat split; try done.
  - exists g, text. by rewrite announcements_app, Hone, Hann2.
  - by rewrite Hfinal2.
Qed.

Lemma resolving_twice_announces_once_witness :
  let env := sample_backend 77 2 1 in
  let r1 := run env sample_store (_end_vote_after_delay None (py "77")) in
  let r2 := run env (final r1) (_end_vote_after_delay None (py "77")) in
  (vote_summaries sample_store !! py "77" = Some sample_vote ∧
   result r1 = Returned ()) ∧
  (∃ g text, announcements (trace r1 ++ trace r2) = [(g, text)]) ∧
  vote_summaries (final r1) !! py "77" = None ∧
  result r2 = Returned () ∧
  vote_summaries (final r2) !! py "77" = None.
Proof.
  assert (vote_summaries sample_store !! py "77" = Some sample_vote) as Hv
    by (by vm_compute).
  assert (result (run (sample_backend 77 2 1) sample_store
                    (_end_vote_after_delay None (py "77"))) = Returned ()) as Hret
    by (by vm_compute).
  split; [repeat split; assumption|].
  exact (proj2 (resolving_twice_announces_once (sample_backend 77 2 1)
                  (sample_backend 77 2 1) None sample_store (py "77") sample_vote
                  Hv Hret)).
Defined.

(** C4.  Two runs of the deferred task and no announcement.  The vote
    on the target [all] is accepted as message 92 and tallied 1 to 0.
    The first run finds the record and raises where it builds the mute
    request; the second finds the record again and raises the same way.
    Between them they post nothing, and the record is in the store
    after each. *)
Theorem resolving_twice_may_announce_nothing :
  let env := sample_backend 92 1 0 in
  let command := py "/投票禁言 @all" in
  let msg := segments_command command [at_segment (py "all")] (py "1000") (py "42") in
  let proposed := run env empty_store (execute None msg (groups_of command)) in
  let first := run env (final proposed) (_end_vote_after_delay None (py "92")) in
  let second := run env (final first) (_end_vote_after_delay None (py "92")) in
  result proposed = Returned accepted ∧
  tasks_created (trace proposed) = [py "92"] ∧
  result first = Raised ValueError ∧
  target_user_id <$> vote_summaries (final first) !! py "92" = Some (py "all") ∧
  result second = Raised ValueError ∧
  target_user_id <$> vote_summaries (final second) !! py "92" = Some (py "all") ∧
  announcements (trace first ++ trace second) = [].
Proof. vm_compute. by repeat split. Qed.

(** What one query contributes to the tally. *)
Lemma observed_count_failed `{PyRuntime} env message_id emojiId emojiType :
  query_failed env message_id emojiId emojiType →
  observed_count env message_id emojiId emojiType = 0%nat.
Proof.
  unfold query_failed, observed_count. intros Hfail.
  destruct (py_int message_id) as [id|]; [|done]. specialize (Hfail id eq_refl).
  destruct (env (fetch_emoji_like id emojiId emojiType)) as [|data]; [done|].
  by rewrite bool_decide_false.
Qed.

Lemma observed_count_counted `{PyRuntime} env message_id emojiId emojiType k :
  query_counted env message_id emojiId emojiType k →
  observed_count env message_id emojiId emojiType = k.
Proof.
  unfold observed_count. intros (id & data & -> & -> & Hcode & <-).
  by rewrite bool_decide_true.
Qed.

(** A query of the tally that fails, by a transport error or by a
    status other than 0, counts as zero for its side and for that side
    only: the other side keeps the count its own query lists.  For a
    record whose group and target identifiers convert to integers,
    resolution then returns, with its one announcement, computed from
    those counts, and with the record removed. *)
Theorem failed_query_counts_as_zero `{PyRuntime} env plugin st message_id v g u :
  vote_summaries st !! message_id = Some v →
  py_int (group_id v) = Some g →
  py_int (target_user_id v) = Some u →
  let r := run env st (_end_vote_after_delay plugin message_id) in
  ∃ approve reject verdict,
    (query_failed env message_id EMOJI_YES_ID (py "1") → approve = 0%nat) ∧
    (∀ k, query_counted env message_id EMOJI_YES_ID (py "1") k → approve = k) ∧
    (query_failed env message_id EMOJI_NO_ID EMOJI_NO_TYPE → reject = 0%nat) ∧
    (∀ k, query_counted env message_id EMOJI_NO_ID EMOJI_NO_TYPE k → reject = k) ∧
    ((reject < approve)%nat → verdict = passed_verdict (minutes v)) ∧
    ((approve ≤ reject)%nat → verdict = failed_verdict) ∧
    result r = Returned () ∧
    announcements (trace r)
      = [(g, outcome_header (target_name v) approve reject ++ verdict)] ∧
    vote_summaries (final r) !! message_id = None.
Proof.
  intros Hv Hg Hu r.
  exists (approve_count env message_id), (reject_count env message_id).
  destruct (end_vote_run env plugin st message_id v Hv)
    as [(Hle & g' & Hg' & Hr)|[(Hlt & g' & u' & Hg' & Hu' & Hr)|[Hbad _]]].
  - assert (g' = g) as -> by congruence. exists failed_verdict.
    fold r in Hr. rewrite Hr; cbn [trace final result].
    rewrite announcements_app, announcements_tally.
    repeat split; try done; try lia;
      eauto using observed_count_failed, observed_count_counted, lookup_popped.
  - assert (g' = g) as -> by congruence. exists (passed_verdict (minutes v)).
    fold r in Hr. rewrite Hr; cbn [trace final result].
    rewrite announcements_app, announcements_tally.
    repeat split; try done; try lia;
      eauto using observed_count_failed, observed_count_counted, lookup_popped.
  - destruct Hbad as [[_ ?]|[_ [?|?]]]; congruence.
Qed.

Lemma failed_query_counts_as_zero_witness :
  let env := failing_query_backend 77 EMOJI_NO_ID 2 in
  let r := run env sample_store (_end_vote_after_delay None (py "77")) in
  (vote_summaries sample_store !! py "77" = Some sample_vote ∧
   py_int (group_id sample_vote) = Some 1000 ∧
   py_int (target_user_id sample_vote) = Some 123) ∧
  query_failed env (py "77") EMOJI_NO_ID EMOJI_NO_TYPE ∧
  query_counted env (py "77") EMOJI_YES_ID (py "1") 2 ∧
  ∃ approve reject verdict,
    (query_failed env (py "77") EMOJI_YES_ID (py "1") → approve = 0%nat) ∧
    (∀ k, query_counted env (py "77") EMOJI_YES_ID (py "1") k → approve = k) ∧
    (query_failed env (py "77") EMOJI_NO_ID EMOJI_NO_TYPE → reject = 0%nat) ∧
    (∀ k, query_counted env (py "77") EMOJI_NO_ID EMOJI_NO_TYPE k → reject = k) ∧
    ((reject < approve)%nat → verdict = passed_verdict (minutes sample_vote)) ∧
    ((approve ≤ reject)%nat → verdict = failed_verdict) ∧
    result r = Returned () ∧
    announcements (trace r)
      = [(1000, outcome_header (target_name sample_vote) approve reject ++ verdict)] ∧
    vote_summaries (final r) !! py "77" = None.
Proof.
  assert (vote_summaries sample_store !! py "77" = Some sample_vote) as Hv
    by (by vm_compute).
  assert (py_int (group_id sample_vote) = Some 1000) as Hg by (by vm_compute).
  assert (py_int (target_user_id sample_vote) = Some 123) as Hu by (by vm_compute).
  split; [done|]. split; [|split].
  - intros id [= <-]%(inj Some). by vm_compute.
  - eexists 77, _. by vm_compute.
  - exact (failed_query_counts_as_zero (failing_query_backend 77 EMOJI_NO_ID 2) None
             sample_store (py "77") sample_vote 1000 123 Hv Hg Hu).
Defined.

(** C5.  A failed query and a resolution that does not complete.  The
    vote on the target [all] is accepted as message 93; the query of
    the rejections fails in transport and the query of the approvals
    lists 2.  The counts are 2 and 0 and are written to the record, the
    vote passes, and the deferred task raises where it builds the mute
    request: nothing is announced and the record is not removed. *)
Theorem failed_query_then_no_announcement :
  let env := failing_query_backend 93 EMOJI_NO_ID 2 in
  let command := py "/投票禁言 @all" in
  let msg := segments_command command [at_segment (py "all")] (py "1000") (py "42") in
  let proposed := run env empty_store (execute None msg (groups_of command)) in
  let resolved := run env (final proposed) (_end_vote_after_delay None (py "93")) in
  result proposed = Returned accepted ∧
  tasks_created (trace proposed) = [py "93"] ∧
  query_failed env (py "93") EMOJI_NO_ID EMOJI_NO_TYPE ∧
  query_counted env (py "93") EMOJI_YES_ID (py "1") 2 ∧
  approve_count env (py "93") = 2%nat ∧
  reject_count env (py "93") = 0%nat ∧
  result resolved = Raised ValueError ∧
  announcements (trace resolved) = [] ∧
  (λ v, (target_user_id v, yes v, no v)) <$> vote_summaries (final resolved) !! py "93"
    = Some (py "all", 2%nat, 0%nat).
Proof.
  intros env command msg proposed resolved.
  split; [by vm_compute|]. split; [by vm_compute|]. split; [|split].
  - intros id [= <-]%(inj Some). by vm_compute.
  - eexists 93, _. by vm_compute.
  - by vm_compute.
Qed.

(** * Proposals *)

Lemma execute_accepted `{PyRuntime} env plugin st msg groups :
  let r := run env st (execute plugin msg groups) in
  result r = Returned accepted →
  ∃ id g gz t uid,
    resolved_group_id msg = Some g ∧ g ≠ [] ∧ py_int g = Some gz ∧
    any_group_id g st = false ∧
    target groups = Some t ∧ t ≠ [] ∧
    find_target t (message_segments msg) = Some uid ∧ uid ≠ [] ∧
    env (send_group_msg gz (proposal_text plugin t (chosen_minutes plugin groups)))
      = http_json (Some id) ∧ id ≠ 0 ∧
    final r = store_vote (str_int id) g uid t (chosen_minutes plugin groups) st ∧
    trace r = [Called (send_group_msg gz
                         (proposal_text plugin t (chosen_minutes plugin groups)));
               TaskCreated (str_int id)].
Proof.
  intros r Hacc. destruct (execute_run env plugin st msg groups) as [[Hno _]|Hyes].
  - by destruct (Hno _ _ Hacc).
  - destruct Hyes as (id & g & gz & t & uid & ? & ? & ? & ? & ? & ? & ? & ? & ? & ? & ? & ? & ?).
    by exists id, g, gz, t, uid.
Qed.

(** C7. When the post of the proposal returns no identifier, [execute]
    answers that the announcement failed, the store is as it was before
    the call and no task is started. *)
Theorem failed_announcement_leaves_no_state `{PyRuntime} env plugin st msg groups g text :
  let r := run env st (execute plugin msg groups) in
  Called (send_group_msg g text) ∈ trace r →
  no_identifier (env (send_group_msg g text)) →
  result r = Returned announcement_failed ∧
  final r = st ∧
  tasks_created (trace r) = [].
Proof.
  intros r Hposted Hnone.
  destruct (execute_run env plugin st msg groups)
    as [(_ & Hst & Htasks & Hpost)|Hyes].
  - destruct (Hpost g text Hposted) as [_ Hres]. by repeat split.
  - destruct Hyes as (id & g' & gz & t & uid & _ & _ & _ & _ & _ & _ & _ & _
                      & Hresp & Hid & _ & _ & Htrace).
    fold r in Htrace. rewrite Htrace in Hposted.
    apply elem_of_cons in Hposted as [[= -> ->]|Hposted].
    + rewrite Hresp in Hnone. destruct Hnone as [?|[?|[= ?]]]; done.
    + by apply list_elem_of_singleton in Hposted.
Qed.

Lemma failed_announcement_leaves_no_state_witness :
  let msg := text_command (py "/投票禁言 @123 5") (py "1000") (py "42") in
  let groups := groups_of (py "/投票禁言 @123 5") in
  let text := proposal_text None (py "123") 5 in
  let r' := run silent_backend empty_store (execute None msg groups) in
  (Called (send_group_msg 1000 text) ∈ trace r' ∧
   no_identifier (silent_backend (send_group_msg 1000 text))) ∧
  result r' = Returned announcement_failed ∧
  final r' = empty_store ∧
  tasks_created (trace r') = [].
Proof.
  assert (Called (send_group_msg 1000 (proposal_text None (py "123") 5))
            ∈ trace (run silent_backend empty_store
                       (execute None
                          (text_command (py "/投票禁言 @123 5") (py "1000") (py "42"))
                          (groups_of (py "/投票禁言 @123 5"))))) as Hposted.
  { vm_compute. apply list_elem_of_here. }
  assert (no_identifier
            (silent_backend (send_group_msg 1000 (proposal_text None (py "123") 5))))
    as Hnone by (right; left; reflexivity).
  split; [repeat split; assumption|].
  exact (failed_announcement_leaves_no_state silent_backend None empty_store _ _ _ _
           Hposted Hnone).
Defined.

(** C3.  A vote on a target whose identifier is no integer: the
    proposal is accepted from a message of segments, the vote passes 1
    to 0, and the deferred task raises when it builds the mute request.
    No outcome is announced, the record stays in the store, and the next
    proposal in the room is turned down. *)
Theorem unparsable_target_strands_the_record :
  let env := sample_backend 77 1 0 in
  let command := py "/投票禁言 @all" in
  let msg := segments_command command [other_segment; at_segment (py "all")]
               (py "1000") (py "42") in
  let proposed := run env empty_store (execute None msg (groups_of command)) in
  let resolved := run env (final proposed) (_end_vote_after_delay None (py "77")) in
  let next := py "/投票禁言 @123" in
  let again := run env (final resolved)
                 (execute None (text_command next (py "1000") (py "43"))
                    (groups_of next)) in
  result proposed = Returned accepted ∧
  tasks_created (trace proposed) = [py "77"] ∧
  target_user_id <$> vote_summaries (final proposed) !! py "77" = Some (py "all") ∧
  approve_count env (py "77") = 1%nat ∧
  reject_count env (py "77") = 0%nat ∧
  result resolved = Raised ValueError ∧
  announcements (trace resolved) = [] ∧
  target_user_id <$> vote_summaries (final resolved) !! py "77" = Some (py "all") ∧
  result again = Returned vote_in_progress.
Proof. vm_compute. by repeat split. Qed.

(** C6.  A passing vote whose mute call fails: the vote passes 2 to 1,
    the call raises on the target identifier before any request is
    sent, and the task ends there: no announcement reports the vote as
    passed and the record is not removed. *)
Theorem failed_mute_call_suppresses_the_announcement :
  let env := sample_backend 88 2 1 in
  let plugin := Some {| default_minutes := 10; vote_duration := 30 |} in
  let command := py "/投票禁言 @@all" in
  let msg := segments_command command [at_segment (py "all")] (py "2000") (py "7") in
  let proposed := run env empty_store (execute plugin msg (groups_of command)) in
  let resolved := run env (final proposed) (_end_vote_after_delay plugin (py "88")) in
  result proposed = Returned accepted ∧
  (reject_count env (py "88") < approve_count env (py "88"))%nat ∧
  result resolved = Raised ValueError ∧
  bans (trace resolved) = [] ∧
  announcements (trace resolved) = [] ∧
  minutes <$> vote_summaries (final resolved) !! py "88" = Some 10.
Proof. vm_compute. by repeat split. Qed.

(** When the request is sent, what the backend answers to it changes
    nothing: the announcement and the store are the same. *)
Lemma mute_reply_does_not_matter `{PyRuntime} env env' plugin st message_id :
  (∀ c, (∀ g u d, c ≠ set_group_ban g u d) → env c = env' c) →
  run env st (_end_vote_after_delay plugin message_id) =
  run env' st (_end_vote_after_delay plugin message_id).
Proof.
  intros Hsame.
  assert (∀ e t, observed_count env message_id e t = observed_count env' message_id e t)
    as Hcount.
  { intros e t. unfold observed_count. destruct (py_int message_id) as [id|]; [|done].
    by rewrite Hsame. }
  assert (approve_count env message_id = approve_count env' message_id) as Happ
    by apply Hcount.
  assert (reject_count env message_id = reject_count env' message_id) as Hrej
    by apply Hcount.
  destruct (vote_summaries st !! message_id) as [v|] eqn:Hv.
  2:{ by rewrite !end_vote_absent. }
  destruct (end_vote_run env plugin st message_id v Hv)
    as [(Hle & g & Hg & Hr)|[(Hlt & g & u & Hg & Hu & Hr)|[Hbad Hr]]]; rewrite Hr.
  - rewrite (end_vote_rejected env' _ _ _ v g); [|done|lia|done].
    unfold tallied. by rewrite Happ, Hrej.
  - rewrite (end_vote_passed env' _ _ _ v g u); [|done|lia|done..].
    unfold tallied. by rewrite Happ, Hrej.
  - destruct Hbad as [[Hle Hg]|[Hlt Hgu]].
    + rewrite (end_vote_post_raises env' _ _ _ v); [|done|lia|done].
      unfold tallied. by rewrite Happ, Hrej.
    + rewrite (end_vote_mute_raises env' _ _ _ v); [|done|lia|done].
      unfold tallied. by rewrite Happ, Hrej.
Qed.

(** The record an accepted proposal stores. *)
Lemma execute_stored_record `{PyRuntime} env plugin st msg groups key v :
  let r := run env st (execute plugin msg groups) in
  result r = Returned accepted →
  tasks_created (trace r) = [key] →
  vote_summaries (final r) !! key = Some v →
  ∃ g t,
    resolved_group_id msg = Some g ∧ is_Some (py_int g) ∧
    any_group_id g st = false ∧
    target groups = Some t ∧ t ≠ [] ∧
    find_target t (message_segments msg) = Some (target_user_id v) ∧
    target_user_id v ≠ [] ∧
    group_id v = g ∧ target_name v = t ∧
    minutes v = chosen_minutes plugin groups ∧
    yes v = 0%nat ∧ no v = 0%nat.
Proof.
  intros r Hacc Htasks Hv.
  destruct (execute_accepted env plugin st msg groups Hacc)
    as (id & g & gz & t & uid & Hg & _ & Hgz & Hfree & Ht & Htne & Huid & Huidne
        & _ & _ & Hfinal & Htrace).
  fold r in Hfinal, Htrace. rewrite Htrace in Htasks. injection Htasks as <-.
  rewrite Hfinal in Hv.
  apply lookup_store_vote in Hv as [(_ & ? & ? & ? & ? & ? & ?)|[? _]]; [|done].
  exists g, t. subst. by repeat split.
Qed.

(** C8, as the code has it.  The duration of an accepted proposal is
    the integer the digits of the command denote, and the configured
    default when the command carries none or [int()] rejects them.  It is
    never negative, and with a positive default it is zero exactly when
    the digits denote zero. *)
Theorem mute_minutes_requested_or_default `{PyRuntime}
    env plugin st text msg groups key v :
  let r := run env st (execute plugin msg groups) in
  let configured := default_minutes (default DEFAULT_CONFIG plugin) in
  command_pattern text = Some groups →
  0 < configured →
  result r = Returned accepted →
  tasks_created (trace r) = [key] →
  vote_summaries (final r) !! key = Some v →
  0 ≤ minutes v ∧
  (minutes_group groups = None → minutes v = configured) ∧
  (∀ ds, minutes_group groups = Some ds → py_int ds = None → minutes v = configured) ∧
  (∀ ds z, minutes_group groups = Some ds → py_int ds = Some z → minutes v = z) ∧
  (minutes v = 0 ↔ ∃ ds, minutes_group groups = Some ds ∧ py_int ds = Some 0).
Proof.
  intros r configured Hpattern Hpos Hacc Htasks Hv.
  destruct (execute_stored_record env plugin st msg groups key v Hacc Htasks Hv)
    as (g & t & _ & _ & _ & _ & _ & _ & _ & _ & _ & Hmin & _).
  rewrite Hmin. unfold chosen_minutes. fold configured.
  destruct (minutes_group groups) as [ds|] eqn:Hds.
  2:{ repeat split; try done; try lia. by intros (ds & ? & _). }
  destruct (command_pattern_minutes text groups ds Hpattern Hds) as [Hne Hdigits].
  destruct ds as [|c ds]; [done|].
  destruct (py_int (c :: ds)) as [z|] eqn:Hz; cbn.
  - pose proof (py_int_digits_nonneg _ _ Hdigits Hz).
    repeat split; try done; try congruence.
    + intros ->. by exists (c :: ds).
    + intros (ds' & [= <-] & Hzero). congruence.
  - repeat split; try done; try lia; try congruence.
    intros (ds' & [= <-] & Hzero). congruence.
Qed.

Lemma mute_minutes_requested_or_default_witness :
  let text := py "/投票禁言 @123 5" in
  let msg := text_command text (py "1000") (py "42") in
  let groups := groups_of text in
  let r := run (sample_backend 77 0 0) empty_store (execute None msg groups) in
  (command_pattern text = Some groups ∧
   0 < default_minutes (default DEFAULT_CONFIG None) ∧
   result r = Returned accepted ∧
   tasks_created (trace r) = [py "77"] ∧
   vote_summaries (final r) !! py "77" = Some sample_vote) ∧
  0 ≤ minutes sample_vote ∧
  (minutes_group groups = None → minutes sample_vote = 1) ∧
  (∀ ds, minutes_group groups = Some ds → py_int ds = None →
     minutes sample_vote = 1) ∧
  (∀ ds z, minutes_group groups = Some ds → py_int ds = Some z →
     minutes sample_vote = z) ∧
  (minutes sample_vote = 0 ↔
     ∃ ds, minutes_group groups = Some ds ∧ py_int ds = Some 0).
Proof.
  set (text := py "/投票禁言 @123 5").
  set (msg := text_command text (py "1000") (py "42")).
  set (groups := groups_of text).
  set (r := run (sample_backend 77 0 0) empty_store (execute None msg groups)).
  assert (command_pattern text = Some groups) as Hpattern by (by vm_compute).
  assert (0 < default_minutes (default DEFAULT_CONFIG None)) as Hpos by (by vm_compute).
  assert (result r = Returned accepted) as Hacc by (by vm_compute).
  assert (tasks_created (trace r) = [py "77"]) as Htasks by (by vm_compute).
  assert (vote_summaries (final r) !! py "77" = Some sample_vote) as Hv
    by (by vm_compute).
  split; [repeat split; assumption|].
  exact (mute_minutes_requested_or_default (sample_backend 77 0 0) None empty_store
           text msg groups (py "77") sample_vote Hpattern Hpos Hacc Htasks Hv).
Defined.

(** A command without minutes, under [DEFAULT_CONFIG]: the vote is
    stored with the default of 1 minute. *)
Example default_minutes_without_request :
  let text := py "/投票禁言 @123" in
  let msg := text_command text (py "1000") (py "42") in
  let r := run (sample_backend 77 0 0) empty_store
             (execute None msg (groups_of text)) in
  result r = Returned accepted ∧
  minutes <$> vote_summaries (final r) !! py "77" = Some 1.
Proof. by vm_compute. Qed.

(** C8, counterexample.  The command [/投票禁言 @123 0] is matched, the
    proposal is accepted, and the vote is stored with 0 minutes, which
    is not positive. *)
Lemma vote_with_zero_minutes_is_accepted :
  let text := py "/投票禁言 @123 0" in
  let msg := text_command text (py "1000") (py "42") in
  let r := run (sample_backend 77 0 0) empty_store
             (execute None msg (groups_of text)) in
  minutes_group <$> command_pattern text = Some (Some (py "0")) ∧
  result r = Returned accepted ∧
  tasks_created (trace r) = [py "77"] ∧
  minutes <$> vote_summaries (final r) !! py "77" = Some 0 ∧
  ¬ (∀ v, vote_summaries (final r) !! py "77" = Some v → 0 < minutes v).
Proof.
  repeat split; try by vm_compute.
  intros Hpositive.
  specialize (Hpositive
    {| oid := 0; group_id := py "1000"; target_user_id := py "123";
       target_name := py "123"; minutes := 0; yes := 0; no := 0 |}).
  assert (0 < 0) as Habsurd; [|lia].
  apply Hpositive. by vm_compute.
Qed.

Lemma py_at : py "@" = [64%N].
Proof. by vm_compute. Qed.

Lemma find_target_singleton `{PyRuntime} t qq uid :
  find_target t [at_segment qq] = Some uid →
  uid = qq ∧ (t = qq ∨ t = 64%N :: qq).
Proof.
  cbn. rewrite py_at.
  destruct (bool_decide (qq = t)) eqn:Hsame; cbn.
  { apply bool_decide_eq_true in Hsame as <-. intros [= <-]. by split; [|left]. }
  destruct (bool_decide (take 1 t = [64%N])) eqn:Hat; cbn; [|done].
  destruct (bool_decide (qq = drop 1 t)) eqn:Htail; cbn; [|done].
  apply bool_decide_eq_true in Hat, Htail. intros [= <-]. split; [done|]. right.
  rewrite <- (take_drop 1 t) at 1. by rewrite Hat, <- Htail.
Qed.

(** With a plain string for content, the only user [execute] can find
    is the one named by digits after an [@] in it. *)
Lemma text_content_target `{PyRuntime} msg s t uid :
  message_content msg = text_content s →
  find_target t (message_segments msg) = Some uid →
  search_at_digits s = Some uid ∧ all_digits uid ∧ (t = uid ∨ t = 64%N :: uid).
Proof.
  intros Hs. unfold message_segments. rewrite Hs.
  destruct (search_at_digits s) as [qq|] eqn:Hqq; [|done].
  intros [-> Ht]%find_target_singleton. split; [done|].
  split; [by eapply search_at_digits_Some|done].
Qed.

Lemma execute_target_id_not_found `{PyRuntime} env plugin st msg groups :
  strip (_first_text [dig_message_info_plain_text msg; dig_raw_message msg])
    ≠ py "/投票禁言" →
  truthy (resolved_group_id msg) = true →
  truthy (resolved_sender_qq msg) = true →
  any_group_id (default [] (resolved_group_id msg)) st = false →
  truthy (target groups) = true →
  truthy (find_target (default [] (target groups)) (message_segments msg)) = false →
  run env st (execute plugin msg groups) =
  {| final := st;
     trace := [Called (send_text (py "未能识别到被艾特的用户ID，请确保使用 @ 方式艾特。"))];
     result := Returned target_id_not_found |}.
Proof.
  intros Hbare Hgroup Hsender Hfree Htarget Huser.
  unfold execute. fold (message_content msg). fold (message_segments msg).
  rewrite bool_decide_false by done. rewrite Hgroup, Hsender.
  cbn -[send_group_text_via_napcat message_content find_target truthy].
  rewrite Hfree, Htarget.
  cbn -[send_group_text_via_napcat message_content find_target truthy].
  unfold mbind, coro_mbind. rewrite run_bind, run_chosen_minutes.
  cbn -[send_group_text_via_napcat message_content find_target truthy].
  by rewrite Huser.
Qed.

Lemma execute_vote_in_progress `{PyRuntime} env plugin st msg groups :
  strip (_first_text [dig_message_info_plain_text msg; dig_raw_message msg])
    ≠ py "/投票禁言" →
  truthy (resolved_group_id msg) = true →
  truthy (resolved_sender_qq msg) = true →
  any_group_id (default [] (resolved_group_id msg)) st = true →
  run env st (execute plugin msg groups) =
  {| final := st;
     trace := [Called (send_text (py "当前群聊已有正在进行的投票，请等待结束。"))];
     result := Returned vote_in_progress |}.
Proof.
  intros Hbare Hgroup Hsender Hbusy.
  unfold execute. fold (message_content msg). fold (message_segments msg).
  rewrite bool_decide_false by done. rewrite Hgroup, Hsender.
  cbn -[send_group_text_via_napcat message_content find_target truthy].
  by rewrite Hbusy.
Qed.

(** C10, as the code has it.  When the message content is a plain
    string, the target an accepted proposal stores is made of decimal
    digits only: it is the run of digits after the first [@] followed by
    a digit in the string, and the target of the command is that number,
    with or without a leading [@].  A target of the command that names
    no number leaves the store as it was and starts no task, and a
    command that passes the earlier checks is answered that the target
    was not found. *)
Theorem plain_text_target_is_numeric `{PyRuntime} env plugin st msg groups s :
  let r := run env st (execute plugin msg groups) in
  message_content msg = text_content s →
  (∀ key v,
     result r = Returned accepted →
     tasks_created (trace r) = [key] →
     vote_summaries (final r) !! key = Some v →
     all_digits (target_user_id v) ∧
     search_at_digits s = Some (target_user_id v) ∧
     (target groups = Some (target_user_id v) ∨
      target groups = Some (64%N :: target_user_id v))) ∧
  (∀ t,
     target groups = Some t → t ≠ [] → ¬ numeric_reference t →
     final r = st ∧ tasks_created (trace r) = [] ∧
     (strip (_first_text [dig_message_info_plain_text msg; dig_raw_message msg])
        ≠ py "/投票禁言" →
      truthy (resolved_group_id msg) = true →
      truthy (resolved_sender_qq msg) = true →
      any_group_id (default [] (resolved_group_id msg)) st = false →
      result r = Returned target_id_not_found)).
Proof.
  intros r Hs. split.
  - intros key v Hacc Htasks Hv.
    destruct (execute_stored_record env plugin st msg groups key v Hacc Htasks Hv)
      as (g & t & _ & _ & _ & Ht & _ & Huid & _).
    destruct (text_content_target msg s t _ Hs Huid) as (Hqq & Hdigits & Hform).
    split; [done|split; [done|]]. rewrite Ht.
    by destruct Hform as [->| ->]; [left|right].
  - intros t Ht Htne Hname.
    assert (truthy (find_target t (message_segments msg)) = false) as Huser.
    { destruct (find_target t (message_segments msg)) as [uid|] eqn:Huid; [|done].
      destruct (text_content_target msg s t uid Hs Huid) as (_ & Hdigits & Hform).
      destruct Hname. destruct Hform as [->| ->]; [by left|right; by exists uid]. }
    split; [|split].
    + destruct (execute_run env plugin st msg groups)
        as [(_ & Hst & _)|(id & g & gz & t' & uid & _ & _ & _ & _ & Ht' & _ & Huid & Hne & _)];
        [exact Hst|].
      assert (t' = t) as -> by congruence. rewrite Huid in Huser. by destruct uid.
    + destruct (execute_run env plugin st msg groups)
        as [(_ & _ & Htasks & _)|(id & g & gz & t' & uid & _ & _ & _ & _ & Ht' & _ & Huid & Hne & _)];
        [exact Htasks|].
      assert (t' = t) as -> by congruence. rewrite Huid in Huser. by destruct uid.
    + intros Hbare Hgroup Hsender Hfree. subst r.
      rewrite execute_target_id_not_found; try done.
      * rewrite Ht. by destruct t.
      * by rewrite Ht.
Qed.

Lemma plain_text_target_is_numeric_witness :
  let text := py "/投票禁言 @123 5" in
  let msg := text_command text (py "1000") (py "42") in
  let r := run (sample_backend 77 0 0) empty_store (execute None msg (groups_of text)) in
  message_content msg = text_content text ∧
  (∀ key v,
     result r = Returned accepted →
     tasks_created (trace r) = [key] →
     vote_summaries (final r) !! key = Some v →
     all_digits (target_user_id v) ∧
     search_at_digits text = Some (target_user_id v) ∧
     (target (groups_of text) = Some (target_user_id v) ∨
      target (groups_of text) = Some (64%N :: target_user_id v))) ∧
  (∀ t,
     target (groups_of text) = Some t → t ≠ [] → ¬ numeric_reference t →
     final r = empty_store ∧ tasks_created (trace r) = [] ∧
     (strip (_first_text [dig_message_info_plain_text msg; dig_raw_message msg])
        ≠ py "/投票禁言" →
      truthy (resolved_group_id msg) = true →
      truthy (resolved_sender_qq msg) = true →
      any_group_id (default [] (resolved_group_id msg)) empty_store = false →
      result r = Returned target_id_not_found)).
Proof.
  set (text := py "/投票禁言 @123 5").
  set (msg := text_command text (py "1000") (py "42")).
  assert (message_content msg = text_content text) as Hs by (by vm_compute).
  split; [repeat split; assumption|].
  exact (plain_text_target_is_numeric (sample_backend 77 0 0) None empty_store msg
           (groups_of text) text Hs).
Defined.

(** C10, counterexample.  From a message of segments that mentions
    [all], the proposal is accepted and the target stored is [all],
    which is not made of digits. *)
Lemma segment_target_need_not_be_numeric :
  let text := py "/投票禁言 @all" in
  let msg := segments_command text [at_segment (py "all")] (py "1000") (py "42") in
  let r := run (sample_backend 77 0 0) empty_store (execute None msg (groups_of text)) in
  result r = Returned accepted ∧
  tasks_created (trace r) = [py "77"] ∧
  target_user_id <$> vote_summaries (final r) !! py "77" = Some (py "all") ∧
  ¬ all_digits (py "all").
Proof.
  repeat split; try by vm_compute.
  intros [_ Hdigits].
  assert (py "all" = [97; 108; 108]%N) as Hall by (by vm_compute).
  rewrite Hall in Hdigits. apply Forall_cons in Hdigits as [Ha _]. by vm_compute in Ha.
Qed.

(** * One vote per group *)

(** A proposal that runs alone keeps the store with one vote per
    group. *)
Lemma execute_keeps_one_vote_per_group `{PyRuntime} env plugin st msg groups :
  one_vote_per_group st →
  one_vote_per_group (final (run env st (execute plugin msg groups))).
Proof.
  intros Hone.
  destruct (execute_run env plugin st msg groups)
    as [(_ & -> & _)|(id & g & gz & t & uid & _ & _ & _ & Hfree & _ & _ & _ & _ & _
                        & _ & _ & -> & _)]; [done|].
  by apply store_vote_one_vote_per_group.
Qed.

Lemma end_vote_keeps_one_vote_per_group `{PyRuntime} env plugin st message_id :
  one_vote_per_group st →
  one_vote_per_group (final (run env st (_end_vote_after_delay plugin message_id))).
Proof.
  intros Hone. destruct (vote_summaries st !! message_id) as [v|] eqn:Hv.
  2:{ by rewrite end_vote_absent. }
  destruct (end_vote_run env plugin st message_id v Hv)
    as [(_ & g & _ & ->)|[(_ & g & u & _ & _ & ->)|[_ ->]]]; cbn [final].
  - by apply pop_vote_one_vote_per_group, set_counts_one_vote_per_group.
  - by apply pop_vote_one_vote_per_group, set_counts_one_vote_per_group.
  - by apply set_counts_one_vote_per_group.
Qed.

(** X1.  The room is closed while a vote is open: a proposal that
    starts after another one of the same group has returned accepted is
    answered that a vote is in progress, sends nothing else and leaves
    the store as the first proposal left it. *)
Lemma later_proposal_is_turned_down `{PyRuntime}
    env1 env2 plugin st msg1 groups1 msg2 groups2 :
  let r1 := run env1 st (execute plugin msg1 groups1) in
  result r1 = Returned accepted →
  resolved_group_id msg2 = resolved_group_id msg1 →
  truthy (resolved_sender_qq msg2) = true →
  strip (_first_text [dig_message_info_plain_text msg2; dig_raw_message msg2])
    ≠ py "/投票禁言" →
  run env2 (final r1) (execute plugin msg2 groups2) =
  {| final := final r1;
     trace := [Called (send_text (py "当前群聊已有正在进行的投票，请等待结束。"))];
     result := Returned vote_in_progress |}.
Proof.
  intros r1 Hacc Hroom Hsender Hbare.
  destruct (execute_accepted env1 plugin st msg1 groups1 Hacc)
    as (id & g & gz & t & uid & Hg & Hgne & _ & _ & _ & _ & _ & _ & _ & _ & Hfinal & _).
  fold r1 in Hfinal. apply execute_vote_in_progress; try done.
  - rewrite Hroom, Hg. by destruct g.
  - rewrite Hroom, Hg; cbn. apply any_group_id_true.
    eexists (str_int id), _. rewrite Hfinal. unfold store_vote; cbn.
    by rewrite lookup_insert_eq.
Qed.

Lemma later_proposal_is_turned_down_witness :
  let first := py "/投票禁言 @123" in
  let second := py "/投票禁言 @456 5" in
  let msg1 := text_command first (py "1000") (py "42") in
  let msg2 := text_command second (py "1000") (py "43") in
  let r1 := run (sample_backend 77 0 0) empty_store
              (execute None msg1 (groups_of first)) in
  (result r1 = Returned accepted ∧
   resolved_group_id msg2 = resolved_group_id msg1 ∧
   truthy (resolved_sender_qq msg2) = true ∧
   strip (_first_text [dig_message_info_plain_text msg2; dig_raw_message msg2])
     ≠ py "/投票禁言") ∧
  run (sample_backend 78 0 0) (final r1) (execute None msg2 (groups_of second)) =
  {| final := final r1;
     trace := [Called (send_text (py "当前群聊已有正在进行的投票，请等待结束。"))];
     result := Returned vote_in_progress |}.
Proof.
  intros first second msg1 msg2 r1.
  assert (result r1 = Returned accepted) as Hacc by (by vm_compute).
  assert (resolved_group_id msg2 = resolved_group_id msg1) as Hroom by (by vm_compute).
  assert (truthy (resolved_sender_qq msg2) = true) as Hsender by (by vm_compute).
  assert (strip (_first_text [dig_message_info_plain_text msg2; dig_raw_message msg2])
          ≠ py "/投票禁言") as Hbare by (by vm_compute).
  split; [exact (conj Hacc (conj Hroom (conj Hsender Hbare)))|].
  exact (later_proposal_is_turned_down (sample_backend 77 0 0) (sample_backend 78 0 0)
           None empty_store msg1 (groups_of first) msg2 (groups_of second)
           Hacc Hroom Hsender Hbare).
Defined.

(** C2.  Two proposals for one room that overlap: the second starts
    while the first awaits the reply to its post.  Both have passed the
    check of the room by then, both are accepted, and the store holds
    two records of the room. *)
Theorem overlapping_proposals_are_both_accepted :
  let room := py "1000" in
  let first := py "/投票禁言 @123" in
  let second := py "/投票禁言 @456" in
  let s0 := {| summaries := empty_store; tasks := [] |} in
  let s1 := dispatch None (text_command first room (py "42")) (groups_of first) s0 in
  let s2 := dispatch None (text_command second room (py "43")) (groups_of second) s1 in
  let s3 := resume None 0 (sample_backend 101 0 0) s2 in
  let s4 := resume None 1 (sample_backend 102 0 0) s3 in
  reachable None s4 ∧
  vote_summaries (summaries s2) = ∅ ∧
  tasks s4 !! 0%nat = Some (command (Ret accepted)) ∧
  tasks s4 !! 1%nat = Some (command (Ret accepted)) ∧
  group_id <$> vote_summaries (summaries s4) !! py "101" = Some room ∧
  group_id <$> vote_summaries (summaries s4) !! py "102" = Some room ∧
  ¬ one_vote_per_group (summaries s4).
Proof.
  intros room first second s0 s1 s2 s3 s4.
  split; [|split; [|split; [|split; [|split; [|split]]]]].
  - apply reachable_resume, reachable_resume, reachable_dispatch, reachable_dispatch,
      reachable_start.
  - by vm_compute.
  - by vm_compute.
  - by vm_compute.
  - by vm_compute.
  - by vm_compute.
  - intros Hone.
    assert (group_id <$> vote_summaries (summaries s4) !! py "101" = Some room) as H1
      by (by vm_compute).
    assert (group_id <$> vote_summaries (summaries s4) !! py "102" = Some room) as H2
      by (by vm_compute).
    apply fmap_Some in H1 as (v1 & H1 & Hg1), H2 as (v2 & H2 & Hg2).
    assert (py "101" ≠ py "102") as Hkeys by (by vm_compute).
    apply Hkeys. eapply Hone; [exact H1|exact H2|]. by rewrite <- Hg1, <- Hg2.
Qed.

(** * The answers of [execute] *)




(** X3.  The helpers swallow the failures of the HTTP exchange and
    nothing else.  [send_group_text_via_napcat] raises exactly when the
    group identifier does not convert with [int()], and
    [set_group_ban_via_napcat] exactly when the group or the user
    identifier does not; they raise [ValueError], before any request is
    sent.  Otherwise they send one request and return, whatever the
    reply.  Neither touches the store. *)
Theorem napcat_helpers_raise_only_on_conversion `{PyRuntime} env st g u text mins :
  let posted := run env st (send_group_text_via_napcat g text) in
  let muted := run env st (set_group_ban_via_napcat g u mins) in
  final posted = st ∧ final muted = st ∧
  (py_int g = None ∧ trace posted = [] ∧ result posted = Raised ValueError
   ∨ ∃ gz id, py_int g = Some gz ∧
       trace posted = [Called (send_group_msg gz text)] ∧
       result posted = Returned id) ∧
  ((py_int g = None ∨ py_int u = None) ∧
   trace muted = [] ∧ result muted = Raised ValueError
   ∨ ∃ gz uz, py_int g = Some gz ∧ py_int u = Some uz ∧
       trace muted = [Called (set_group_ban gz uz (mins * 60))] ∧
       result muted = Returned ()).
Proof.
  intros posted muted. subst posted muted.
  destruct (py_int g) as [gz|] eqn:Hg.
  - rewrite (run_send_group_text _ _ _ _ gz) by done.
    destruct (py_int u) as [uz|] eqn:Hu.
    + rewrite (run_set_group_ban _ _ _ _ _ gz uz) by done. cbn.
      split; [done|]. split; [done|]. split; right; by eexists _, _.
    + rewrite run_set_group_ban_raises by by right. cbn.
      split; [done|]. split; [done|]. split; [right; by eexists _, _|].
      left. split; [by right|done].
  - rewrite run_send_group_text_raises, run_set_group_ban_raises by (done || by left).
    cbn. split; [done|]. split; [done|]. split; left; [done|]. split; [by left|done].
Qed.

(** The loop over the segments stops at the first mention the target
    names. *)
Lemma find_target_first `{PyRuntime} t segs :
  match find_target t segs with
  | Some uid =>
    ∃ before after, segs = before ++ at_segment uid :: after ∧ names t uid ∧
      ∀ qq, at_segment qq ∈ before → ¬ names t qq
  | None => ∀ qq, at_segment qq ∈ segs → ¬ names t qq
  end.
Proof.
  induction segs as [|[qq|] segs IH]; cbn.
  - by intros qq ?%elem_of_nil.
  - rewrite py_at.
    destruct (bool_decide (qq = t)) eqn:Hsame; cbn.
    { apply bool_decide_eq_true in Hsame. exists [], segs. split; [done|].
      split; [by left|]. by intros qq' ?%elem_of_nil. }
    apply bool_decide_eq_false in Hsame.
    destruct (bool_decide (take 1 t = [64%N]) && bool_decide (qq = drop 1 t)) eqn:Hat.
    { apply andb_true_iff in Hat as [Hat Htail].
      apply bool_decide_eq_true in Hat, Htail. exists [], segs. split; [done|].
      split; [|by intros qq' ?%elem_of_nil]. right.
      rewrite <- (take_drop 1 t) at 1. by rewrite Hat, <- Htail. }
    assert (¬ names t qq) as Hqq.
    { intros [?|Ht]; [done|]. rewrite Ht in Hat. cbn in Hat.
      by rewrite !bool_decide_true in Hat. }
    destruct (find_target t segs) as [uid|].
    + destruct IH as (before & after & -> & Hname & Hbefore).
      exists (at_segment qq :: before), after. split; [done|]. split; [done|].
      intros qq' [[= ->]|Hin]%elem_of_cons; [done|]. by apply Hbefore.
    + intros qq' [[= ->]|Hin]%elem_of_cons; [done|]. by apply IH.
  - destruct (find_target t segs) as [uid|].
    + destruct IH as (before & after & -> & Hname & Hbefore).
      exists (other_segment :: before), after. split; [done|]. split; [done|].
      intros qq' [[=]|Hin]%elem_of_cons. by apply Hbefore.
    + intros qq' [[=]|Hin]%elem_of_cons. by apply IH.
Qed.

(** X4.  The user a vote is about is mentioned in the message: the
    target an accepted proposal stores is the user of the first mention
    of the message that the target of the command names, with or
    without its [@]. *)
Theorem muted_user_is_the_first_mention `{PyRuntime} env plugin st msg groups key v :
  let r := run env st (execute plugin msg groups) in
  result r = Returned accepted →
  tasks_created (trace r) = [key] →
  vote_summaries (final r) !! key = Some v →
  target groups = Some (target_name v) ∧
  ∃ before after,
    message_segments msg = before ++ at_segment (target_user_id v) :: after ∧
    names (target_name v) (target_user_id v) ∧
    ∀ qq, at_segment qq ∈ before → ¬ names (target_name v) qq.
Proof.
  intros r Hacc Htasks Hv.
  destruct (execute_stored_record env plugin st msg groups key v Hacc Htasks Hv)
    as (g & t & _ & _ & _ & Ht & _ & Huid & _ & _ & <- & _).
  split; [done|].
  pose proof (find_target_first (target_name v) (message_segments msg)) as Hfirst.
  by rewrite Huid in Hfirst.
Qed.

Lemma muted_user_is_the_first_mention_witness :
  let text := py "/投票禁言 @123 5" in
  let msg := text_command text (py "1000") (py "42") in
  let groups := groups_of text in
  let r := run (sample_backend 77 0 0) empty_store (execute None msg groups) in
  (result r = Returned accepted ∧
   tasks_created (trace r) = [py "77"] ∧
   vote_summaries (final r) !! py "77" = Some sample_vote) ∧
  target groups = Some (target_name sample_vote) ∧
  ∃ before after,
    message_segments msg = before ++ at_segment (target_user_id sample_vote) :: after ∧
    names (target_name sample_vote) (target_user_id sample_vote) ∧
    ∀ qq, at_segment qq ∈ before → ¬ names (target_name sample_vote) qq.
Proof.
  intros text msg groups r.
  assert (result r = Returned accepted) as Hacc by (by vm_compute).
  assert (tasks_created (trace r) = [py "77"]) as Htasks by (by vm_compute).
  assert (vote_summaries (final r) !! py "77" = Some sample_vote) as Hv
    by (by vm_compute).
  split; [exact (conj Hacc (conj Htasks Hv))|].
  exact (muted_user_is_the_first_mention (sample_backend 77 0 0) None empty_store
           msg groups (py "77") sample_vote Hacc Htasks Hv).
Defined.

(** X20.  The room is checked when the command is dispatched.  On the
    event loop, a command that is dispatched while a record of its group
    is in the dictionary is suspended at the reply that a vote is in
    progress, with the dictionary as it was and no task started; and
    whenever that task is resumed, whatever has run in between, it ends
    with that answer and leaves the dictionary of that moment as it
    is. *)
Theorem busy_room_is_refused_at_dispatch `{PyRuntime} plugin s msg groups :
  strip (_first_text [dig_message_info_plain_text msg; dig_raw_message msg])
    ≠ py "/投票禁言" →
  truthy (resolved_group_id msg) = true →
  truthy (resolved_sender_qq msg) = true →
  any_group_id (default [] (resolved_group_id msg)) (summaries s) = true →
  let refusal :=
    command (Await (send_text (py "当前群聊已有正在进行的投票，请等待结束。"))
               (λ _, Ret vote_in_progress)) in
  dispatch plugin msg groups s
    = {| summaries := summaries s; tasks := tasks s ++ [refusal] |} ∧
  ∀ s' i env,
    tasks s' !! i = Some refusal →
    resume plugin i env s'
    = {| summaries := summaries s';
         tasks := <[i := command (Ret vote_in_progress)]> (tasks s') |}.
Proof.
  intros Hbare Hgroup Hsender Hbusy refusal. split.
  - unfold dispatch, execute. fold (message_content msg). fold (message_segments msg).
    rewrite bool_decide_false by done. rewrite Hgroup, Hsender.
    cbn -[send_group_text_via_napcat message_content find_target truthy].
    by rewrite Hbusy.
  - intros s' i env Hi. unfold resume. rewrite Hi. cbn. by rewrite app_nil_r.
Qed.

Lemma busy_room_is_refused_at_dispatch_witness :
  let text := py "/投票禁言 @456" in
  let msg := text_command text (py "1000") (py "43") in
  let refusal :=
    command (Await (send_text (py "当前群聊已有正在进行的投票，请等待结束。"))
               (λ _, Ret vote_in_progress)) in
  (strip (_first_text [dig_message_info_plain_text msg; dig_raw_message msg])
     ≠ py "/投票禁言" ∧
   truthy (resolved_group_id msg) = true ∧
   truthy (resolved_sender_qq msg) = true ∧
   any_group_id (default [] (resolved_group_id msg)) (summaries one_vote_loop) = true) ∧
  dispatch None msg (groups_of text) one_vote_loop
    = {| summaries := summaries one_vote_loop;
         tasks := tasks one_vote_loop ++ [refusal] |} ∧
  ∀ s' i env,
    tasks s' !! i = Some refusal →
    resume None i env s'
    = {| summaries := summaries s';
         tasks := <[i := command (Ret vote_in_progress)]> (tasks s') |}.
Proof.
  intros text msg refusal.
  assert (strip (_first_text [dig_message_info_plain_text msg; dig_raw_message msg])
          ≠ py "/投票禁言") as Hbare by (by vm_compute).
  assert (truthy (resolved_group_id msg) = true) as Hgroup by (by vm_compute).
  assert (truthy (resolved_sender_qq msg) = true) as Hsender by (by vm_compute).
  assert (any_group_id (default [] (resolved_group_id msg)) (summaries one_vote_loop)
          = true) as Hbusy by (by vm_compute).
  split; [exact (conj Hbare (conj Hgroup (conj Hsender Hbusy)))|].
  exact (busy_room_is_refused_at_dispatch None one_vote_loop msg (groups_of text)
           Hbare Hgroup Hsender Hbusy).
Defined.

(** * The command pattern *)

Section patterns.
Context `{PyRuntime}.
Implicit Types (s t : pystr) (p : N → bool).

Lemma span_app p s : (span p s).1 ++ (span p s).2 = s.
Proof.
  induction s as [|c s IH]; cbn; [done|].
  destruct (p c); [|done]. destruct (span p s) as [run tail]; cbn in *. by rewrite IH.
Qed.

Lemma span_all p s rest :
  Forall (λ c, p c = true) s →
  match rest with [] => True | c :: _ => p c = false end →
  span p (s ++ rest) = (s, rest).
Proof.
  intros Hs Hrest. induction Hs as [|c s Hc Hs IH].
  - destruct rest as [|c rest]; cbn; [done|]. by rewrite Hrest.
  - cbn. by rewrite Hc, IH.
Qed.

Lemma span_none p s :
  match s with [] => True | c :: _ => p c = false end → span p s = ([], s).
Proof. destruct s as [|c s]; cbn; [done|]. by intros ->. Qed.

Lemma span_snd_head p s :
  match (span p s).2 with [] => True | c :: _ => p c = false end.
Proof.
  induction s as [|c s IH]; cbn; [done|].
  destruct (p c) eqn:Hc; cbn; [|done]. by destruct (span p s).
Qed.

Lemma lstrip_nonspace s :
  match s with [] => True | c :: _ => is_space c = false end → lstrip s = s.
Proof. destruct s as [|c s]; cbn; [done|]. by intros ->. Qed.

Lemma lstrip_spaces w s :
  Forall (λ c, is_space c = true) w → lstrip (w ++ s) = lstrip s.
Proof. induction 1 as [|c w Hc Hw IH]; cbn; [done|]. by rewrite Hc. Qed.

(** [int()] skips nothing around a string without blanks. *)
Lemma int_strip_no_blank s :
  Forall (λ c, is_space c = false) s → int_strip s = s.
Proof.
  assert (∀ t, Forall (λ c, is_space c = false) t → int_lstrip t = t) as Hleft.
  { intros t Ht. destruct Ht as [|c t Hc _]; cbn; [done|].
    unfold is_int_space. by rewrite Hc. }
  intros Hs. unfold int_strip.
  rewrite (Hleft s), (Hleft (reverse s)) by (done || by apply Forall_reverse).
  apply reverse_involutive.
Qed.

(** [strip] removes the blanks around a string without blanks. *)
Lemma strip_padded s w :
  Forall (λ c, is_space c = false) s → Forall (λ c, is_space c = true) w →
  strip (s ++ w) = s.
Proof.
  intros Hs Hw. unfold strip.
  assert (lstrip (reverse s) = reverse s) as Hrev.
  { apply lstrip_nonspace. apply Forall_reverse in Hs.
    destruct (reverse s) as [|c' s']; cbn; [done|]. by apply Forall_cons in Hs as [? _]. }
  destruct s as [|c s].
  - cbn. rewrite <- (app_nil_r w), lstrip_spaces by done. done.
  - pose proof Hs as [Hc _]%Forall_cons.
    rewrite (lstrip_nonspace ((c :: s) ++ w)) by exact Hc.
    rewrite reverse_app, lstrip_spaces by by apply Forall_reverse.
    by rewrite Hrev, reverse_involutive.
Qed.

Lemma at_end_match_minutes s :
  is_space 10 = true → at_end s = true → match_minutes s = Some None.
Proof.
  intros Hnl [->| ->]%bool_decide_eq_true; [done|].
  unfold match_minutes, nl; cbn. rewrite Hnl. cbn. done.
Qed.

Lemma match_token_target s tgt m :
  match_token s = Some (tgt, m) →
  ∃ t, tgt = Some t ∧ t ≠ [] ∧ Forall (λ c, is_space c = false) t.
Proof.
  unfold match_token.
  pose proof (span_fst_Forall (λ c, negb (is_space c)) s) as Htok.
  destruct (span (λ c, negb (is_space c)) s) as [tok s2]; cbn in Htok.
  destruct tok as [|c tok]; [done|]. unfold with_target.
  destruct (match_minutes s2); [|done]. intros [= <- _].
  exists (c :: tok). split; [done|]. split; [done|].
  eapply Forall_impl; [exact Htok|]. intros a. cbn. by destruct (is_space a).
Qed.

Lemma match_token_digits_end ds s2 :
  is_space 10 = true → (∀ c, is_digit c = true → is_space c = false) →
  ds ≠ [] → Forall (λ c, is_digit c = true) ds → at_end s2 = true →
  match_token (ds ++ s2) = Some (Some ds, None).
Proof.
  intros Hnl Hdigit Hne Hds Hend. unfold match_token.
  rewrite (span_all _ ds s2).
  - destruct ds as [|d ds]; [done|]. unfold with_target.
    by rewrite at_end_match_minutes.
  - eapply Forall_impl; [exact Hds|]. intros c Hc. cbn. by rewrite Hdigit.
  - apply bool_decide_eq_true in Hend as [->| ->]; [done|]. cbn. by rewrite Hnl.
Qed.

Lemma match_target_target s t m :
  match_target s = Some (Some t, m) → t ≠ [] ∧ Forall (λ c, is_space c = false) t.
Proof.
  unfold match_target. destruct (span is_space s) as [ws s1].
  destruct ws as [|w ws].
  { unfold with_target. by destruct (match_minutes s). }
  destruct ((match s1 with 64%N :: s1' => Some s1' | _ => None end) ≫= match_token)
    as [g|] eqn:Hg1.
  { intros [= ->]. destruct (match s1 with 64%N :: s1' => Some s1' | _ => None end)
      as [s1'|]; [|done]. cbn in Hg1.
    by apply match_token_target in Hg1 as (t' & [= <-] & ? & ?). }
  destruct (match_token s1) as [g|] eqn:Hg2.
  { intros [= ->]. by apply match_token_target in Hg2 as (t' & [= <-] & ? & ?). }
  unfold with_target. by destruct (match_minutes s).
Qed.

(** Where the minutes can be matched, the target can: a match without
    a target is a match of the end of the text. *)
Lemma match_target_no_target s m :
  is_space 10 = true → (∀ c, is_digit c = true → is_space c = false) →
  match_target s = Some (None, m) → (s = [] ∨ s = nl) ∧ m = None.
Proof.
  intros Hnl Hdigit. unfold match_target, with_target, match_minutes.
  pose proof (span_app is_space s) as Hs.
  destruct (span is_space s) as [ws s1]; cbn in Hs.
  pose proof (span_app is_digit s1) as Hs1.
  pose proof (span_fst_Forall is_digit s1) as Hds.
  destruct (span is_digit s1) as [ds s2]; cbn in Hs1, Hds.
  destruct ws as [|w ws].
  { destruct (at_end s) eqn:Hend; [|done]. intros [= <-].
    by apply bool_decide_eq_true in Hend. }
  destruct ((match s1 with 64%N :: s1' => Some s1' | _ => None end) ≫= match_token)
    as [g|] eqn:Hg1.
  { intros [= ->]. destruct (match s1 with 64%N :: s1' => Some s1' | _ => None end)
      as [s1'|]; [|done]. cbn in Hg1.
    by apply match_token_target in Hg1 as (t' & [=] & _). }
  destruct (match_token s1) as [g|] eqn:Hg2.
  { intros [= ->]. by apply match_token_target in Hg2 as (t' & [=] & _). }
  destruct ds as [|d ds].
  { destruct (at_end s) eqn:Hend; [|done]. intros [= <-].
    by apply bool_decide_eq_true in Hend. }
  destruct (at_end s2) eqn:Hend2.
  { rewrite <- Hs1, match_token_digits_end in Hg2; done. }
  destruct (at_end s) eqn:Hend; [|done]. intros [= <-].
  by apply bool_decide_eq_true in Hend.
Qed.

Lemma match_minutes_suffix (m : option pystr) :
  is_space 32 = true → (∀ c, is_digit c = true → is_space c = false) →
  (∀ ds, m = Some ds → all_digits ds) →
  match_minutes (from_option (λ ds, 32%N :: ds) [] m) = Some m.
Proof.
  intros Hblank Hdigit Hm. destruct m as [ds|]; cbn.
  2:{ by unfold match_minutes. }
  destruct (Hm ds eq_refl) as [Hne Hds]. unfold match_minutes. cbn. rewrite Hblank.
  rewrite span_none.
  2:{ destruct ds as [|d ds]; [done|]. apply Forall_cons in Hds as [Hd _]. by apply Hdigit. }
  rewrite <- (app_nil_r ds) at 1. rewrite (span_all is_digit ds []) by done.
  by destruct ds as [|d ds].
Qed.

Lemma match_token_suffix t (m : option pystr) :
  is_space 32 = true → (∀ c, is_digit c = true → is_space c = false) →
  t ≠ [] → Forall (λ c, is_space c = false) t →
  (∀ ds, m = Some ds → all_digits ds) →
  match_token (t ++ from_option (λ ds, 32%N :: ds) [] m) = Some (Some t, m).
Proof.
  intros Hblank Hdigit Hne Ht Hm. unfold match_token.
  rewrite (span_all _ t).
  - destruct t as [|c t]; [done|]. unfold with_target.
    by rewrite match_minutes_suffix.
  - eapply Forall_impl; [exact Ht|]. intros c Hc. cbn. by rewrite Hc.
  - destruct m as [ds|]; cbn; [|done]. by rewrite Hblank.
Qed.

Lemma command_pattern_split text groups :
  command_pattern text = Some groups →
  ∃ rest, text = py "/投票禁言" ++ rest ∧
          match_target rest = Some (target groups, minutes_group groups).
Proof.
  unfold command_pattern. case_bool_decide as Hprefix; [|done].
  destruct (match_target _) as [[tgt m]|] eqn:Hm; [|done]. intros [= <-]; cbn.
  eexists. split; [|exact Hm].
  rewrite <- (take_drop (length (py "/投票禁言")) text) at 1. by rewrite Hprefix.
Qed.
End patterns.

Lemma at_sign_other (c : N) (s : pystr) :
  c ≠ 64%N → match c :: s with 64%N :: s' => Some s' | _ => None end = None.
Proof.
  intros Hc. destruct c as [|p]; [done|].
  do 7 (destruct p as [p|p|]; try done).
Qed.

(** The ASCII classes have the laws of Python's classes the patterns
    rely on. *)
Lemma ascii_digit_no_space (c : N) : is_digit c = true → is_space c = false.
Proof.
  unfold is_digit, is_space; cbn. intros Hc. apply bool_decide_eq_true in Hc as [d Hd].
  destruct ((48 <=? c) && (c <=? 57))%N eqn:Hrange; [|done].
  apply andb_true_iff in Hrange as [Hlow%N.leb_le Hhigh%N.leb_le].
  apply bool_decide_eq_false. rewrite !elem_of_cons, elem_of_nil. lia.
Qed.

(** X5.  The documented forms of the command are read as documented.
    For a target without blanks, written with or without [@], followed
    or not by a number of minutes, [command_pattern] matches and its
    groups are that target and those minutes.  Stated for a runtime
    where the space is a blank, and [@] and the digits are not. *)
Theorem documented_command_is_parsed `{PyRuntime} at_sign t m :
  is_space 32 = true → is_space 64 = false →
  (∀ c, is_digit c = true → is_space c = false) →
  t ≠ [] → Forall (λ c, is_space c = false) t →
  (at_sign = false → head t ≠ Some 64%N) →
  (∀ ds, m = Some ds → all_digits ds) →
  command_pattern (command_text at_sign t m)
    = Some {| target := Some t; minutes_group := m |}.
Proof.
  intros Hblank Hat Hdigit Hne Ht Hhead Hm. unfold command_pattern, command_text.
  rewrite take_app_length, drop_app_length, bool_decide_true by done.
  unfold match_target. cbn [app span]. rewrite Hblank.
  rewrite span_none.
  2:{ destruct at_sign; cbn; [done|]. destruct t as [|c t]; [done|].
      by apply Forall_cons in Ht as [? _]. }
  destruct at_sign; cbn [app].
  - cbn. by rewrite match_token_suffix.
  - destruct t as [|c t]; [done|]. cbn [app].
    rewrite at_sign_other by (intros ->; by apply Hhead). cbn.
    change (c :: t ++ ?s) with ((c :: t) ++ s). by rewrite match_token_suffix.
Qed.

Lemma documented_command_is_parsed_witness :
  (is_space 32 = true ∧ is_space 64 = false ∧
   (∀ c, is_digit c = true → is_space c = false) ∧
   py "123" ≠ [] ∧ Forall (λ c, is_space c = false) (py "123") ∧
   (true = false → head (py "123") ≠ Some 64%N) ∧
   (∀ ds, Some (py "5") = Some ds → all_digits ds)) ∧
  command_pattern (command_text true (py "123") (Some (py "5")))
    = Some {| target := Some (py "123"); minutes_group := Some (py "5") |}.
Proof.
  assert (is_space 32 = true) as Hblank by reflexivity.
  assert (is_space 64 = false) as Hat by reflexivity.
  assert (py "123" ≠ []) as Hne by (by vm_compute).
  assert (Forall (λ c, is_space c = false) (py "123")) as Ht.
  { refine (bool_decide_unpack _ _). by vm_compute. }
  assert (true = false → head (py "123") ≠ Some 64%N) as Hhead by done.
  assert (∀ ds, Some (py "5") = Some ds → all_digits ds) as Hm.
  { intros ds [= <-]. refine (bool_decide_unpack _ _). by vm_compute. }
  split;
    [exact (conj Hblank (conj Hat (conj ascii_digit_no_space
              (conj Hne (conj Ht (conj Hhead Hm))))))|].
  exact (documented_command_is_parsed true (py "123") (Some (py "5"))
           Hblank Hat ascii_digit_no_space Hne Ht Hhead Hm).
Defined.

(** X6.  The target of a matched command is never empty and holds no
    blank; and a command matched without a target is the bare command,
    followed at most by a newline, and carries no minutes: a single
    argument is read as the target, also when it is a number.  Stated
    for a runtime where the newline is a blank and the digits are not. *)
Theorem command_without_target_is_bare `{PyRuntime} text groups :
  is_space 10 = true →
  (∀ c, is_digit c = true → is_space c = false) →
  command_pattern text = Some groups →
  (∀ t, target groups = Some t → t ≠ [] ∧ Forall (λ c, is_space c = false) t) ∧
  (target groups = None →
   minutes_group groups = None ∧
   (text = py "/投票禁言" ∨ text = py "/投票禁言" ++ nl)).
Proof.
  intros Hnl Hdigit (rest & -> & Hm)%command_pattern_split. split.
  - intros t Ht. rewrite Ht in Hm. by eapply match_target_target.
  - intros Ht. rewrite Ht in Hm.
    apply match_target_no_target in Hm as [[->| ->] ?]; try done.
    + split; [done|]. left. by rewrite app_nil_r.
    + split; [done|]. by right.
Qed.

Lemma command_without_target_is_bare_witness :
  let text := py "/投票禁言" ++ nl in
  (is_space 10 = true ∧ (∀ c, is_digit c = true → is_space c = false) ∧
   command_pattern text = Some (groups_of text)) ∧
  (∀ t, target (groups_of text) = Some t →
     t ≠ [] ∧ Forall (λ c, is_space c = false) t) ∧
  (target (groups_of text) = None →
   minutes_group (groups_of text) = None ∧
   (text = py "/投票禁言" ∨ text = py "/投票禁言" ++ nl)).
Proof.
  intros text.
  assert (is_space 10 = true) as Hnl by reflexivity.
  assert (command_pattern text = Some (groups_of text)) as Hpattern by (by vm_compute).
  split; [exact (conj Hnl (conj ascii_digit_no_space Hpattern))|].
  exact (command_without_target_is_bare text (groups_of text) Hnl
           ascii_digit_no_space Hpattern).
Defined.

(** X7.  A command without a target is answered with the usage hint.
    When the groups are those of the text the handler reads, a command
    whose target is missing is the bare command, so it is answered at
    the first check with the hint that names the syntax, the store
    untouched; the later answer for a missing target is never reached.
    Stated for a runtime where the newline is a blank and neither the
    digits nor the characters of the command name are. *)
Theorem missing_target_gets_the_usage_hint `{PyRuntime}
    env plugin st msg groups text :
  is_space 10 = true →
  (∀ c, is_digit c = true → is_space c = false) →
  Forall (λ c, is_space c = false) (py "/投票禁言") →
  command_pattern text = Some groups →
  strip (_first_text [dig_message_info_plain_text msg; dig_raw_message msg]) = strip text →
  truthy (target groups) = false →
  run env st (execute plugin msg groups) =
  {| final := st;
     trace := [Called (send_text (py "请指定要禁言的用户，例如：/投票禁言 @12345 5"))];
     result := Returned (false, py "no_target", true) |}.
Proof.
  intros Hnl Hdigit Hprefix (rest & -> & Hm)%command_pattern_split Htext Hfalsy.
  assert (rest = [] ∨ rest = nl) as Hrest.
  { destruct (target groups) as [[|c t]|] eqn:Ht; [| |]; try done.
    - by apply match_target_target in Hm as [? _].
    - by apply match_target_no_target in Hm as [? _]. }
  assert (strip (py "/投票禁言" ++ rest) = py "/投票禁言") as Hbare.
  { apply strip_padded; [done|]. destruct Hrest as [->| ->]; [done|].
    by apply Forall_singleton. }
  unfold execute. rewrite Htext, Hbare. by rewrite bool_decide_true by done.
Qed.

Lemma missing_target_gets_the_usage_hint_witness :
  let text := py "/投票禁言" in
  let msg := text_command text (py "1000") (py "42") in
  (is_space 10 = true ∧ (∀ c, is_digit c = true → is_space c = false) ∧
   Forall (λ c, is_space c = false) (py "/投票禁言") ∧
   command_pattern text = Some (groups_of text) ∧
   strip (_first_text [dig_message_info_plain_text msg; dig_raw_message msg])
     = strip text ∧
   truthy (target (groups_of text)) = false) ∧
  run (sample_backend 77 0 0) sample_store (execute None msg (groups_of text)) =
  {| final := sample_store;
     trace := [Called (send_text (py "请指定要禁言的用户，例如：/投票禁言 @12345 5"))];
     result := Returned (false, py "no_target", true) |}.
Proof.
  intros text msg.
  assert (is_space 10 = true) as Hnl by reflexivity.
  assert (Forall (λ c, is_space c = false) (py "/投票禁言")) as Hprefix.
  { refine (bool_decide_unpack _ _). by vm_compute. }
  assert (command_pattern text = Some (groups_of text)) as Hpattern by (by vm_compute).
  assert (strip (_first_text [dig_message_info_plain_text msg; dig_raw_message msg])
          = strip text) as Htext by (by vm_compute).
  assert (truthy (target (groups_of text)) = false) as Hfalsy by (by vm_compute).
  split;
    [exact (conj Hnl (conj ascii_digit_no_space (conj Hprefix
              (conj Hpattern (conj Htext Hfalsy)))))|].
  exact (missing_target_gets_the_usage_hint (sample_backend 77 0 0) None sample_store
           msg (groups_of text) text Hnl ascii_digit_no_space Hprefix Hpattern Htext
           Hfalsy).
Defined.

(** X8.  The search for a numbered mention in a plain string finds the
    leftmost one and takes all its digits: when it finds [qq], the string
    is some [before], an [@], [qq] and some [after], where [qq] is made
    of digits, [after] does not start with a digit, and no [@] of
    [before] is followed by a digit; when it finds nothing, no [@] of the
    string is followed by a digit. *)
Theorem search_at_digits_leftmost `{PyRuntime} s :
  match search_at_digits s with
  | Some qq =>
    ∃ before after,
      s = before ++ 64%N :: qq ++ after ∧ all_digits qq ∧
      match after with [] => True | c :: _ => is_digit c = false end ∧
      ¬ has_mention (before ++ [64%N])
  | None => ¬ has_mention s
  end.
Proof.
  induction s as [|c s IH]; cbn.
  { intros (before & c & after & Hs & _). by destruct before. }
  pose proof (span_app is_digit s) as Hspan.
  pose proof (span_fst_Forall is_digit s) as Hrun.
  pose proof (span_snd_head is_digit s) as Htail.
  destruct (c =? 64)%N eqn:Hc.
  - apply N.eqb_eq in Hc as ->.
    destruct (span is_digit s) as [[|d qq] after]; cbn in Hspan, Hrun, Htail.
    + subst after.
      assert (∀ b c a, 64%N :: s = b ++ 64%N :: c :: a → is_digit c = true →
                ∃ b', b = 64%N :: b' ∧ s = b' ++ 64%N :: c :: a) as Hlater.
      { intros b c a Hs Hd. destruct b as [|b0 b]; cbn in Hs.
        - injection Hs as ->. cbn in Htail. congruence.
        - injection Hs as <- Hs. by exists b. }
      destruct (search_at_digits s) as [qq|].
      * destruct IH as (before & after & Hs & Hqq & Hafter & Hnone).
        exists (64%N :: before), after. split; [by rewrite Hs|].
        split; [done|]. split; [done|].
        intros (b & c & a & Hb & Hd). destruct b as [|b0 b]; cbn in Hb.
        -- injection Hb as Hb. rewrite Hs in Htail.
           destruct before as [|b1 before]; cbn in Hb, Htail.
           ++ injection Hb as <- _. congruence.
           ++ injection Hb as <- _. congruence.
        -- injection Hb as _ Hb. apply Hnone. by exists b, c, a.
      * intros (b & c & a & Hs & Hd).
        destruct (Hlater b c a Hs Hd) as (b' & -> & Hs'). apply IH. by exists b', c, a.
    + exists [], after. split; [by rewrite <- Hspan|]. split; [done|]. split; [done|].
      intros (b & c & a & Hs & _). destruct b as [|b0 [|b1 b]]; done.
  - apply N.eqb_neq in Hc.
    destruct (search_at_digits s) as [qq|].
    + destruct IH as (before & after & -> & Hqq & Hafter & Hnone).
      exists (c :: before), after. split; [done|]. split; [done|]. split; [done|].
      intros (b & c' & a & Hs & Hd). destruct b as [|b0 b]; cbn in Hs.
      * by injection Hs as -> _.
      * injection Hs as _ Hs. apply Hnone. by exists b, c', a.
    + intros (b & c' & a & Hs & Hd). destruct b as [|b0 b]; cbn in Hs.
      * by injection Hs as -> _.
      * injection Hs as _ Hs. apply IH. by exists b, c', a.
Qed.

(** * The lifecycle of a vote *)

Section frames.
Context `{PyRuntime}.
Implicit Types (env : backend) (st : store) (v : vote_record).

Lemma set_counts_other o y n st key v :
  vote_summaries st !! key = Some v → oid v ≠ o →
  vote_summaries (set_counts o y n st) !! key = Some v.
Proof.
  intros Hv Ho. unfold set_counts; cbn. rewrite lookup_fmap, Hv; cbn.
  by rewrite decide_False.
Qed.

Lemma set_counts_absent o y n st key :
  vote_summaries st !! key = None →
  vote_summaries (set_counts o y n st) !! key = None.
Proof. intros Hv. unfold set_counts; cbn. by rewrite lookup_fmap, Hv. Qed.

(** The final store of a run of the deferred task, whatever its
    outcome: the counts are written, and the record is removed when the
    run returns. *)
Lemma end_vote_final env plugin st message_id v :
  vote_summaries st !! message_id = Some v →
  let r := run env st (_end_vote_after_delay plugin message_id) in
  (result r = Returned () ∧
   final r = pop_vote message_id (tallied env message_id v st))
  ∨ (result r = Raised ValueError ∧ final r = tallied env message_id v st).
Proof.
  intros Hv r. subst r.
  destruct (end_vote_run env plugin st message_id v Hv)
    as [(_ & g & _ & ->)|[(_ & g & u & _ & _ & ->)|[_ ->]]]; cbn; auto.
Qed.

Lemma allocated_fmap_id st (f : vote_record → vote_record) o :
  allocated_oids st → (next_oid st ≤ o)%nat →
  (∀ v, oid v ≠ o → f v = v) →
  f <$> vote_summaries st = vote_summaries st.
Proof.
  intros Halloc Ho Hf. apply map_eq. intros key. rewrite lookup_fmap.
  destruct (vote_summaries st !! key) as [v|] eqn:Hv; cbn; [|done].
  f_equal. apply Hf. apply Halloc in Hv. lia.
Qed.
End frames.

Lemma two_rooms_distinct : distinct_oids two_rooms_store.
Proof.
  intros k1 k2 v1 v2 H1 H2 Hoid. unfold two_rooms_store in H1, H2; cbn in H1, H2.
  apply lookup_insert_Some in H1 as [[<- <-]|[? [<- <-]%lookup_singleton_Some]];
    apply lookup_insert_Some in H2 as [[<- <-]|[? [<- <-]%lookup_singleton_Some]];
    done.
Qed.

Lemma empty_store_allocated : allocated_oids empty_store.
Proof. intros key v Hv. cbn in Hv. by rewrite lookup_empty in Hv. Qed.

(** X9.  A run touches the record of its own vote and no other.  In a
    store where every record is an object of its own, a run of [execute]
    leaves every key but the one it creates as it was, and a run of the
    deferred task, whether it returns or raises, leaves every key but
    its own as it was: the counts written through [vote_info] reach no
    other vote. *)
Theorem a_run_touches_its_own_record_only `{PyRuntime} env plugin st key :
  distinct_oids st →
  (∀ msg groups,
     let r := run env st (execute plugin msg groups) in
     key ∉ tasks_created (trace r) →
     vote_summaries (final r) !! key = vote_summaries st !! key) ∧
  (∀ message_id,
     let r := run env st (_end_vote_after_delay plugin message_id) in
     key ≠ message_id →
     vote_summaries (final r) !! key = vote_summaries st !! key).
Proof.
  intros Hdistinct. split.
  - intros msg groups r Hkey.
    destruct (execute_run env plugin st msg groups)
      as [(_ & Hst & _)|(id & g & gz & t & uid & _ & _ & _ & _ & _ & _ & _ & _ & _
                          & _ & _ & Hfinal & Htrace)]; fold r in Hst || fold r in Hfinal, Htrace.
    + by rewrite Hst.
    + rewrite Htrace in Hkey. cbn in Hkey. rewrite Hfinal. unfold store_vote; cbn.
      rewrite lookup_insert_ne; [done|]. intros <-. apply Hkey, list_elem_of_here.
  - intros message_id r Hkey. subst r.
    destruct (vote_summaries st !! message_id) as [v|] eqn:Hv.
    2:{ by rewrite end_vote_absent. }
    assert (vote_summaries (tallied env message_id v st) !! key
            = vote_summaries st !! key) as Htallied.
    { unfold tallied. destruct (vote_summaries st !! key) as [w|] eqn:Hw.
      - apply set_counts_other; [done|]. intros Hsame. apply Hkey.
        by eapply Hdistinct.
      - by apply set_counts_absent. }
    destruct (end_vote_final env plugin st message_id v Hv) as [[_ ->]|[_ ->]].
    + unfold pop_vote; cbn. by rewrite lookup_delete_ne.
    + done.
Qed.

Lemma a_run_touches_its_own_record_only_witness :
  let env := sample_backend 77 2 1 in
  distinct_oids two_rooms_store ∧
  (∀ msg groups,
     let r := run env two_rooms_store (execute None msg groups) in
     py "78" ∉ tasks_created (trace r) →
     vote_summaries (final r) !! py "78" = vote_summaries two_rooms_store !! py "78") ∧
  (∀ message_id,
     let r := run env two_rooms_store (_end_vote_after_delay None message_id) in
     py "78" ≠ message_id →
     vote_summaries (final r) !! py "78" = vote_summaries two_rooms_store !! py "78").
Proof.
  intros env. split; [exact two_rooms_distinct|].
  exact (a_run_touches_its_own_record_only env None two_rooms_store (py "78")
           two_rooms_distinct).
Defined.

(** X10.  A vote that is proposed and then resolved leaves no trace in
    the dictionary.  After an accepted proposal and a run of its
    deferred task that returns, the dictionary is the one before the
    proposal without the key of the vote, hence the very same when the
    identifier is new; the group has no vote open, so that it can
    propose again; and the two runs have posted two announcements, to
    the same group.  Stated for a store whose records were created
    before its [next_oid]. *)
Theorem resolved_vote_frees_the_room `{PyRuntime}
    env1 env2 plugin st msg groups key :
  let proposed := run env1 st (execute plugin msg groups) in
  let resolved := run env2 (final proposed) (_end_vote_after_delay plugin key) in
  allocated_oids st →
  result proposed = Returned accepted →
  tasks_created (trace proposed) = [key] →
  result resolved = Returned () →
  vote_summaries (final resolved) = delete key (vote_summaries st) ∧
  (vote_summaries st !! key = None →
   vote_summaries (final resolved) = vote_summaries st) ∧
  any_group_id (default [] (resolved_group_id msg)) (final resolved) = false ∧
  ∃ g proposal outcome,
    announcements (trace proposed ++ trace resolved) = [(g, proposal); (g, outcome)].
Proof.
  intros proposed resolved Halloc Hacc Htasks Hret.
  destruct (execute_accepted env1 plugin st msg groups Hacc)
    as (id & g & gz & t & uid & Hg & _ & Hgz & Hfree & _ & _ & _ & _ & _ & _ & Hfinal & Htrace).
  fold proposed in Hfinal, Htrace. rewrite Htrace in Htasks. injection Htasks as <-.
  set (v := {| oid := next_oid st; group_id := g; target_user_id := uid;
               target_name := t; minutes := chosen_minutes plugin groups;
               yes := 0; no := 0 |}).
  assert (vote_summaries (final proposed) !! str_int id = Some v) as Hv.
  { rewrite Hfinal. unfold store_vote; cbn. by rewrite lookup_insert_eq. }
  assert (vote_summaries (final resolved) = delete (str_int id) (vote_summaries st))
    as Hmap.
  { destruct (end_vote_final env2 plugin _ _ v Hv) as [[_ Hfin]|[Hraised _]];
      fold resolved in Hfin || fold resolved in Hraised; [|congruence].
    rewrite Hfin, Hfinal. unfold pop_vote, tallied, set_counts, store_vote; cbn.
    rewrite <- fmap_delete, delete_insert_eq, fmap_delete.
    f_equal. by eapply allocated_fmap_id; [done|done|intros w Hw; by rewrite decide_False]. }
  split; [done|]. split; [|split].
  - intros Hfresh. by rewrite Hmap, delete_id.
  - rewrite Hg. change (default [] (Some g)) with g.
    apply any_group_id_false. intros key w. rewrite Hmap.
    intros [_ Hw]%lookup_delete_Some.
    by apply (proj1 (any_group_id_false g st) Hfree key w).
  - rewrite announcements_app, Htrace.
    destruct (end_vote_run env2 plugin _ _ v Hv)
      as [(_ & g' & Hg' & Hr)|[(_ & g' & u' & Hg' & _ & Hr)|[_ Hr]]];
      fold resolved in Hr; rewrite Hr in Hret |- *; cbn [trace result] in *;
      [| |done];
      rewrite announcements_app, announcements_tally;
      assert (g' = gz) as -> by (cbn in Hg'; congruence);
      by eexists gz, _, _.
Qed.

Lemma resolved_vote_frees_the_room_witness :
  let text := py "/投票禁言 @123 5" in
  let msg := text_command text (py "1000") (py "42") in
  let groups := groups_of text in
  let env := sample_backend 77 2 1 in
  let proposed := run env empty_store (execute None msg groups) in
  let resolved := run env (final proposed) (_end_vote_after_delay None (py "77")) in
  (allocated_oids empty_store ∧
   result proposed = Returned accepted ∧
   tasks_created (trace proposed) = [py "77"] ∧
   result resolved = Returned ()) ∧
  vote_summaries (final resolved) = delete (py "77") (vote_summaries empty_store) ∧
  (vote_summaries empty_store !! py "77" = None →
   vote_summaries (final resolved) = vote_summaries empty_store) ∧
  any_group_id (default [] (resolved_group_id msg)) (final resolved) = false ∧
  ∃ g proposal outcome,
    announcements (trace proposed ++ trace resolved) = [(g, proposal); (g, outcome)].
Proof.
  intros text msg groups env proposed resolved.
  assert (result proposed = Returned accepted) as Hacc by (by vm_compute).
  assert (tasks_created (trace proposed) = [py "77"]) as Htasks by (by vm_compute).
  assert (result resolved = Returned ()) as Hret by (by vm_compute).
  split; [exact (conj empty_store_allocated (conj Hacc (conj Htasks Hret)))|].
  exact (resolved_vote_frees_the_room env env None empty_store msg groups (py "77")
           empty_store_allocated Hacc Htasks Hret).
Defined.

(** X11.  A resolution depends on the replies to its two queries and on
    nothing else the backend answers: two backends that agree on every
    reaction query give the same run, with the same requests, the same
    announcement and the same final store, whatever they answer to the
    mute request and to the posts. *)
Theorem resolution_depends_on_the_tally_only `{PyRuntime}
    env env' plugin st message_id :
  (∀ id emojiId emojiType,
     env (fetch_emoji_like id emojiId emojiType)
     = env' (fetch_emoji_like id emojiId emojiType)) →
  run env st (_end_vote_after_delay plugin message_id) =
  run env' st (_end_vote_after_delay plugin message_id).
Proof.
  intros Hsame.
  assert (∀ e t, observed_count env message_id e t = observed_count env' message_id e t)
    as Hcount.
  { intros e t. unfold observed_count. destruct (py_int message_id) as [id|]; [|done].
    by rewrite Hsame. }
  assert (approve_count env message_id = approve_count env' message_id) as Happ
    by apply Hcount.
  assert (reject_count env message_id = reject_count env' message_id) as Hrej
    by apply Hcount.
  destruct (vote_summaries st !! message_id) as [v|] eqn:Hv.
  2:{ by rewrite !end_vote_absent. }
  destruct (end_vote_run env plugin st message_id v Hv)
    as [(Hle & g & Hg & Hr)|[(Hlt & g & u & Hg & Hu & Hr)|[Hbad Hr]]]; rewrite Hr.
  - rewrite (end_vote_rejected env' _ _ _ v g); [|done|lia|done].
    unfold tallied. by rewrite Happ, Hrej.
  - rewrite (end_vote_passed env' _ _ _ v g u); [|done|lia|done..].
    unfold tallied. by rewrite Happ, Hrej.
  - destruct Hbad as [[Hle Hg]|[Hlt Hgu]].
    + rewrite (end_vote_post_raises env' _ _ _ v); [|done|lia|done].
      unfold tallied. by rewrite Happ, Hrej.
    + rewrite (end_vote_mute_raises env' _ _ _ v); [|done|lia|done].
      unfold tallied. by rewrite Happ, Hrej.
Qed.

Lemma resolution_depends_on_the_tally_only_witness :
  let env := sample_backend 77 2 1 in
  let env' := sample_backend 99 2 1 in
  (∀ id emojiId emojiType,
     env (fetch_emoji_like id emojiId emojiType)
     = env' (fetch_emoji_like id emojiId emojiType)) ∧
  run env sample_store (_end_vote_after_delay None (py "77")) =
  run env' sample_store (_end_vote_after_delay None (py "77")).
Proof.
  intros env env'.
  assert (∀ id emojiId emojiType,
            env (fetch_emoji_like id emojiId emojiType)
            = env' (fetch_emoji_like id emojiId emojiType)) as Hsame by done.
  split; [exact Hsame|].
  exact (resolution_depends_on_the_tally_only env env' None sample_store (py "77")
           Hsame).
Defined.

(** X12.  The helper [fetch_emoji_votes] is the query the deferred task
    makes inline: for a message identifier that converts with [int()],
    its run is the run of that query, with the default reaction type
    ["1"] where none is given.  It sends one request, leaves the store
    as it is and never raises, and it counts a reaction only when the
    reply has status 0, as many as the reply lists. *)
Theorem fetch_emoji_votes_is_the_inline_query `{PyRuntime}
    env st message_id id emoji emoji_type :
  py_int message_id = Some id →
  run env st (fetch_emoji_votes id emoji emoji_type)
    = run env st (count_votes message_id emoji (default (py "1") emoji_type)) ∧
  ∃ count,
    run env st (fetch_emoji_votes id emoji emoji_type) =
    {| final := st;
       trace := [Called (fetch_emoji_like id emoji (default (py "1") emoji_type))];
       result := Returned count |} ∧
    (count ≠ 0%nat →
     ∃ data, env (fetch_emoji_like id emoji (default (py "1") emoji_type)) = http_json data ∧
             retcode data = Some 0 ∧ count = length (emojiLikesList data)).
Proof.
  intros Hid. unfold fetch_emoji_votes, count_votes, int_. rewrite Hid. cbn.
  split; [done|].
  destruct (env (fetch_emoji_like id emoji _)) as [|data] eqn:Hresp; cbn.
  { by exists 0%nat. }
  case_bool_decide as Hcode; cbn.
  - eexists. split; [done|]. intros _. by exists data.
  - by exists 0%nat.
Qed.

Lemma fetch_emoji_votes_is_the_inline_query_witness :
  let env := sample_backend 77 2 1 in
  py_int (py "77") = Some 77 ∧
  run env sample_store (fetch_emoji_votes 77 EMOJI_YES_ID None)
    = run env sample_store
        (count_votes (py "77") EMOJI_YES_ID (default (py "1") None)) ∧
  ∃ count,
    run env sample_store (fetch_emoji_votes 77 EMOJI_YES_ID None) =
    {| final := sample_store;
       trace := [Called (fetch_emoji_like 77 EMOJI_YES_ID (default (py "1") None))];
       result := Returned count |} ∧
    (count ≠ 0%nat →
     ∃ data,
       env (fetch_emoji_like 77 EMOJI_YES_ID (default (py "1") None)) = http_json data ∧
       retcode data = Some 0 ∧ count = length (emojiLikesList data)).
Proof.
  intros env.
  assert (py_int (py "77") = Some 77) as Hid by (by vm_compute).
  split; [exact Hid|].
  exact (fetch_emoji_votes_is_the_inline_query env sample_store (py "77") 77
           EMOJI_YES_ID None Hid).
Defined.

(** X22.  The mute that is enforced is the mute that was announced.
    For an accepted proposal whose vote passes and whose deferred task
    returns: the proposal was announced in the group of the command, for
    the target of the command and the minutes [execute] settled on; the
    one mute request is sent in that group, on the user of the mention
    the target names, for those minutes times 60 seconds; and the
    outcome is announced in that group, for that target, with the counts
    and those minutes. *)
Theorem announced_mute_is_enforced `{PyRuntime}
    env1 env2 plugin st msg groups key :
  let proposed := run env1 st (execute plugin msg groups) in
  let resolved := run env2 (final proposed) (_end_vote_after_delay plugin key) in
  let approve := approve_count env2 key in
  let reject := reject_count env2 key in
  result proposed = Returned accepted →
  tasks_created (trace proposed) = [key] →
  (reject < approve)%nat →
  result resolved = Returned () →
  ∃ room g t uid u m,
    resolved_group_id msg = Some room ∧ py_int room = Some g ∧
    target groups = Some t ∧
    find_target t (message_segments msg) = Some uid ∧ py_int uid = Some u ∧
    m = chosen_minutes plugin groups ∧
    announcements (trace proposed) = [(g, proposal_text plugin t m)] ∧
    bans (trace resolved) = [(g, u, m * 60)] ∧
    announcements (trace resolved)
      = [(g, outcome_header t approve reject ++ passed_verdict m)].
Proof.
  intros proposed resolved approve reject Hacc Htasks Hpasses Hret.
  destruct (execute_accepted env1 plugin st msg groups Hacc)
    as (id & room & g & t & uid & Hroom & _ & Hg & _ & Ht & _ & Huid & _ & _ & _
        & Hfinal & Htrace).
  fold proposed in Hfinal, Htrace. rewrite Htrace in Htasks. injection Htasks as <-.
  set (v := {| oid := next_oid st; group_id := room; target_user_id := uid;
               target_name := t; minutes := chosen_minutes plugin groups;
               yes := 0; no := 0 |}).
  assert (vote_summaries (final proposed) !! str_int id = Some v) as Hv.
  { rewrite Hfinal. unfold store_vote; cbn. by rewrite lookup_insert_eq. }
  destruct (end_vote_run env2 plugin _ _ v Hv)
    as [(Hle & _)|[(_ & g' & u & Hg' & Hu & Hr)|[_ Hr]]];
    fold resolved approve reject in Hle || fold resolved approve reject in Hr.
  - lia.
  - cbn in Hg', Hu. assert (g' = g) as -> by congruence.
    exists room, g, t, uid, u, (chosen_minutes plugin groups).
    rewrite Hr, Htrace; cbn [trace].
    rewrite announcements_app, bans_app, announcements_tally, bans_tally.
    by repeat split.
  - rewrite Hr in Hret. done.
Qed.

Lemma announced_mute_is_enforced_witness :
  let text := py "/投票禁言 @123 5" in
  let msg := text_command text (py "1000") (py "42") in
  let groups := groups_of text in
  let env := sample_backend 77 2 1 in
  let proposed := run env empty_store (execute None msg groups) in
  let resolved := run env (final proposed) (_end_vote_after_delay None (py "77")) in
  let approve := approve_count env (py "77") in
  let reject := reject_count env (py "77") in
  (result proposed = Returned accepted ∧
   tasks_created (trace proposed) = [py "77"] ∧
   (reject < approve)%nat ∧
   result resolved = Returned ()) ∧
  ∃ room g t uid u m,
    resolved_group_id msg = Some room ∧ py_int room = Some g ∧
    target groups = Some t ∧
    find_target t (message_segments msg) = Some uid ∧ py_int uid = Some u ∧
    m = chosen_minutes None groups ∧
    announcements (trace proposed) = [(g, proposal_text None t m)] ∧
    bans (trace resolved) = [(g, u, m * 60)] ∧
    announcements (trace resolved)
      = [(g, outcome_header t approve reject ++ passed_verdict m)].
Proof.
  intros text msg groups env proposed resolved approve reject.
  assert (result proposed = Returned accepted) as Hacc by (by vm_compute).
  assert (tasks_created (trace proposed) = [py "77"]) as Htasks by (by vm_compute).
  assert (reject < approve)%nat as Hpasses by (vm_compute; lia).
  assert (result resolved = Returned ()) as Hret by (by vm_compute).
  split; [exact (conj Hacc (conj Htasks (conj Hpasses Hret)))|].
  exact (announced_mute_is_enforced env env None empty_store msg groups (py "77")
           Hacc Htasks Hpasses Hret).
Defined.

(** * Invariants of the dictionary *)

Section invariant_proofs.
Context `{PyRuntime}.
Implicit Types (env : backend) (st : store) (v : vote_record) (P : store → Prop).

Lemma preserves_bind P {A B} (m : coro A) (f : A → coro B) :
  preserves P m → (∀ a, preserves P (f a)) → preserves P (coro_bind f m).
Proof.
  intros Hm Hf. induction m as [a|e|k IH|g k IH|c k IH|mid k IH]; cbn in *; auto.
  destruct Hm; auto.
Qed.

Lemma preserves_try P {A} (m : coro A) (h : exn → coro A) :
  preserves P m → (∀ e, preserves P (h e)) → preserves P (try_except m h).
Proof.
  intros Hm Hh. induction m as [a|e|k IH|g k IH|c k IH|mid k IH]; cbn in *; auto.
  destruct Hm; auto.
Qed.

Lemma preserves_advance P {A} st (m : coro A) :
  preserves P m → P st →
  P (advance st m).1.1 ∧ preserves P (advance st m).2.
Proof.
  revert st. induction m as [a|e|k IH|g k IH|c k IH|mid k IH]; intros st Hm Hst;
    cbn in *; auto.
  - destruct Hm; auto.
  - specialize (IH st Hm Hst). by destruct (advance st k) as [[st' created] m'].
Qed.

Lemma preserves_run P {A} env st (m : coro A) :
  preserves P m → P st → P (final (run env st m)).
Proof.
  revert st. induction m as [a|e|k IH|g k IH|c k IH|mid k IH]; intros st Hm Hst;
    cbn in *; auto.
  destruct Hm; auto.
Qed.

Lemma empty_store_well_formed : well_formed empty_store.
Proof.
  split; [|split].
  - intros k v Hv. cbn in Hv. by rewrite lookup_empty in Hv.
  - intros k1 k2 v1 v2 Hv. cbn in Hv. by rewrite lookup_empty in Hv.
  - intros k v Hv. cbn in Hv. by rewrite lookup_empty in Hv.
Qed.

Lemma store_vote_well_formed key g u t mins st :
  checked key {| oid := next_oid st; group_id := g; target_user_id := u;
                 target_name := t; minutes := mins; yes := 0; no := 0 |} →
  well_formed st → well_formed (store_vote key g u t mins st).
Proof.
  intros Hnew (Halloc & Hdistinct & Hchecked). split; [|split].
  - intros k v. unfold store_vote; cbn. rewrite lookup_insert. case_decide.
    + intros [= <-]; cbn. lia.
    + intros Hv%Halloc. lia.
  - intros k1 k2 v1 v2. unfold store_vote; cbn. rewrite !lookup_insert.
    repeat case_decide; subst.
    + done.
    + intros [= <-] Hv2%Halloc; cbn. lia.
    + intros Hv1%Halloc [= <-]; cbn. lia.
    + apply Hdistinct.
  - intros k v. unfold store_vote; cbn. rewrite lookup_insert. case_decide.
    + intros [= <-]. by subst.
    + apply Hchecked.
Qed.

Lemma lookup_set_counts_oid o y n st key v :
  vote_summaries (set_counts o y n st) !! key = Some v →
  ∃ w, vote_summaries st !! key = Some w ∧ oid v = oid w.
Proof.
  unfold set_counts; cbn. rewrite lookup_fmap.
  destruct (vote_summaries st !! key) as [w|]; [|done]. cbn.
  intros [= <-]. exists w. by case_decide.
Qed.

Lemma set_counts_well_formed o y n st :
  well_formed st → well_formed (set_counts o y n st).
Proof.
  intros (Halloc & Hdistinct & Hchecked). split; [|split].
  - intros k v (w & Hw & ->)%lookup_set_counts_oid. by eapply Halloc.
  - intros k1 k2 v1 v2 (w1 & Hw1 & ->)%lookup_set_counts_oid
      (w2 & Hw2 & ->)%lookup_set_counts_oid.
    by eapply Hdistinct.
  - intros k v Hv.
    destruct (lookup_set_counts _ _ _ _ _ _ Hv) as (w & Hw & Hg & Hu & Ht & _).
    specialize (Hchecked k w Hw). unfold checked in *. by rewrite Hg, Hu, Ht.
Qed.

Lemma pop_vote_well_formed key st : well_formed st → well_formed (pop_vote key st).
Proof.
  intros (Halloc & Hdistinct & Hchecked). unfold pop_vote.
  split; [|split]; unfold allocated_oids, distinct_oids; cbn.
  - intros k v [_ Hv]%lookup_delete_Some. by eapply Halloc.
  - intros k1 k2 v1 v2 [_ H1]%lookup_delete_Some [_ H2]%lookup_delete_Some.
    by eapply Hdistinct.
  - intros k v [_ Hv]%lookup_delete_Some. by eapply Hchecked.
Qed.

Lemma send_group_text_preserves P g text :
  preserves P (send_group_text_via_napcat g text).
Proof.
  unfold send_group_text_via_napcat, int_. destruct (py_int g); cbn; [|done].
  by intros [|?].
Qed.

Lemma set_group_ban_preserves P g u mins :
  preserves P (set_group_ban_via_napcat g u mins).
Proof.
  unfold set_group_ban_via_napcat, int_. destruct (py_int g); cbn; [|done].
  destruct (py_int u); cbn; [|done]. by intros [|?].
Qed.

Lemma count_votes_preserves P message_id emojiId emojiType :
  preserves P (count_votes message_id emojiId emojiType).
Proof.
  unfold count_votes, int_. destruct (py_int message_id); cbn; [|done].
  intros [|data]; cbn; [done|]. by case_bool_decide.
Qed.

(** Every update of the deferred task keeps the store well formed. *)
Lemma end_vote_preserves plugin message_id :
  preserves well_formed (_end_vote_after_delay plugin message_id).
Proof.
  unfold _end_vote_after_delay. cbn -[count_votes send_group_text_via_napcat
    set_group_ban_via_napcat]. intros _ st.
  destruct (vote_summaries st !! message_id) as [v|]; [|done].
  unfold mbind, coro_mbind.
  apply preserves_bind; [apply count_votes_preserves|]. intros approve.
  apply preserves_bind; [apply count_votes_preserves|]. intros reject.
  cbn -[count_votes send_group_text_via_napcat set_group_ban_via_napcat].
  split; [apply set_counts_well_formed|].
  unfold mbind, coro_mbind.
  apply preserves_bind.
  { case_bool_decide; [|done].
    apply preserves_bind; [apply set_group_ban_preserves|done]. }
  intros text. apply preserves_bind; [apply send_group_text_preserves|].
  intros _. cbn. split; [apply pop_vote_well_formed|done].
Qed.

(** So does the one update of [execute]: the record it stores has
    passed its checks. *)
Lemma execute_preserves plugin msg groups :
  preserves well_formed (execute plugin msg groups).
Proof.
  unfold execute. fold (message_content msg). fold (message_segments msg).
  case_bool_decide as Hbare; [done|].
  destruct (truthy (resolved_group_id msg)) eqn:Hgroup; [|done].
  destruct (truthy (resolved_sender_qq msg)) eqn:Hsender; [|done].
  apply truthy_inv in Hgroup as (g & Hg & Hgne). rewrite Hg.
  cbn -[send_group_text_via_napcat message_content find_target].
  intros st. destruct (any_group_id g st); [done|].
  destruct (truthy (target groups)) eqn:Htarget; [|done].
  apply truthy_inv in Htarget as (t & Ht & Htne). rewrite Ht.
  cbn -[send_group_text_via_napcat message_content find_target].
  unfold mbind, coro_mbind. apply preserves_bind.
  { apply preserves_try; [|by intros []].
    destruct (truthy (minutes_group groups)); [|done].
    unfold int_. by destruct (py_int _). }
  intros mins.
  pose proof (find_target_first t (message_segments msg)) as Hfirst.
  destruct (find_target t (message_segments msg)) as [[|c uid]|]; [done| |done].
  destruct Hfirst as (_ & _ & _ & Hnames & _).
  cbn -[send_group_text_via_napcat message_content].
  unfold send_group_text_via_napcat, int_.
  destruct (py_int g) as [gz|] eqn:Hgz; cbn; [|done].
  intros [|[id|]]; cbn; [done| |done].
  case_bool_decide as Hid; cbn; [|done].
  split; [|done]. intros st' Hwf. apply store_vote_well_formed; [|done].
  split; [by exists id|]. by repeat split.
Qed.

(** On the event loop: the store is well formed and every suspended
    task keeps it so, whatever the interleaving. *)
Lemma reachable_invariant plugin s :
  reachable plugin s →
  well_formed (summaries s) ∧ Forall (task_preserves well_formed) (tasks s).
Proof.
  induction 1 as [|s msg groups _ [Hwf Htasks]|s i env _ [Hwf Htasks]].
  - split; [apply empty_store_well_formed|done].
  - unfold dispatch.
    pose proof (preserves_advance well_formed (summaries s) _
                  (execute_preserves plugin msg groups) Hwf) as [Hst Hm].
    destruct (advance _ _) as [[st created] m]; cbn in *.
    split; [done|]. apply Forall_app. split; [done|].
    apply Forall_cons. split; [done|]. unfold timers.
    apply Forall_fmap, Forall_true. intros mid. apply end_vote_preserves.
  - unfold resume. destruct (tasks s !! i) as [[m|m]|] eqn:Hi; [| |done].
    + destruct m as [| | | |c k|]; try done.
      pose proof (Forall_lookup_1 _ _ _ _ Htasks Hi) as Hk. cbn in Hk.
      pose proof (preserves_advance well_formed (summaries s) _ (Hk (env c)) Hwf)
        as [Hst Hm].
      destruct (advance _ _) as [[st created] m]; cbn in *.
      split; [done|]. apply Forall_app. split.
      * by apply Forall_insert.
      * unfold timers. apply Forall_fmap, Forall_true. intros mid.
        apply end_vote_preserves.
    + destruct m as [| | | |c k|]; try done.
      pose proof (Forall_lookup_1 _ _ _ _ Htasks Hi) as Hk. cbn in Hk.
      pose proof (preserves_advance well_formed (summaries s) _ (Hk (env c)) Hwf)
        as [Hst Hm].
      destruct (advance _ _) as [[st created] m]; cbn in *.
      split; [done|]. apply Forall_app. split.
      * by apply Forall_insert.
      * unfold timers. apply Forall_fmap, Forall_true. intros mid.
        apply end_vote_preserves.
Qed.
End invariant_proofs.

Lemma one_vote_loop_reachable : reachable None one_vote_loop.
Proof. apply reachable_resume, reachable_dispatch, reachable_start. Qed.

(** X13.  Without overlap the rooms are exclusive.  In every store
    reached from the empty dictionary by runs of [execute] and of the
    deferred task that follow one another, each run alone to its end, no
    two records have the same group, and every record is well formed. *)
Theorem serial_runs_keep_one_vote_per_group `{PyRuntime} plugin st :
  serial plugin st → one_vote_per_group st ∧ well_formed st.
Proof.
  induction 1 as [|st env msg groups _ [Hone Hwf]|st env message_id _ [Hone Hwf]].
  - split; [|apply empty_store_well_formed].
    intros k1 k2 v1 v2 Hv. cbn in Hv. by rewrite lookup_empty in Hv.
  - split; [by apply execute_keeps_one_vote_per_group|].
    by apply preserves_run; [apply execute_preserves|].
  - split; [by apply end_vote_keeps_one_vote_per_group|].
    by apply preserves_run; [apply end_vote_preserves|].
Qed.

Lemma serial_runs_keep_one_vote_per_group_witness :
  let text := py "/投票禁言 @123 5" in
  let st := final (run (sample_backend 77 0 0) empty_store
                     (execute None (text_command text (py "1000") (py "42"))
                        (groups_of text))) in
  serial None st ∧ one_vote_per_group st ∧ well_formed st.
Proof.
  intros text st.
  assert (serial None st) as Hserial by apply serial_execute, serial_start.
  split; [exact Hserial|].
  exact (serial_runs_keep_one_vote_per_group None st Hserial).
Defined.

(** X14.  Whatever the interleaving, the records are well formed.  In
    every state the event loop reaches, with handlers and deferred tasks
    suspended and resumed in any order, every record of the dictionary
    is an object of its own, its key is the [str] of a non-zero message
    identifier, its group identifier is not empty and converts with
    [int()], and its target is not empty and is named by the target of
    the command. *)
Theorem reachable_stores_are_well_formed `{PyRuntime} plugin s :
  reachable plugin s → well_formed (summaries s).
Proof. by intros [Hwf _]%reachable_invariant. Qed.

Lemma reachable_stores_are_well_formed_witness :
  reachable None one_vote_loop ∧ well_formed (summaries one_vote_loop).
Proof.
  split; [exact one_vote_loop_reachable|].
  exact (reachable_stores_are_well_formed None one_vote_loop one_vote_loop_reachable).
Defined.

(** X15.  A resolution fails on the target and on nothing else.  For a
    record of a store the event loop reaches, the deferred task raises
    exactly when the vote passes and the target identifier does not
    convert with [int()]; it then has announced nothing, sent no mute
    request and left the record in place.  In every other case it
    returns, with one announcement posted and the record removed. *)
Theorem resolution_fails_only_on_the_target `{PyRuntime} plugin s env message_id v :
  reachable plugin s →
  vote_summaries (summaries s) !! message_id = Some v →
  let r := run env (summaries s) (_end_vote_after_delay plugin message_id) in
  let passes := (reject_count env message_id < approve_count env message_id)%nat in
  (result r = Raised ValueError ↔ passes ∧ py_int (target_user_id v) = None) ∧
  (result r = Returned () ↔ ¬ (passes ∧ py_int (target_user_id v) = None)) ∧
  (result r = Returned () →
   vote_summaries (final r) !! message_id = None ∧
   ∃ g text, announcements (trace r) = [(g, text)]) ∧
  (result r = Raised ValueError →
   is_Some (vote_summaries (final r) !! message_id) ∧
   announcements (trace r) = [] ∧ bans (trace r) = []).
Proof.
  intros (_ & _ & Hchecked)%reachable_invariant%proj1 Hv r passes.
  destruct (Hchecked _ _ Hv) as (_ & _ & [g Hg] & _).
  destruct (end_vote_run env plugin _ _ v Hv)
    as [(Hle & g' & _ & Hr)|[(Hlt & g' & u & _ & Hu & Hr)|[Hbad Hr]]];
    fold r in Hr; rewrite Hr; cbn [result final trace]; subst passes.
  - split; [|split; [|split]].
    + split; [done|]. intros [? _]. lia.
    + split; [|done]. intros _ [? _]. lia.
    + intros _. split; [apply lookup_popped|].
      rewrite announcements_app, announcements_tally. by eexists _, _.
    + done.
  - split; [|split; [|split]].
    + split; [done|]. intros [_ ?]. congruence.
    + split; [|done]. intros _ [_ ?]. congruence.
    + intros _. split; [apply lookup_popped|].
      rewrite announcements_app, announcements_tally. by eexists _, _.
    + done.
  - destruct Hbad as [[_ ?]|[Hlt [?|Hu]]]; [congruence|congruence|].
    split; [|split; [|split]].
    + done.
    + split; [done|]. intros Hnot. by destruct Hnot.
    + done.
    + intros _. split; [|split].
      * unfold tallied, set_counts; cbn. rewrite lookup_fmap, Hv. by eexists.
      * apply announcements_tally.
      * apply bans_tally.
Qed.

Lemma resolution_fails_only_on_the_target_witness :
  let env := sample_backend 101 2 1 in
  let v := {| oid := 0; group_id := py "1000"; target_user_id := py "123";
              target_name := py "123"; minutes := 1; yes := 0; no := 0 |} in
  let r := run env (summaries one_vote_loop) (_end_vote_after_delay None (py "101")) in
  let passes := (reject_count env (py "101") < approve_count env (py "101"))%nat in
  (reachable None one_vote_loop ∧
   vote_summaries (summaries one_vote_loop) !! py "101" = Some v) ∧
  (result r = Raised ValueError ↔ passes ∧ py_int (target_user_id v) = None) ∧
  (result r = Returned () ↔ ¬ (passes ∧ py_int (target_user_id v) = None)) ∧
  (result r = Returned () →
   vote_summaries (final r) !! py "101" = None ∧
   ∃ g text, announcements (trace r) = [(g, text)]) ∧
  (result r = Raised ValueError →
   is_Some (vote_summaries (final r) !! py "101") ∧
   announcements (trace r) = [] ∧ bans (trace r) = []).
Proof.
  intros env v r passes.
  assert (vote_summaries (summaries one_vote_loop) !! py "101" = Some v) as Hv
    by (by vm_compute).
  split; [exact (conj one_vote_loop_reachable Hv)|].
  exact (resolution_fails_only_on_the_target None one_vote_loop env (py "101") v
           one_vote_loop_reachable Hv).
Defined.

(** * The identifier of the posted message *)

Section round_trip.
Context `{PyRuntime}.
Hypothesis Hascii : ascii_digits.

Lemma numeral_digits d :
  Forall (λ c, ∃ k, (k < 10)%N ∧ c = (48 + k)%N) (numeral d).
Proof.
  induction d; cbn; constructor; try done;
    [exists 0%N|exists 1%N|exists 2%N|exists 3%N|exists 4%N|exists 5%N|exists 6%N
    |exists 7%N|exists 8%N|exists 9%N]; by split.
Qed.

(** [int()] reads a numeral digit by digit, the most significant
    first. *)
Lemma int_digits_numeral d acc b :
  d ≠ Decimal.Nil ∨ b = true →
  int_digits acc b (numeral d)
  = Some (DecimalPos.Unsigned.of_lu (Decimal.rev d)
          + acc * 10 ^ DecimalPos.Unsigned.usize d)%N.
Proof.
  destruct Hascii as (Hvalue & _ & _).
  revert acc b. induction d as [|d IH|d IH|d IH|d IH|d IH|d IH|d IH|d IH|d IH|d IH];
    intros acc b Hb.
  { destruct Hb as [?| ->]; [done|]. cbn. f_equal. lia. }
  all: cbn [numeral NilEmpty.string_of_uint list_ascii_of_string map int_digits].
  all: match goal with
       | |- context [digit_value ?c] =>
         let k := eval vm_compute in (c - 48)%N in
         change c with (48 + k)%N; rewrite (Hvalue k) by done
       end.
  all: change (int_digits ?a true (map N_of_ascii (list_ascii_of_string
                 (NilEmpty.string_of_uint d))))
         with (int_digits a true (numeral d)).
  all: match goal with
       | |- context [N.eqb ?a 95%N] => change (N.eqb a 95%N) with false
       end; cbv iota; rewrite IH by (right; reflexivity).
  all: f_equal; set (low := DecimalPos.Unsigned.of_lu (Decimal.rev d));
       unfold Decimal.rev; cbn [Decimal.revapp DecimalPos.Unsigned.usize];
       rewrite DecimalPos.Unsigned.of_lu_revapp; fold (Decimal.rev d); fold low;
       cbn [DecimalPos.Unsigned.of_lu];
       rewrite N.pow_succ_r'; lia.
Qed.

Lemma numeral_no_blank d : Forall (λ c, is_space c = false) (numeral d).
Proof.
  destruct Hascii as (_ & Hblank & _).
  eapply Forall_impl; [apply numeral_digits|]. intros c (k & Hk & ->). by apply Hblank.
Qed.

#[local] Transparent str_int.

(** [str(z)] is a numeral, after a minus sign when [z] is negative. *)
Lemma str_int_numeral z :
  ∃ d, d ≠ Decimal.Nil ∧
    (str_int z = numeral d
     ∧ z = Z.of_N (DecimalPos.Unsigned.of_lu (Decimal.rev d))
     ∨ str_int z = 45%N :: numeral d
       ∧ z = - Z.of_N (DecimalPos.Unsigned.of_lu (Decimal.rev d))).
Proof.
  unfold str_int. destruct z as [|p|p]; cbn [Z.to_int NilZero.string_of_int].
  - exists (Decimal.D0 Decimal.Nil). split; [done|]. by left.
  - exists (Pos.to_uint p). split; [apply DecimalPos.Unsigned.to_uint_nonnil|]. left.
    split.
    + pose proof (DecimalPos.Unsigned.to_uint_nonnil p). by destruct (Pos.to_uint p).
    + by rewrite <- DecimalPos.Unsigned.of_uint_alt, DecimalPos.Unsigned.of_to.
  - exists (Pos.to_uint p). split; [apply DecimalPos.Unsigned.to_uint_nonnil|]. right.
    split.
    + pose proof (DecimalPos.Unsigned.to_uint_nonnil p). by destruct (Pos.to_uint p).
    + by rewrite <- DecimalPos.Unsigned.of_uint_alt, DecimalPos.Unsigned.of_to.
Qed.

#[local] Opaque str_int.

Lemma within_digit_limit_le (s t : pystr) :
  (int_max_str_digits = 0 ∨ length t ≤ int_max_str_digits)%nat →
  (length s ≤ length t)%nat → within_digit_limit s = true.
Proof.
  intros Hlimit Hlen. unfold within_digit_limit.
  destruct int_max_str_digits as [|limit]; [done|].
  apply bool_decide_eq_true. destruct Hlimit as [?|Hlimit]; [done|].
  pose proof (length_filter (λ c, is_digit c = true) s). lia.
Qed.

Lemma py_int_numeral d sign :
  d ≠ Decimal.Nil →
  within_digit_limit (numeral d) = true →
  (if within_digit_limit (numeral d)
   then (λ n, sign * Z.of_N n) <$> int_digits 0 false (numeral d)
   else None) = Some (sign * Z.of_N (DecimalPos.Unsigned.of_lu (Decimal.rev d))).
Proof.
  intros Hd ->. rewrite int_digits_numeral by by left. cbn. do 2 f_equal. lia.
Qed.

(** [int(str(z))] is [z], for an integer within the digit limit. *)
Lemma py_int_str_int z :
  (int_max_str_digits = 0 ∨ length (str_int z) ≤ int_max_str_digits)%nat →
  py_int (str_int z) = Some z.
Proof.
  intros Hlimit. destruct (str_int_numeral z) as (d & Hd & [[Hs Hz]|[Hs Hz]]).
  - unfold py_int. rewrite Hs in Hlimit |- *.
    rewrite int_strip_no_blank by apply numeral_no_blank.
    assert (within_digit_limit (numeral d) = true) as Hwithin
      by by eapply within_digit_limit_le.
    pose proof (py_int_numeral d 1 Hd Hwithin) as Hbody.
    rewrite Z.mul_1_l, <- Hz in Hbody.
    destruct d; try done; exact Hbody.
  - unfold py_int. rewrite Hs in Hlimit |- *.
    rewrite int_strip_no_blank
      by (constructor; [apply Hascii|apply numeral_no_blank]).
    assert (within_digit_limit (numeral d) = true) as Hwithin.
    { eapply within_digit_limit_le; [done|]. cbn. lia. }
    pose proof (py_int_numeral d (-1) Hd Hwithin) as Hbody.
    replace (-1 * Z.of_N (DecimalPos.Unsigned.of_lu (Decimal.rev d))) with z in Hbody
      by lia.
    exact Hbody.
Qed.
End round_trip.

#[local] Opaque str_int.

Lemma ascii_runtime_digits : ascii_digits.
Proof.
  split; [|split]; [| |done].
  - intros d Hd. cbn. destruct d as [|p]; [done|].
    do 4 (destruct p as [p|p|]; try done); lia.
  - intros d Hd. apply ascii_digit_no_space. unfold is_digit. cbn.
    destruct d as [|p]; [done|].
    do 4 (destruct p as [p|p|]; try done); lia.
Qed.

(** X16.  The tally is taken on the message that was posted.  The key
    of an accepted vote is the [str] of the identifier the post
    returned, and [int()] gives that identifier back: the deferred task
    of the vote sleeps and then queries the approvals and the rejections
    of that very message.  Stated for a runtime whose digits include the
    ASCII digits, and for an identifier within the digit limit of
    [int()]. *)
Theorem tally_queries_the_posted_message `{PyRuntime}
    env1 env2 plugin st msg groups key :
  let proposed := run env1 st (execute plugin msg groups) in
  let resolved := run env2 (final proposed) (_end_vote_after_delay plugin key) in
  ascii_digits →
  (int_max_str_digits = 0 ∨ length key ≤ int_max_str_digits)%nat →
  result proposed = Returned accepted →
  tasks_created (trace proposed) = [key] →
  ∃ g text id rest,
    trace proposed = [Called (send_group_msg g text); TaskCreated key] ∧
    env1 (send_group_msg g text) = http_json (Some id) ∧
    key = str_int id ∧ py_int key = Some id ∧
    trace resolved =
      Called (asyncio_sleep (vote_duration (default DEFAULT_CONFIG plugin)))
        :: Called (fetch_emoji_like id EMOJI_YES_ID (py "1"))
        :: Called (fetch_emoji_like id EMOJI_NO_ID EMOJI_NO_TYPE) :: rest.
Proof.
  intros proposed resolved Hascii Hlimit Hacc Htasks.
  destruct (execute_accepted env1 plugin st msg groups Hacc)
    as (id & g & gz & t & uid & _ & _ & _ & _ & _ & _ & _ & _ & Hresp & _ & Hfinal & Htrace).
  fold proposed in Hfinal, Htrace. rewrite Htrace in Htasks. injection Htasks as <-.
  assert (py_int (str_int id) = Some id) as Hid by by apply py_int_str_int.
  assert (is_Some (vote_summaries (final proposed) !! str_int id)) as [v Hv].
  { rewrite Hfinal. unfold store_vote; cbn. rewrite lookup_insert_eq. by eexists. }
  assert (∃ rest, trace resolved = tally_trace plugin (str_int id) ++ rest)
    as [rest Hresolved].
  { destruct (end_vote_run env2 plugin _ _ v Hv)
      as [(_ & g' & _ & Hr)|[(_ & g' & u' & _ & _ & Hr)|[_ Hr]]];
      fold resolved in Hr; rewrite Hr; cbn [trace]; eauto.
    exists []. by rewrite app_nil_r. }
  eexists gz, _, id, rest. split; [done|]. split; [done|]. split; [done|].
  split; [done|]. rewrite Hresolved. unfold tally_trace, query_trace. by rewrite Hid.
Qed.

Lemma tally_queries_the_posted_message_witness :
  let text := py "/投票禁言 @123 5" in
  let msg := text_command text (py "1000") (py "42") in
  let groups := groups_of text in
  let env := sample_backend 77 2 1 in
  let proposed := run env empty_store (execute None msg groups) in
  let resolved := run env (final proposed) (_end_vote_after_delay None (py "77")) in
  (ascii_digits ∧
   (int_max_str_digits = 0 ∨ length (py "77") ≤ int_max_str_digits)%nat ∧
   result proposed = Returned accepted ∧
   tasks_created (trace proposed) = [py "77"]) ∧
  ∃ g text id rest,
    trace proposed = [Called (send_group_msg g text); TaskCreated (py "77")] ∧
    env (send_group_msg g text) = http_json (Some id) ∧
    py "77" = str_int id ∧ py_int (py "77") = Some id ∧
    trace resolved =
      Called (asyncio_sleep (vote_duration (default DEFAULT_CONFIG None)))
        :: Called (fetch_emoji_like id EMOJI_YES_ID (py "1"))
        :: Called (fetch_emoji_like id EMOJI_NO_ID EMOJI_NO_TYPE) :: rest.
Proof.
  intros text msg groups env proposed resolved.
  assert (int_max_str_digits = 0 ∨ length (py "77") ≤ int_max_str_digits)%nat
    as Hlimit.
  { right. assert (length (py "77") = 2%nat) as -> by (by vm_compute).
    change int_max_str_digits with 4300%nat. lia. }
  assert (result proposed = Returned accepted) as Hacc by (by vm_compute).
  assert (tasks_created (trace proposed) = [py "77"]) as Htasks by (by vm_compute).
  split; [exact (conj ascii_runtime_digits (conj Hlimit (conj Hacc Htasks)))|].
  exact (tally_queries_the_posted_message env env None empty_store msg groups (py "77")
           ascii_runtime_digits Hlimit Hacc Htasks).
Defined.

Section digits.
Context `{PyRuntime}.

Lemma int_digits_all_digits (s : pystr) acc b :
  is_digit 95 = false →
  Forall (λ c, is_digit c = true) s → s ≠ [] ∨ b = true →
  is_Some (int_digits acc b s).
Proof.
  intros Hunderscore Hs. revert acc b.
  induction Hs as [|c s Hc Hs IH]; intros acc b Hb.
  { destruct Hb as [?| ->]; [done|]. by eexists. }
  cbn. destruct (c =? 95)%N eqn:Hc95.
  { apply N.eqb_eq in Hc95 as ->. congruence. }
  unfold is_digit in Hc. apply bool_decide_eq_true in Hc as [d ->].
  apply IH. by right.
Qed.

(** [int()] accepts every run of digits within its limit. *)
Lemma py_int_all_digits (ds : pystr) :
  (∀ c, is_digit c = true → is_space c = false) →
  is_digit 43 = false → is_digit 95 = false →
  all_digits ds →
  (int_max_str_digits = 0 ∨ length ds ≤ int_max_str_digits)%nat →
  is_Some (py_int ds).
Proof.
  intros Hblank Hplus Hunderscore [Hne Hds] Hlimit. unfold py_int.
  rewrite int_strip_no_blank
    by (eapply Forall_impl; [exact Hds|]; intros c Hc; by apply Hblank).
  assert ((if within_digit_limit ds
           then (λ n, 1 * Z.of_N n) <$> int_digits 0 false ds
           else None) ≠ None) as Hbody.
  { rewrite (within_digit_limit_le ds ds) by done.
    destruct (int_digits_all_digits ds 0%N false Hunderscore Hds) as [n ->]; [by left|].
    done. }
  destruct ds as [|c ds]; [done|].
  apply Forall_cons in Hds as [Hc _].
  destruct (decide (c = 43%N)) as [->|Hc43]; [congruence|].
  destruct (decide (c = 45%N)) as [->|Hc45].
  { unfold is_digit in Hc. apply bool_decide_eq_true in Hc as [d Hd].
    by rewrite minus_sign_no_digit in Hd. }
  apply not_eq_None_Some.
  destruct c as [|p]; [exact Hbody|].
  repeat (destruct p as [p|p|]; try exact Hbody); done.
Qed.
End digits.

(** X21.  The minutes the requester gives are the minutes of the vote.
    When the command carries minutes, within the digit limit of [int()],
    an accepted vote stores the integer they denote, which is not
    negative: the configured default replaces them only beyond that
    limit.  Stated for a runtime where the digits are not blanks and
    neither the plus sign nor the underscore is a digit. *)
Theorem requested_minutes_are_used `{PyRuntime}
    env plugin st text msg groups key v ds :
  let r := run env st (execute plugin msg groups) in
  (∀ c, is_digit c = true → is_space c = false) →
  is_digit 43 = false → is_digit 95 = false →
  command_pattern text = Some groups →
  minutes_group groups = Some ds →
  (int_max_str_digits = 0 ∨ length ds ≤ int_max_str_digits)%nat →
  result r = Returned accepted →
  tasks_created (trace r) = [key] →
  vote_summaries (final r) !! key = Some v →
  py_int ds = Some (minutes v) ∧ 0 ≤ minutes v.
Proof.
  intros r Hblank Hplus Hunderscore Hpattern Hds Hlimit Hacc Htasks Hv.
  pose proof (command_pattern_minutes text groups ds Hpattern Hds) as Hdigits.
  destruct (py_int_all_digits ds Hblank Hplus Hunderscore Hdigits Hlimit) as [z Hz].
  destruct (execute_stored_record env plugin st msg groups key v Hacc Htasks Hv)
    as (g & t & _ & _ & _ & _ & _ & _ & _ & _ & _ & Hmin & _).
  assert (minutes v = z) as ->.
  { rewrite Hmin. unfold chosen_minutes. rewrite Hds.
    destruct Hdigits as [Hne _]. destruct ds as [|c ds]; [done|]. by rewrite Hz. }
  split; [done|]. eapply py_int_digits_nonneg; [apply Hdigits|done].
Qed.

Lemma requested_minutes_are_used_witness :
  let text := py "/投票禁言 @123 5" in
  let msg := text_command text (py "1000") (py "42") in
  let groups := groups_of text in
  let r := run (sample_backend 77 0 0) empty_store (execute None msg groups) in
  ((∀ c, is_digit c = true → is_space c = false) ∧
   is_digit 43 = false ∧ is_digit 95 = false ∧
   command_pattern text = Some groups ∧
   minutes_group groups = Some (py "5") ∧
   (int_max_str_digits = 0 ∨ length (py "5") ≤ int_max_str_digits)%nat ∧
   result r = Returned accepted ∧
   tasks_created (trace r) = [py "77"] ∧
   vote_summaries (final r) !! py "77" = Some sample_vote) ∧
  py_int (py "5") = Some (minutes sample_vote) ∧ 0 ≤ minutes sample_vote.
Proof.
  intros text msg groups r.
  assert (is_digit 43 = false) as Hplus by reflexivity.
  assert (is_digit 95 = false) as Hunderscore by reflexivity.
  assert (command_pattern text = Some groups) as Hpattern by (by vm_compute).
  assert (minutes_group groups = Some (py "5")) as Hds by (by vm_compute).
  assert (int_max_str_digits = 0 ∨ length (py "5") ≤ int_max_str_digits)%nat
    as Hlimit.
  { right. assert (length (py "5") = 1%nat) as -> by (by vm_compute).
    change int_max_str_digits with 4300%nat. lia. }
  assert (result r = Returned accepted) as Hacc by (by vm_compute).
  assert (tasks_created (trace r) = [py "77"]) as Htasks by (by vm_compute).
  assert (vote_summaries (final r) !! py "77" = Some sample_vote) as Hv
    by (by vm_compute).
  split;
    [exact (conj ascii_digit_no_space (conj Hplus (conj Hunderscore (conj Hpattern
              (conj Hds (conj Hlimit (conj Hacc (conj Htasks Hv))))))))|].
  exact (requested_minutes_are_used (sample_backend 77 0 0) None empty_store text msg
           groups (py "77") sample_vote (py "5") ascii_digit_no_space Hplus Hunderscore
           Hpattern Hds Hlimit Hacc Htasks Hv).
Defined.

(** * Reading the payload *)

Section payload_proofs.
Context `{PyRuntime} `{PyObjects}.

Lemma split_dot_nonempty p : Payload.split_dot p ≠ [].
Proof.
  destruct p as [|c p]; cbn; [done|].
  destruct (c =? 46)%N; [done|]. by destruct (Payload.split_dot p).
Qed.

Lemma split_dot_app p q :
  Payload.split_dot (p ++ 46%N :: q) = Payload.split_dot p ++ Payload.split_dot q.
Proof.
  induction p as [|c p IH]; cbn; [done|].
  destruct (c =? 46)%N; [by rewrite IH|].
  rewrite IH. pose proof (split_dot_nonempty p). by destruct (Payload.split_dot p).
Qed.

(** The loop over a path in two parts: either the first part leads to
    a value, whatever the default, and the loop goes on from there, or it
    gets stuck, and the default is the result. *)
Lemma dig_segments_app cur l1 l2 d :
  (∃ next, (∀ d', Payload.dig_segments cur l1 d' = next) ∧
           Payload.dig_segments cur (l1 ++ l2) d = Payload.dig_segments next l2 d)
  ∨ ((∀ d', Payload.dig_segments cur l1 d' = d') ∧
     Payload.dig_segments cur (l1 ++ l2) d = d).
Proof.
  revert cur. induction l1 as [|seg l1 IH]; intros cur.
  { left. by exists cur. }
  destruct cur as [|s|z|items|items|attrs]; cbn [app Payload.dig_segments];
    [by right|..].
  all: match goal with
       | |- context [Payload.getattr_ ?v ?name] =>
         destruct (Payload.getattr_ v name) as [next|];
           [destruct (IH next) as [(n & Hn & Hall)|[Hstuck Hall]];
              [left; by exists n|by right]|]
       end.
  all: try by right.
  destruct (items !! seg) as [next|]; [|by right].
  destruct (IH next) as [(n & Hn & Hall)|[Hstuck Hall]]; [left; by exists n|by right].
Qed.

Lemma first_non_none_text (vals : list pyval) :
  _first_non_none (Payload.text <$> vals)
  = Payload.str_ <$> _first_non_none (Payload.not_none <$> vals).
Proof.
  induction vals as [|v vals IH]; cbn; [done|].
  unfold Payload.text at 1. by destruct (Payload.not_none v).
Qed.

Lemma lstrip_head (s : pystr) :
  match lstrip s with [] => True | c :: _ => is_space c = false end.
Proof.
  induction s as [|c s IH]; cbn; [done|]. by destruct (is_space c) eqn:Hc.
Qed.

Lemma lstrip_suffix (s : pystr) : ∃ w, s = w ++ lstrip s.
Proof.
  induction s as [|c s [w IH]]; cbn; [by exists []|].
  destruct (is_space c).
  - exists (c :: w). cbn. by rewrite <- IH.
  - by exists [].
Qed.

Lemma strip_trimmed (s : pystr) : trimmed (strip s).
Proof.
  unfold trimmed, strip. rewrite reverse_involutive. split; [|apply lstrip_head].
  destruct (lstrip_suffix (reverse (lstrip s))) as [w Hw].
  pose proof (lstrip_head s) as Hhead.
  apply (f_equal reverse) in Hw. rewrite reverse_involutive, reverse_app in Hw.
  rewrite Hw in Hhead.
  by destruct (reverse (lstrip (reverse (lstrip s)))).
Qed.

Lemma first_text_trimmed (vals : list (option pystr)) : trimmed (_first_text vals).
Proof.
  induction vals as [|[v|] vals IH]; cbn; [done| |done].
  pose proof (strip_trimmed v). by destruct (strip v).
Qed.
End payload_proofs.

(** X17.  [_dig] follows a dotted path segment by segment.  From [None]
    it gives the default.  Along a path it either reaches a value,
    whatever the default, or gets stuck and gives the default; digging a
    path that goes on after a dot is digging the rest from the value the
    first part reaches, and gives the default when the first part gets
    stuck. *)
Theorem dig_follows_the_path `{PyRuntime} `{PyObjects} obj p q d :
  Payload._dig PNone p d = d ∧
  ((∃ cur, ∀ d', Payload._dig obj p d' = cur) ∨ (∀ d', Payload._dig obj p d' = d')) ∧
  (∀ cur, (∀ d', Payload._dig obj p d' = cur) →
     Payload._dig obj (p ++ 46%N :: q) d = Payload._dig cur q d) ∧
  ((∀ d', Payload._dig obj p d' = d') → Payload._dig obj (p ++ 46%N :: q) d = d).
Proof.
  unfold Payload._dig. rewrite split_dot_app.
  destruct (dig_segments_app obj (Payload.split_dot p) (Payload.split_dot q) d)
    as [(next & Hnext & Happ)|[Hstuck Happ]].
  - split; [|split; [|split]].
    + pose proof (split_dot_nonempty p). by destruct (Payload.split_dot p).
    + left. by exists next.
    + intros cur Hcur. rewrite Happ. by rewrite <- (Hcur PNone), Hnext.
    + intros Hstuck. pose proof (Hstuck PNone) as H1. pose proof (Hstuck (PInt 0)) as H2.
      rewrite Hnext in H1, H2. congruence.
  - split; [|split; [|split]].
    + pose proof (split_dot_nonempty p). by destruct (Payload.split_dot p).
    + by right.
    + intros cur Hcur. pose proof (Hcur PNone) as H1. pose proof (Hcur (PInt 0)) as H2.
      rewrite Hstuck in H1, H2. congruence.
    + done.
Qed.

(** The record [message] and the payload agree.  For a message whose
    candidate identifiers are the [str] of what [_dig] finds in the
    payload at the paths of the code, the group and the sender that
    [_resolve_ctx_from_message_any] resolves on the payload are those
    resolved on the record. *)
Lemma payload_context_is_the_message_context `{PyRuntime} `{PyObjects}
    payload (msg : message) :
  dig_group_id msg = Payload.text <$> Payload.group_id_candidates payload →
  dig_user_id msg = Payload.text <$> Payload.sender_qq_candidates payload →
  (Payload._resolve_ctx_from_message_any payload).1.1
  = _resolve_ctx_from_message_any msg.
Proof.
  intros Hgroup Hsender.
  unfold Payload._resolve_ctx_from_message_any, _resolve_ctx_from_message_any.
  rewrite Hgroup, Hsender, !first_non_none_text. cbn [fst snd].
  by rewrite <- !option_fmap_compose.
Qed.

Lemma payload_context_is_the_message_context_witness :
  let msg := context_of sample_payload in
  (dig_group_id msg = Payload.text <$> Payload.group_id_candidates sample_payload ∧
   dig_user_id msg = Payload.text <$> Payload.sender_qq_candidates sample_payload) ∧
  (Payload._resolve_ctx_from_message_any sample_payload).1.1
  = _resolve_ctx_from_message_any msg.
Proof.
  intros msg. split; [by split|].
  exact (payload_context_is_the_message_context sample_payload msg eq_refl eq_refl).
Defined.

(** The context of the sample payload: the blank card name is passed
    over and the nickname comes back without its blanks. *)
Example sample_payload_context :
  Payload._resolve_ctx_from_message_any sample_payload
  = (Some (py "1000"), Some (py "42"), [], py "Mai").
Proof. by vm_compute. Qed.

(** X19.  The names come back trimmed.  The display name
    [_get_display_name_from_any] returns, and the group name and the
    sender name [_resolve_ctx_from_message_any] returns, are empty or
    start and end with a character that is not a blank. *)
Theorem resolved_names_are_trimmed `{PyRuntime} `{PyObjects}
    payload user_like extra_like :
  trimmed (Payload._get_display_name_from_any user_like extra_like) ∧
  trimmed (Payload._resolve_ctx_from_message_any payload).1.2 ∧
  trimmed (Payload._resolve_ctx_from_message_any payload).2.
Proof.
  assert (∀ u e, trimmed (Payload._get_display_name_from_any u e)) as Hname.
  { intros u e. unfold Payload._get_display_name_from_any.
    pose proof (first_text_trimmed
      (Payload.text <$>
         [Payload._dig u (py "user_cardname") PNone; Payload._dig u (py "card") PNone;
          Payload._dig u (py "user_nickname") PNone;
          Payload._dig u (py "nickname") PNone;
          Payload._dig u (py "nick") PNone])) as Hfirst.
    destruct (_first_text _) as [|c name]; [|done].
    destruct e; try done; apply first_text_trimmed. }
  split; [apply Hname|]. split.
  - apply first_text_trimmed.
  - apply Hname.
Qed.
